(** * gocryptotrader: pair relatability, cross-exchange aggregation and polling

    A shallow embedding of the engine package (helpers.go, routines.go) and of
    the parts of the config package it calls.  Go slices are lists, Go maps
    with string keys are [gmap string _], a nil interface value or pointer is
    [None], an [error] result is an [option] (with [None] for [nil]), and
    float64 amounts are exact integers (sums are then exact, which is the
    setting in which the order-independence of the collation is stated).
    Calls made on an exchange during a polling task are recorded in a trace. *)

From Stdlib Require Import ZArith.
From stdpp Require Import base strings list gmap.

Local Open Scope string_scope.
Local Open Scope Z_scope.
Local Open Scope list_scope.

(** ** Package currency/pair *)

Module pair.

Definition CurrencyItem := string.

Record CurrencyPair := mkPair {
  Delimiter : string;
  FirstCurrency : CurrencyItem;
  SecondCurrency : CurrencyItem
}.

(** Modelled from the spec: package currency/pair is not part of the
    sources.  [NewCurrencyPair] builds a pair from two symbols; it takes no
    delimiter, so the pair carries the empty one. *)
Definition NewCurrencyPair (firstCurrency secondCurrency : string) : CurrencyPair :=
  {| Delimiter := EmptyString;
     FirstCurrency := firstCurrency;
     SecondCurrency := secondCurrency |}.

(** Modelled from the spec: [Swap] exchanges the two currencies of a pair
    (the reversed-quote convention) and keeps its delimiter. *)
Definition Swap (c : CurrencyPair) : CurrencyPair :=
  {| Delimiter := Delimiter c;
     FirstCurrency := SecondCurrency c;
     SecondCurrency := FirstCurrency c |}.

(** Modelled from the spec: the two equality modes of a pair.  With
    [exact = true] the (first, second) currencies match in that order, with
    [exact = false] they match in either order.  The delimiter is display
    only and takes no part in the comparison. *)
Definition Equal (c p : CurrencyPair) (exact : bool) : bool :=
  if exact then
    bool_decide (FirstCurrency c = FirstCurrency p)
    && bool_decide (SecondCurrency c = SecondCurrency p)
  else
    (bool_decide (FirstCurrency c = FirstCurrency p)
     && bool_decide (SecondCurrency c = SecondCurrency p))
    || (bool_decide (FirstCurrency c = SecondCurrency p)
        && bool_decide (SecondCurrency c = FirstCurrency p)).

(** Modelled from the spec: a pair is a duplicate of a list entry when it
    equals one of the entries in the equality mode in effect. *)
Fixpoint Contains (pairs : list CurrencyPair) (p : CurrencyPair) (exact : bool) : bool :=
  match pairs with
  | [] => false
  | q :: rest => if Equal q p exact then true else Contains rest p exact
  end.

(** Modelled from the spec: a pair contains a currency symbol when the
    symbol is its first or its second currency. *)
Definition ContainsCurrency (p : CurrencyPair) (c : string) : bool :=
  bool_decide (FirstCurrency p = c) || bool_decide (SecondCurrency p = c).

(** Modelled from the spec: the stablecoin filter drops every pair that
    contains the given symbol and keeps the others in their order. *)
Definition RemovePairsByFilter (p : list CurrencyPair) (filter : string) : list CurrencyPair :=
  fold_left
    (fun pairs x => if ContainsCurrency x filter then pairs else pairs ++ [x])
    p [].

End pair.

Import pair.

(** ** engine/helpers.go: the pair relatability engine *)

Section Relatable.

(** The translation table of package currency/translation is static data
    outside the sources; [GetTranslation] is its lookup, with [None] for the
    error returned when a symbol has no translation. *)
Variable GetTranslation : CurrencyItem -> option CurrencyItem.

(** The closure [addPair] appends to the captured slice [pairs]. *)
Definition addPair (pairs : list CurrencyPair) (p : CurrencyPair) : list CurrencyPair :=
  if Contains pairs p true then pairs else pairs ++ [p].

(** The closure [buildPairs], threading the captured slice. *)
Definition buildPairs (pairs : list CurrencyPair) (p : CurrencyPair) (incOrig : bool)
  : list CurrencyPair :=
  let pairs := if incOrig then addPair pairs p else pairs in
  let pairs :=
    match GetTranslation (FirstCurrency p) with
    | Some first =>
        let pairs := addPair pairs (NewCurrencyPair first (SecondCurrency p)) in
        match GetTranslation (SecondCurrency p) with
        | Some second => addPair pairs (NewCurrencyPair first second)
        | None => pairs
        end
    | None => pairs
    end in
  match GetTranslation (SecondCurrency p) with
  | Some second => addPair pairs (NewCurrencyPair (FirstCurrency p) second)
  | None => pairs
  end.

Definition GetRelatableCurrencies (p : CurrencyPair) (incOrig incUSDT : bool)
  : list CurrencyPair :=
  let pairs := buildPairs [] p incOrig in
  let pairs := buildPairs pairs (Swap p) incOrig in
  if negb incUSDT then RemovePairsByFilter pairs "USDT" else pairs.

End Relatable.

(** ** Packages exchanges/assets, exchanges/ticker, exchanges/orderbook *)

Module assets.

Definition AssetType := string.

Definition AssetTypeSpot : AssetType := "Spot".
Definition AssetTypeFutures : AssetType := "Futures".

End assets.

Import assets.

(** A Go [error]: the engine's sentinel [ErrExchangeNotFound], or any other
    error value, kept by its message. *)
Inductive error :=
| ErrExchangeNotFound
| errorString (msg : string).

Module ticker.

(** The fields of [ticker.Price] the engine reads or writes. *)
Record Price := {
  Pair : CurrencyPair;
  CurrencyPair : string;
  Last : Z;
  High : Z;
  Low : Z;
  Bid : Z;
  Ask : Z;
  Volume : Z
}.

(** The zero value of [var specificTicker ticker.Price]. *)
Definition zero : Price :=
  {| Pair := mkPair EmptyString EmptyString EmptyString;
     CurrencyPair := EmptyString;
     Last := 0; High := 0; Low := 0; Bid := 0; Ask := 0; Volume := 0 |}.

End ticker.

Module orderbook.

Record Item := { Amount : Z; Price : Z }.

Record Base := {
  Pair : CurrencyPair;
  Bids : list Item;
  Asks : list Item
}.

(** The zero value of [var specificOrderbook orderbook.Base]. *)
Definition zero : Base :=
  {| Pair := mkPair EmptyString EmptyString EmptyString; Bids := []; Asks := [] |}.

End orderbook.

(** ** Package exchanges: account types and the capability interface *)

Module exchange.

Record AccountCurrencyInfo := {
  CurrencyName : string;
  TotalValue : Z;
  Hold : Z
}.

Record Account := {
  ID : string;
  Currencies : list AccountCurrencyInfo
}.

Record AccountInfo := {
  Exchange : string;
  Accounts : list Account
}.

(** The zero value [exchange.AccountInfo{}]. *)
Definition zeroAccountInfo : AccountInfo :=
  {| Exchange := EmptyString; Accounts := [] |}.

(** The methods of [IBotExchange] the engine calls while polling and
    looking up.  A fetch answers with the Go pair (result, error). *)
Record IBotExchange := {
  GetName : string;
  IsEnabled : bool;
  SupportsREST : bool;
  SupportsRESTTickerBatchUpdates : bool;
  GetAssetTypes : list AssetType;
  GetEnabledPairs : AssetType -> list CurrencyPair;
  FetchTicker : CurrencyPair -> AssetType -> ticker.Price * option error;
  UpdateTicker : CurrencyPair -> AssetType -> ticker.Price * option error;
  FetchOrderbook : CurrencyPair -> AssetType -> orderbook.Base * option error;
  UpdateOrderbook : CurrencyPair -> AssetType -> orderbook.Base * option error
}.

End exchange.

Import exchange.

(** ** Package config *)

Module config.

Record CurrencyPairFormatConfig := {
  Uppercase : bool;
  Delimiter : string;
  Index : string
}.

Record CurrencyPairConfig := {
  Enabled : string;
  Available : string;
  PairConfigFormat : CurrencyPairFormatConfig
}.

(** [Spot], [Futures] and the format pointers are dereferenced by the code
    without a nil check; they are modelled as present.  Module [pointers]
    below has them as pointers, with the panic on a nil one, and every call
    that returns there is a call of the functions here. *)
Record CurrencyPairsConfig := {
  UseGlobalPairFormat : bool;
  ConfigFormat : CurrencyPairFormatConfig;
  Spot : CurrencyPairConfig;
  Futures : CurrencyPairConfig
}.

Record ExchangeConfig := {
  Name : string;
  ExchangeEnabled : bool;
  CurrencyPairs : option CurrencyPairsConfig
}.

Record Config := {
  Exchanges : list ExchangeConfig;
  WebsocketServerEnabled : bool
}.

Section Lookup.

(** Helpers of packages common and currency/pair that are outside the
    sources: lower-casing, splitting at a separator, and parsing the
    stored pair strings with the configured delimiter and index. *)
Variable StringToLower : string -> string.
Variable SplitStrings : string -> string -> list string.
Variable FormatPairs : list string -> string -> string -> list CurrencyPair.

Fixpoint findExchangeConfig (exchanges : list ExchangeConfig) (name : string)
  : option ExchangeConfig :=
  match exchanges with
  | [] => None
  | e :: rest =>
      if bool_decide (StringToLower (Name e) = StringToLower name) then Some e
      else findExchangeConfig rest name
  end.

Definition GetExchangeConfig (c : Config) (name : string)
  : option ExchangeConfig * option error :=
  match findExchangeConfig (Exchanges c) name with
  | Some e => (Some e, None)
  | None => (None, Some (errorString ("Exchange " +:+ name +:+ ": Not found.")))
  end.

Definition GetPairFormat (c : Config) (exchName : string) (assetType : AssetType)
  : option CurrencyPairFormatConfig * option error :=
  match GetExchangeConfig c exchName with
  | (Some exchCfg, None) =>
      match CurrencyPairs exchCfg with
      | None => (None, Some (errorString "exchange currency pairs type is nil"))
      | Some cp =>
          if UseGlobalPairFormat cp then (Some (ConfigFormat cp), None)
          else if bool_decide (assetType = AssetTypeSpot)
               then (Some (PairConfigFormat (Spot cp)), None)
               else (Some (PairConfigFormat (Futures cp)), None)
      end
  | (_, err) => (None, err)
  end.

Definition GetAvailablePairs (c : Config) (exchName : string) (assetType : AssetType)
  : list CurrencyPair * option error :=
  match GetExchangeConfig c exchName with
  | (Some exchCfg, None) =>
      match GetPairFormat c exchName assetType with
      | (Some pairFormat, None) =>
          match CurrencyPairs exchCfg with
          | Some cp =>
              if bool_decide (assetType = AssetTypeSpot) then
                (FormatPairs (SplitStrings (Available (Spot cp)) ",")
                   (Delimiter pairFormat) (Index pairFormat), None)
              else
                (FormatPairs (SplitStrings (Available (Futures cp)) ",")
                   (Delimiter pairFormat) (Index pairFormat), None)
          | None => ([], Some (errorString "exchange currency pairs type is nil"))
          end
      | (_, err) => ([], err)
      end
  | (_, err) => ([], err)
  end.

End Lookup.

End config.

(** ** Package portfolio: the ledger of addresses *)

Module portfolio.

(** The description given to ledger entries that stand for an exchange
    balance.  The constant's value is outside the sources; only its being
    one fixed string matters. *)
Definition PortfolioAddressExchange : string := "Exchange".

Record Address := {
  Address_ : string;
  CoinType : string;
  Balance : Z;
  Description : string
}.

Record Base := { Addresses : list Address }.

Definition matches (exchangeName coinType : string) (a : Address) : bool :=
  bool_decide (Address_ a = exchangeName) && bool_decide (CoinType a = coinType).

(** Modelled from the spec: package portfolio is not part of the sources.
    [ExchangeAddressExists] tells whether the ledger holds an entry for the
    exchange and currency. *)
Definition ExchangeAddressExists (p : Base) (exchangeName coinType : string) : bool :=
  existsb (matches exchangeName coinType) (Addresses p).

(** Modelled from the spec: [GetAddressBalance] reads the stored balance of
    the entry with the given address, currency and description, and reports
    with its second result whether there is one. *)
Fixpoint findBalance (l : list Address) (address coinType description : string)
  : Z * bool :=
  match l with
  | [] => (0, false)
  | a :: rest =>
      if matches address coinType a && bool_decide (Description a = description)
      then (Balance a, true)
      else findBalance rest address coinType description
  end.

Definition GetAddressBalance (p : Base) (address coinType description : string)
  : Z * bool :=
  findBalance (Addresses p) address coinType description.

(** Modelled from the spec: [RemoveExchangeAddress] removes the entry of
    the exchange and currency from the ledger. *)
Definition RemoveExchangeAddress (p : Base) (exchangeName coinType : string) : Base :=
  {| Addresses :=
       List.filter (fun a => negb (matches exchangeName coinType a)) (Addresses p) |}.

(** Modelled from the spec: [UpdateExchangeAddressBalance] stores the new
    balance in the entry of the exchange and currency. *)
Definition UpdateExchangeAddressBalance (p : Base) (exchangeName coinType : string)
    (balance : Z) : Base :=
  {| Addresses :=
       List.map
         (fun a =>
            if matches exchangeName coinType a
            then {| Address_ := Address_ a; CoinType := CoinType a;
                    Balance := balance; Description := Description a |}
            else a)
         (Addresses p) |}.

End portfolio.

(** ** Package engine *)

(** The global [Bot]: the loaded configuration and the exchange registry,
    whose slots may be nil. *)
Record Engine := {
  Config : config.Config;
  Exchanges : list (option IBotExchange)
}.

(** *** engine/helpers.go: cross-exchange aggregation *)

(** No entry of the list equals a later one in either order. *)
Definition distinctPairs (l : list CurrencyPair) : Prop :=
  forall (i j : nat) p q,
    (i < j)%nat -> l !! i = Some p -> l !! j = Some q -> Equal p q false = false.

Section Aggregation.

Variable StringToLower : string -> string.
Variable SplitStrings : string -> string -> list string.
Variable FormatPairs : list string -> string -> string -> list CurrencyPair.

(** The inner loop of [GetAllAvailablePairs] over one exchange's pairs. *)
Definition mergePairs (pairList pairs : list CurrencyPair) : list CurrencyPair :=
  fold_left
    (fun pairList p => if Contains pairList p false then pairList else pairList ++ [p])
    pairs pairList.

(** The body of the loop of [GetAllAvailablePairs] over the configured
    exchanges. *)
Definition collectAvailablePairs (Bot : Engine) (enabledExchangesOnly : bool)
    (assetType : AssetType) (pairList : list CurrencyPair)
    (exch : config.ExchangeConfig) : list CurrencyPair :=
  if enabledExchangesOnly && negb (config.ExchangeEnabled exch) then pairList
  else
    let exchName := config.Name exch in
    match config.GetAvailablePairs StringToLower SplitStrings FormatPairs
            (Config Bot) exchName assetType with
    | (_, Some _) => pairList
    | (pairs, None) => mergePairs pairList pairs
    end.

Definition GetAllAvailablePairs (Bot : Engine) (enabledExchangesOnly : bool)
    (assetType : AssetType) : list CurrencyPair :=
  fold_left (collectAvailablePairs Bot enabledExchangesOnly assetType)
    (config.Exchanges (Config Bot)) [].

(** A pair contributed by an exchange: the exchange is configured, passes
    the enabled filter, and its fetch succeeded with the pair in it. *)
Definition contributed (Bot : Engine) (enabledExchangesOnly : bool)
    (assetType : AssetType) (p : CurrencyPair) : Prop :=
  exists exch pairs,
    In exch (config.Exchanges (Config Bot))
    /\ (enabledExchangesOnly = true -> config.ExchangeEnabled exch = true)
    /\ config.GetAvailablePairs StringToLower SplitStrings FormatPairs
         (Config Bot) (config.Name exch) assetType = (pairs, None)
    /\ In p pairs.

End Aggregation.

(** *** engine/helpers.go: lookups that target one exchange by name *)

Section Lookups.

(** [pair.NewCurrencyPairFromString] parses a pair string; it is outside
    the sources. *)
Variable NewCurrencyPairFromString : string -> CurrencyPair.

Fixpoint findSpecificOrderbook (exchanges : list (option IBotExchange))
    (currency exchangeName : string) (assetType : AssetType)
  : orderbook.Base * option error :=
  match exchanges with
  | [] => (orderbook.zero, None)
  | None :: rest => findSpecificOrderbook rest currency exchangeName assetType
  | Some exch :: rest =>
      if bool_decide (GetName exch = exchangeName) then
        FetchOrderbook exch (NewCurrencyPairFromString currency) assetType
      else findSpecificOrderbook rest currency exchangeName assetType
  end.

Definition GetSpecificOrderbook (Bot : Engine) (currency exchangeName : string)
    (assetType : AssetType) : orderbook.Base * option error :=
  findSpecificOrderbook (Exchanges Bot) currency exchangeName assetType.

Fixpoint findSpecificTicker (exchanges : list (option IBotExchange))
    (currency exchangeName : string) (assetType : AssetType)
  : ticker.Price * option error :=
  match exchanges with
  | [] => (ticker.zero, None)
  | None :: rest => findSpecificTicker rest currency exchangeName assetType
  | Some exch :: rest =>
      if bool_decide (GetName exch = exchangeName) then
        FetchTicker exch (NewCurrencyPairFromString currency) assetType
      else findSpecificTicker rest currency exchangeName assetType
  end.

Definition GetSpecificTicker (Bot : Engine) (currency exchangeName : string)
    (assetType : AssetType) : ticker.Price * option error :=
  findSpecificTicker (Exchanges Bot) currency exchangeName assetType.

End Lookups.

Fixpoint GetAccountCurrencyInfoByExchangeName (accounts : list AccountInfo)
    (exchangeName : string) : AccountInfo * option error :=
  match accounts with
  | [] => (zeroAccountInfo, Some ErrExchangeNotFound)
  | a :: rest =>
      if bool_decide (Exchange a = exchangeName) then (a, None)
      else GetAccountCurrencyInfoByExchangeName rest exchangeName
  end.

(** *** engine/helpers.go: collating balances by coin *)

(** The body of the innermost loop of
    [GetCollatedExchangeAccountInfoByCoin]. *)
Definition collateCurrency (result : gmap string AccountCurrencyInfo)
    (accountCurrencyInfo : AccountCurrencyInfo) : gmap string AccountCurrencyInfo :=
  let currencyName := CurrencyName accountCurrencyInfo in
  let avail := TotalValue accountCurrencyInfo in
  let onHold := Hold accountCurrencyInfo in
  match result !! currencyName with
  | None =>
      <[currencyName :=
          {| CurrencyName := currencyName; TotalValue := avail; Hold := onHold |}]> result
  | Some info =>
      <[currencyName :=
          {| CurrencyName := CurrencyName info;
             TotalValue := TotalValue info + avail;
             Hold := Hold info + onHold |}]> result
  end.

Definition GetCollatedExchangeAccountInfoByCoin (exchAccounts : list AccountInfo)
  : gmap string AccountCurrencyInfo :=
  fold_left
    (fun result accounts =>
       fold_left
         (fun result account => fold_left collateCurrency (Currencies account) result)
         (Accounts accounts) result)
    exchAccounts ∅.

(** The currency entries of all accounts of all exchanges, in the order in
    which the three nested loops visit them. *)
Definition accountCurrencies (exchAccounts : list AccountInfo) : list AccountCurrencyInfo :=
  concat (List.map (fun accounts => concat (List.map Currencies (Accounts accounts)))
            exchAccounts).

(** *** engine/helpers.go: seeding the portfolio ledger *)

(** The loop [for i := range currencies] of [SeedExchangeAccountInfo]: adds
    [info] to every running total of its currency and reports whether there
    was one. *)
Fixpoint accumulate (currencies : list AccountCurrencyInfo) (info : AccountCurrencyInfo)
  : list AccountCurrencyInfo * bool :=
  match currencies with
  | [] => ([], false)
  | c :: rest =>
      let '(rest', update) := accumulate rest info in
      if bool_decide (CurrencyName info = CurrencyName c) then
        ({| CurrencyName := CurrencyName c;
            TotalValue := TotalValue c + TotalValue info;
            Hold := Hold c + Hold info |} :: rest', true)
      else (c :: rest', update)
  end.

Definition sumCurrency (currencies : list AccountCurrencyInfo) (info : AccountCurrencyInfo)
  : list AccountCurrencyInfo :=
  let '(currencies', update) := accumulate currencies info in
  if update then currencies'
  else currencies ++ [ {| CurrencyName := CurrencyName info;
                          TotalValue := TotalValue info;
                          Hold := Hold info |} ].

(** The per-exchange totals [currencies] built from all its accounts. *)
Definition sumAccounts (exchangeData : AccountInfo) : list AccountCurrencyInfo :=
  fold_left
    (fun currencies account => fold_left sumCurrency (Currencies account) currencies)
    (Accounts exchangeData) [].






(** The mutations of the ledger, recorded as they are performed. *)
Inductive ledgerOp :=
| OpAdd (exchangeName currencyName : string) (balance : Z)
| OpRemove (exchangeName currencyName : string)
| OpUpdate (exchangeName currencyName : string) (balance : Z).

(** The body of the loop [for _, total := range currencies]: the ledger and
    the record of the mutations are threaded through. *)
Definition seedCurrency (exchangeName : string)
    (st : portfolio.Base * list ledgerOp) (total : AccountCurrencyInfo)
  : portfolio.Base * list ledgerOp :=
  let '(port, ops) := st in
  let currencyName := CurrencyName total in
  let total := TotalValue total in
  if negb (portfolio.ExchangeAddressExists port exchangeName currencyName) then
    if total <=? 0 then (port, ops)
    else
      ({| portfolio.Addresses :=
            portfolio.Addresses port ++
            [ {| portfolio.Address_ := exchangeName;
                 portfolio.CoinType := currencyName;
                 portfolio.Balance := total;
                 portfolio.Description := portfolio.PortfolioAddressExchange |} ] |},
       ops ++ [OpAdd exchangeName currencyName total])
  else if total <=? 0 then
    (portfolio.RemoveExchangeAddress port exchangeName currencyName,
     ops ++ [OpRemove exchangeName currencyName])
  else
    let '(balance, ok) :=
      portfolio.GetAddressBalance port exchangeName currencyName
        portfolio.PortfolioAddressExchange in
    if negb ok then (port, ops)
    else if negb (balance =? total) then
      (portfolio.UpdateExchangeAddressBalance port exchangeName currencyName total,
       ops ++ [OpUpdate exchangeName currencyName total])
    else (port, ops).

Definition seedExchange (st : portfolio.Base * list ledgerOp) (exchangeData : AccountInfo)
  : portfolio.Base * list ledgerOp :=
  fold_left (seedCurrency (Exchange exchangeData)) (sumAccounts exchangeData) st.

(** [SeedExchangeAccountInfo] on the ledger [port] returned by
    [portfolio.GetPortfolio]: the ledger after the call and the mutations
    performed. *)
Definition SeedExchangeAccountInfo (data : list AccountInfo) (port : portfolio.Base)
  : portfolio.Base * list ledgerOp :=
  if bool_decide (length data = 0%nat) then (port, [])
  else fold_left seedExchange data (port, []).

(** The ledger entries of an exchange and currency, and whether a recorded
    mutation is one of that exchange and currency. *)
Definition entriesFor (exchangeName currencyName : string) (port : portfolio.Base)
  : list portfolio.Address :=
  List.filter (portfolio.matches exchangeName currencyName) (portfolio.Addresses port).

Definition touches (exchangeName currencyName : string) (op : ledgerOp) : bool :=
  match op with
  | OpAdd e c _ | OpRemove e c | OpUpdate e c _ =>
      bool_decide (e = exchangeName) && bool_decide (c = currencyName)
  end.

(** A stretch of the run that leaves the entries of an exchange and currency
    as they are and records no mutation of them. *)
Definition quiet (exchangeName currencyName : string)
    (st st' : portfolio.Base * list ledgerOp) : Prop :=
  entriesFor exchangeName currencyName (fst st')
  = entriesFor exchangeName currencyName (fst st)
  /\ exists extra,
       snd st' = snd st ++ extra
       /\ Forall (fun op => touches exchangeName currencyName op = false) extra.


(** *** engine/routines.go: one iteration of the polling loops *)

(** What a per-exchange task does, in order: the calls on the exchange and,
    after a successful one, the staging and the relay of the result.  The
    log lines and the statistics kept by the summary printers are left out. *)
Inductive event :=
| CallUpdateTicker (exchangeName : string) (c : CurrencyPair) (assetType : AssetType)
| CallFetchTicker (exchangeName : string) (c : CurrencyPair) (assetType : AssetType)
| CallUpdateOrderbook (exchangeName : string) (c : CurrencyPair) (assetType : AssetType)
| StageTickerData (exchangeName : string) (assetType : AssetType) (result : ticker.Price)
| StageOrderbookData (exchangeName : string) (assetType : AssetType)
    (result : orderbook.Base)
| relayWebsocketEvent (evt : string) (assetType : string) (exchangeName : string).

Definition processTicker (Bot : Engine) (exchangeName : string) (exch : IBotExchange)
    (update : bool) (c : CurrencyPair) (assetType : AssetType) : list event :=
  let '(call, (result, err)) :=
    if update then (CallUpdateTicker exchangeName c assetType, UpdateTicker exch c assetType)
    else (CallFetchTicker exchangeName c assetType, FetchTicker exch c assetType) in
  call ::
  match err with
  | None =>
      StageTickerData exchangeName assetType result ::
      (if config.WebsocketServerEnabled (Config Bot)
       then [relayWebsocketEvent "ticker_update" assetType exchangeName]
       else [])
  | Some _ => []
  end.

(** The goroutine started for slot [x] by [TickerUpdaterRoutine]. *)
Definition tickerTask (Bot : Engine) (x : nat) : list event :=
  match Exchanges Bot !! x with
  | Some (Some exch) =>
      if negb (SupportsREST exch) then []
      else
        let exchangeName := GetName exch in
        let supportsBatching := SupportsRESTTickerBatchUpdates exch in
        let assetTypes := GetAssetTypes exch in
        concat
          (List.map
             (fun assetType =>
                let enabledCurrencies := GetEnabledPairs exch assetType in
                concat
                  (imap
                     (fun z c =>
                        if supportsBatching && (0 <? z)%nat
                        then processTicker Bot exchangeName exch false c assetType
                        else processTicker Bot exchangeName exch true c assetType)
                     enabledCurrencies))
             assetTypes)
  | _ => []
  end.

Definition processOrderbook (Bot : Engine) (exchangeName : string) (exch : IBotExchange)
    (c : CurrencyPair) (assetType : AssetType) : list event :=
  let '(result, err) := UpdateOrderbook exch c assetType in
  CallUpdateOrderbook exchangeName c assetType ::
  match err with
  | None =>
      StageOrderbookData exchangeName assetType result ::
      (if config.WebsocketServerEnabled (Config Bot)
       then [relayWebsocketEvent "orderbook_update" assetType exchangeName]
       else [])
  | Some _ => []
  end.

(** The goroutine started for slot [x] by [OrderbookUpdaterRoutine]. *)
Definition orderbookTask (Bot : Engine) (x : nat) : list event :=
  match Exchanges Bot !! x with
  | Some (Some exch) =>
      if negb (SupportsREST exch) then []
      else
        let exchangeName := GetName exch in
        let assetTypes := GetAssetTypes exch in
        concat
          (List.map
             (fun assetType =>
                let enabledCurrencies := GetEnabledPairs exch assetType in
                concat
                  (List.map (fun c => processOrderbook Bot exchangeName exch c assetType)
                     enabledCurrencies))
             assetTypes)
  | _ => []
  end.

(** One pass of the body of [for { ... }]: a task per slot of the registry,
    each with its own trace; the tasks are not ordered among themselves. *)
Definition TickerUpdaterRoutine (Bot : Engine) : list (list event) :=
  List.map (tickerTask Bot) (seq 0 (length (Exchanges Bot))).

Definition OrderbookUpdaterRoutine (Bot : Engine) : list (list event) :=
  List.map (orderbookTask Bot) (seq 0 (length (Exchanges Bot))).

(** The calls on the exchange among the events of a trace. *)
Definition isFetch (e : event) : bool :=
  match e with
  | CallUpdateTicker _ _ _ | CallFetchTicker _ _ _ | CallUpdateOrderbook _ _ _ => true
  | _ => false
  end.

Definition fetches (trace : list event) : list event := List.filter isFetch trace.

(** A run of calls in which only the first is a network update and every
    later one reads the cache. *)
Definition updatesFirstOnly (calls : list event) : bool :=
  match calls with
  | [] => true
  | first :: later =>
      match first with CallUpdateTicker _ _ _ => true | _ => false end
      && forallb (fun e => match e with CallFetchTicker _ _ _ => true | _ => false end)
           later
  end.

(** The calls of a batching exchange for one asset type: a network update
    for the first enabled pair, a cache read for each pair after it. *)
Definition batchedCalls (exch : IBotExchange) (assetType : AssetType) : list event :=
  match GetEnabledPairs exch assetType with
  | [] => []
  | c :: later =>
      CallUpdateTicker (GetName exch) c assetType
      :: List.map (fun c => CallFetchTicker (GetName exch) c assetType) later
  end.

(** ** Concrete inputs used by the examples *)

(** A translation table with the equivalences the sources mention
    (BTC and XBT, USD and USDT), read in both directions. *)
Definition exampleTranslation (c : CurrencyItem) : option CurrencyItem :=
  if bool_decide (c = "BTC") then Some "XBT"
  else if bool_decide (c = "XBT") then Some "BTC"
  else if bool_decide (c = "USD") then Some "USDT"
  else if bool_decide (c = "USDT") then Some "USD"
  else None.

Definition btc_usd : CurrencyPair := mkPair "-" "BTC" "USD".
Definition btc_xbt : CurrencyPair := NewCurrencyPair "BTC" "XBT".

Definition ltc_usd : CurrencyPair := mkPair "-" "LTC" "USD".

(** Stand-ins for the string helpers of the config lookups: splitting at a
    one-character separator and parsing FIRST-SECOND at the delimiter. *)
Fixpoint splitAt (sep : Ascii.ascii) (s cur : string) : list string :=
  match s with
  | EmptyString => [cur]
  | String ch rest =>
      if bool_decide (ch = sep) then cur :: splitAt sep rest EmptyString
      else splitAt sep rest (cur +:+ String ch EmptyString)
  end.

Definition exampleSplitStrings (s sep : string) : list string :=
  match s, sep with
  | EmptyString, _ => []
  | _, String ch EmptyString => splitAt ch s EmptyString
  | _, _ => [s]
  end.

Definition exampleFormatPairs (pairs : list string) (delimiter index : string)
  : list CurrencyPair :=
  List.map
    (fun s =>
       match delimiter with
       | String ch EmptyString =>
           match splitAt ch s EmptyString with
           | [a; b] => mkPair delimiter a b
           | _ => mkPair delimiter s EmptyString
           end
       | _ => mkPair delimiter s EmptyString
       end)
    pairs.

Definition examplePairsConfig (available : string) : option config.CurrencyPairsConfig :=
  let format :=
    {| config.Uppercase := true; config.Delimiter := "-"; config.Index := EmptyString |} in
  Some {| config.UseGlobalPairFormat := true;
          config.ConfigFormat := format;
          config.Spot := {| config.Enabled := available; config.Available := available;
                            config.PairConfigFormat := format |};
          config.Futures := {| config.Enabled := EmptyString;
                               config.Available := EmptyString;
                               config.PairConfigFormat := format |} |}.

(** Four configured exchanges: A lists BTC-USD and LTC-USD, B is disabled,
    C lists USD-BTC, the reverse of a pair of A, and D has no pair settings,
    so that its fetch errors. *)
Definition exampleConfig : config.Config :=
  {| config.Exchanges :=
       [ {| config.Name := "A"; config.ExchangeEnabled := true;
            config.CurrencyPairs := examplePairsConfig "BTC-USD,LTC-USD" |};
         {| config.Name := "B"; config.ExchangeEnabled := false;
            config.CurrencyPairs := examplePairsConfig "BTC-USD,ETH-USD" |};
         {| config.Name := "C"; config.ExchangeEnabled := true;
            config.CurrencyPairs := examplePairsConfig "USD-BTC,XRP-USD" |};
         {| config.Name := "D"; config.ExchangeEnabled := true;
            config.CurrencyPairs := None |} ];
     config.WebsocketServerEnabled := false |}.

Definition exampleExchange (name : string) (enabled rest batching : bool)
    (assetTypes : list AssetType) : IBotExchange :=
  {| GetName := name;
     IsEnabled := enabled;
     SupportsREST := rest;
     SupportsRESTTickerBatchUpdates := batching;
     GetAssetTypes := assetTypes;
     GetEnabledPairs := fun _ => [btc_usd; ltc_usd];
     FetchTicker := fun _ _ => (ticker.zero, None);
     UpdateTicker := fun _ _ => (ticker.zero, None);
     FetchOrderbook := fun _ _ => (orderbook.zero, None);
     UpdateOrderbook := fun _ _ => (orderbook.zero, None) |}.

(** A registry with an empty slot, an exchange that is switched off but
    speaks REST, and a batching exchange with two asset types. *)
Definition exampleBot : Engine :=
  {| Config := exampleConfig;
     Exchanges :=
       [ None;
         Some (exampleExchange "Bitstamp" false true false [AssetTypeSpot]);
         Some (exampleExchange "OKEX" true true true [AssetTypeSpot; AssetTypeFutures]) ] |}.

Definition bitfinexAccounts : AccountInfo :=
  {| Exchange := "Bitfinex";
     Accounts :=
       [ {| ID := "trading";
            Currencies := [ {| CurrencyName := "BTC"; TotalValue := 3; Hold := 1 |};
                            {| CurrencyName := "ETH"; TotalValue := 7; Hold := 0 |} ] |};
         {| ID := "funding";
            Currencies := [ {| CurrencyName := "BTC"; TotalValue := -3; Hold := 0 |} ] |} ] |}.

Definition krakenAccounts : AccountInfo :=
  {| Exchange := "Kraken";
     Accounts :=
       [ {| ID := "main";
            Currencies := [ {| CurrencyName := "BTC"; TotalValue := 2; Hold := 2 |} ] |} ] |}.

Definition exampleAccounts : list AccountInfo := [bitfinexAccounts; krakenAccounts].

Definition exampleLedger : portfolio.Base :=
  {| portfolio.Addresses :=
       [ {| portfolio.Address_ := "Bitfinex"; portfolio.CoinType := "BTC";
            portfolio.Balance := 4;
            portfolio.Description := portfolio.PortfolioAddressExchange |};
         {| portfolio.Address_ := "Kraken"; portfolio.CoinType := "BTC";
            portfolio.Balance := 2;
            portfolio.Description := portfolio.PortfolioAddressExchange |} ] |}.

(** ** Further functions of engine/helpers.go and of package config *)

Module cfg.

Section Lookup.

Variable StringToLower : string -> string.
Variable SplitStrings : string -> string -> list string.
Variable FormatPairs : list string -> string -> string -> list CurrencyPair.

(** [Config.SupportsPair]. *)
Definition SupportsPair (c : config.Config) (exchName : string) (p : CurrencyPair)
    (assetType : AssetType) : bool * option error :=
  match config.GetAvailablePairs StringToLower SplitStrings FormatPairs c exchName assetType with
  | (pairs, None) => (Contains pairs p false, None)
  | (_, Some err) => (false, Some err)
  end.

(** [Config.GetEnabledPairs]. *)
Definition GetEnabledPairs (c : config.Config) (exchName : string) (assetType : AssetType)
  : list CurrencyPair * option error :=
  match config.GetExchangeConfig StringToLower c exchName with
  | (Some exchCfg, None) =>
      match config.GetPairFormat StringToLower c exchName assetType with
      | (Some pairFormat, None) =>
          match config.CurrencyPairs exchCfg with
          | Some cp =>
              if bool_decide (assetType = AssetTypeSpot) then
                (FormatPairs (SplitStrings (config.Enabled (config.Spot cp)) ",")
                   (config.Delimiter pairFormat) (config.Index pairFormat), None)
              else
                (FormatPairs (SplitStrings (config.Enabled (config.Futures cp)) ",")
                   (config.Delimiter pairFormat) (config.Index pairFormat), None)
          | None => ([], Some (errorString "exchange currency pairs type is nil"))
          end
      | (_, err) => ([], err)
      end
  | (_, err) => ([], err)
  end.

(** The loop of [Config.UpdateExchangeConfig]: the first exchange whose
    lower-cased name is that of [e] is replaced; the flag tells whether there
    was one. *)
Fixpoint replaceExchangeConfig (exchanges : list config.ExchangeConfig)
    (e : config.ExchangeConfig) : list config.ExchangeConfig * bool :=
  match exchanges with
  | [] => ([], false)
  | x :: rest =>
      if bool_decide (StringToLower (config.Name x) = StringToLower (config.Name e))
      then (e :: rest, true)
      else let '(rest', found) := replaceExchangeConfig rest e in (x :: rest', found)
  end.

(** [Config.UpdateExchangeConfig]: the configuration after the call and the
    error returned. *)
Definition UpdateExchangeConfig (c : config.Config) (e : config.ExchangeConfig)
  : config.Config * option error :=
  match replaceExchangeConfig (config.Exchanges c) e with
  | (exchanges, true) =>
      ({| config.Exchanges := exchanges;
          config.WebsocketServerEnabled := config.WebsocketServerEnabled c |}, None)
  | (_, false) =>
      (c, Some (errorString ("Exchange " +:+ config.Name e +:+ ": Not found.")))
  end.

End Lookup.

(** [Config.GetEnabledExchanges], [Config.GetDisabledExchanges] and
    [Config.CountEnabledExchanges]. *)
Definition GetEnabledExchanges (c : config.Config) : list string :=
  fold_left
    (fun enabledExchs exch =>
       if config.ExchangeEnabled exch then enabledExchs ++ [config.Name exch]
       else enabledExchs)
    (config.Exchanges c) [].

Definition GetDisabledExchanges (c : config.Config) : list string :=
  fold_left
    (fun disabledExchs exch =>
       if negb (config.ExchangeEnabled exch) then disabledExchs ++ [config.Name exch]
       else disabledExchs)
    (config.Exchanges c) [].

Definition CountEnabledExchanges (c : config.Config) : Z :=
  fold_left
    (fun counter exch => if config.ExchangeEnabled exch then counter + 1 else counter)
    (config.Exchanges c) 0.

End cfg.

Section MoreHelpers.

Variable StringToLower : string -> string.
Variable SplitStrings : string -> string -> list string.
Variable FormatPairs : list string -> string -> string -> list CurrencyPair.

(** The predicates and the symbol lists of package currency, which is
    outside the sources. *)
Variable IsCryptoFiatPair : CurrencyPair -> bool.
Variable IsCryptoPair : CurrencyPair -> bool.

(** Whether the fiat branch of [GetSpecificAvailablePairs] takes the pair. *)
Definition fiatSelected (includeUSDT : bool) (p : CurrencyPair) : bool :=
  (IsCryptoFiatPair p && negb (ContainsCurrency p "USDT"))
  || (includeUSDT && ContainsCurrency p "USDT" && IsCryptoPair p).

(** The body of the loop of [GetSpecificAvailablePairs]; a [continue] in the
    fiat branch skips the crypto branch. *)
Definition specificPairStep (fiatPairs includeUSDT cryptoPairs : bool)
    (pairList : list CurrencyPair) (p : CurrencyPair) : list CurrencyPair :=
  if fiatPairs && fiatSelected includeUSDT p && Contains pairList p false then pairList
  else
    let pairList :=
      if fiatPairs && fiatSelected includeUSDT p then pairList ++ [p] else pairList in
    if cryptoPairs && IsCryptoPair p then
      if Contains pairList p false then pairList else pairList ++ [p]
    else pairList.

Definition GetSpecificAvailablePairs (Bot : Engine)
    (enabledExchangesOnly fiatPairs includeUSDT cryptoPairs : bool)
    (assetType : AssetType) : list CurrencyPair :=
  let supportedPairs :=
    GetAllAvailablePairs StringToLower SplitStrings FormatPairs
      Bot enabledExchangesOnly assetType in
  fold_left (specificPairStep fiatPairs includeUSDT cryptoPairs) supportedPairs [].

(** The body of the inner loop of [MapCurrenciesByExchange]. *)
Definition mapCurrencyStep (Bot : Engine) (enabledExchangesOnly : bool)
    (assetType : AssetType) (p : CurrencyPair)
    (currencyExchange : gmap string (list CurrencyPair)) (exch : config.ExchangeConfig)
  : gmap string (list CurrencyPair) :=
  if enabledExchangesOnly && negb (config.ExchangeEnabled exch) then currencyExchange
  else
    let exchName := config.Name exch in
    match cfg.SupportsPair StringToLower SplitStrings FormatPairs
            (Config Bot) exchName p assetType with
    | (_, Some _) => currencyExchange
    | (false, None) => currencyExchange
    | (true, None) =>
        match currencyExchange !! exchName with
        | None => <[exchName := [p]]> currencyExchange
        | Some result =>
            if Contains result p false then currencyExchange
            else <[exchName := result ++ [p]]> currencyExchange
        end
    end.

Definition MapCurrenciesByExchange (Bot : Engine) (p : list CurrencyPair)
    (enabledExchangesOnly : bool) (assetType : AssetType)
  : gmap string (list CurrencyPair) :=
  fold_left
    (fun currencyExchange px =>
       fold_left (mapCurrencyStep Bot enabledExchangesOnly assetType px)
         (config.Exchanges (Config Bot)) currencyExchange)
    p ∅.

Definition GetExchangeNamesByCurrency (Bot : Engine) (p : CurrencyPair)
    (enabled : bool) (assetType : AssetType) : list string :=
  fold_left
    (fun exchanges exch =>
       if negb (eqb enabled (config.ExchangeEnabled exch)) then exchanges
       else
         let exchName := config.Name exch in
         match cfg.SupportsPair StringToLower SplitStrings FormatPairs
                 (Config Bot) exchName p assetType with
         | (_, Some _) => exchanges
         | (true, None) => exchanges ++ [exchName]
         | (false, None) => exchanges
         end)
    (config.Exchanges (Config Bot)) [].

End MoreHelpers.

(** The loop shared by [GetRelatableCryptocurrencies] and
    [GetRelatableFiatCurrencies]: the first currency of [p] paired with each
    symbol of the list. *)
Definition relatableWith (currencies : list string) (p : CurrencyPair) : list CurrencyPair :=
  fold_left
    (fun pairs c =>
       let newPair := NewCurrencyPair (FirstCurrency p) c in
       if Contains pairs newPair false then pairs else pairs ++ [newPair])
    currencies [].

Section Relatability.

Variable GetTranslation : CurrencyItem -> option CurrencyItem.
Variable IsCryptoFiatPair : CurrencyPair -> bool.

(** The globals [currency.CryptoCurrencies] and [currency.FiatCurrencies]. *)
Variable CryptoCurrencies : list string.
Variable FiatCurrencies : list string.

Definition GetRelatableCryptocurrencies (p : CurrencyPair) : list CurrencyPair :=
  relatableWith CryptoCurrencies p.

Definition GetRelatableFiatCurrencies (p : CurrencyPair) : list CurrencyPair :=
  relatableWith FiatCurrencies p.

(** [IsRelatablePairs].  The loop ranges over the relatable pairs as they
    are when it starts and appends the fiat pairs of each to the slice. *)
Definition IsRelatablePairs (p1 p2 : CurrencyPair) (includeUSDT : bool) : bool :=
  if Equal p1 p2 false then true
  else
    let relatablePairs := GetRelatableCurrencies GetTranslation p1 true includeUSDT in
    let relatablePairs :=
      if IsCryptoFiatPair p1 then
        fold_left (fun acc x => acc ++ GetRelatableFiatCurrencies x)
          relatablePairs relatablePairs
      else relatablePairs in
    Contains relatablePairs p2 false.

End Relatability.



(** What [MapCurrenciesByExchange] stores for an exchange that supports the
    pair [p], given what it held for the exchange before. *)
Definition withPair (held : option (list CurrencyPair)) (p : CurrencyPair)
  : list CurrencyPair :=
  match held with
  | None => [p]
  | Some result => if Contains result p false then result else result ++ [p]
  end.

(** Whether an exchange of the configuration passes the enabled filter. *)
Definition passesFilter (enabledExchangesOnly : bool) (exch : config.ExchangeConfig) : bool :=
  negb (enabledExchangesOnly && negb (config.ExchangeEnabled exch)).


(** Whether a configured exchange passes the enabled filter and supports the
    pair without error. *)
Definition offers (StringToLower : string -> string)
    (SplitStrings : string -> string -> list string)
    (FormatPairs : list string -> string -> string -> list CurrencyPair)
    (Bot : Engine) (enabledExchangesOnly : bool) (assetType : AssetType)
    (p : CurrencyPair) (exch : config.ExchangeConfig) : bool :=
  passesFilter enabledExchangesOnly exch
  && match cfg.SupportsPair StringToLower SplitStrings FormatPairs
             (Config Bot) (config.Name exch) p assetType with
     | (true, None) => true
     | _ => false
     end.





(** A ledger with at most one entry per exchange and currency. *)
Definition uniqueEntries (port : portfolio.Base) : Prop :=
  NoDup (List.map (fun a => (portfolio.Address_ a, portfolio.CoinType a))
           (portfolio.Addresses port)).


(** The two currencies of a pair, in their order: what the strict-order
    comparison looks at. *)
Definition currenciesOf (p : CurrencyPair) : CurrencyItem * CurrencyItem :=
  (FirstCurrency p, SecondCurrency p).


(** ** engine/restful_server.go: all active tickers and order books *)

(** [EnabledExchangeCurrencies] and [EnabledExchangeOrderbooks], which differ
    in the type of the values only. *)
Record EnabledExchangeValues (V : Type) := {
  ExchangeName : string;
  ExchangeValues : list V
}.

Arguments ExchangeName {V} _.
Arguments ExchangeValues {V} _.

Section ActiveValues.

Context {V : Type}.

(** The fetch of the loop: [FetchTicker] or [FetchOrderbook]. *)
Variable fetch : IBotExchange -> CurrencyPair -> AssetType -> V * option error.

(** The loop over the enabled pairs of one asset type: a failed fetch is
    logged and skipped. *)
Definition fetchValues (exch : IBotExchange) (assetType : AssetType) (values : list V)
  : list V :=
  fold_left
    (fun values c =>
       match fetch exch c assetType with
       | (_, Some _) => values
       | (tp, None) => values ++ [tp]
       end)
    (GetEnabledPairs exch assetType) values.

(** The loop over the asset types of one enabled exchange: the running
    [exchangeTicker] is appended to the result after each asset type. *)
Definition activeValuesOf (exch : IBotExchange) (data : list (EnabledExchangeValues V))
  : list (EnabledExchangeValues V) :=
  snd
    (fold_left
       (fun '(exchangeValues, data) assetType =>
          let exchangeValues :=
            {| ExchangeName := ExchangeName exchangeValues;
               ExchangeValues :=
                 fetchValues exch assetType (ExchangeValues exchangeValues) |} in
          (exchangeValues, data ++ [exchangeValues]))
       (GetAssetTypes exch)
       ({| ExchangeName := GetName exch; ExchangeValues := [] |}, data)).

(** The loop over the registry.  [IsEnabled] is called on every slot, so an
    empty slot makes the call panic: [None]. *)
Fixpoint activeValues (exchanges : list (option IBotExchange))
    (data : list (EnabledExchangeValues V)) : option (list (EnabledExchangeValues V)) :=
  match exchanges with
  | [] => Some data
  | None :: _ => None
  | Some exch :: rest =>
      if negb (IsEnabled exch) then activeValues rest data
      else activeValues rest (activeValuesOf exch data)
  end.

(** The values fetched without error for the given asset types, in order. *)
Definition fetched (exch : IBotExchange) (assetTypes : list AssetType) : list V :=
  concat
    (List.map
       (fun assetType =>
          concat
            (List.map
               (fun c => match fetch exch c assetType with
                         | (_, Some _) => []
                         | (tp, None) => [tp]
                         end)
               (GetEnabledPairs exch assetType)))
       assetTypes).

(** One entry per asset type of the exchange, each holding the values of
    that asset type and of all the asset types before it. *)
Definition cumulativeEntries (exch : IBotExchange) : list (EnabledExchangeValues V) :=
  List.map
    (fun k => {| ExchangeName := GetName exch;
                 ExchangeValues := fetched exch (firstn (S k) (GetAssetTypes exch)) |})
    (seq 0 (length (GetAssetTypes exch))).

End ActiveValues.

Definition GetAllActiveTickers (Bot : Engine)
  : option (list (EnabledExchangeValues ticker.Price)) :=
  activeValues FetchTicker (Exchanges Bot) [].

Definition GetAllActiveOrderbooks (Bot : Engine)
  : option (list (EnabledExchangeValues orderbook.Base)) :=
  activeValues FetchOrderbook (Exchanges Bot) [].

(** The enabled exchanges of a registry without empty slots. *)
Definition enabledExchanges (exchanges : list (option IBotExchange)) : list IBotExchange :=
  List.filter IsEnabled (omap id exchanges).


(** The events of a task that stages and relays only what it is to: a
    staged ticker is a result that the exchange returned without error for an
    enabled pair, a relay needs the websocket server enabled, and nothing of
    the order books is touched. *)
Definition tickerEventOk (Bot : Engine) (exch : IBotExchange) (ev : event) : Prop :=
  match ev with
  | CallUpdateTicker n c a | CallFetchTicker n c a =>
      n = GetName exch /\ In a (GetAssetTypes exch) /\ In c (GetEnabledPairs exch a)
  | StageTickerData n a r =>
      n = GetName exch
      /\ exists c, In c (GetEnabledPairs exch a)
                   /\ (UpdateTicker exch c a = (r, None) \/ FetchTicker exch c a = (r, None))
  | relayWebsocketEvent evt a n =>
      config.WebsocketServerEnabled (Config Bot) = true
      /\ evt = "ticker_update" /\ n = GetName exch
  | CallUpdateOrderbook _ _ _ | StageOrderbookData _ _ _ => False
  end.

(** ** Package exchanges/assets: the functions on asset types *)

(** [strings.Join] of the Go library, and [strings.Split] at a separator of
    one character, which is never without a result. *)
Fixpoint Join (elems : list string) (sep : string) : string :=
  match elems with
  | [] => EmptyString
  | [x] => x
  | x :: rest => x +:+ sep +:+ Join rest sep
  end.

Definition comma : Ascii.ascii := Ascii.ascii_of_nat 44.

Definition SplitComma (s : string) : list string := splitAt comma s EmptyString.

(** Whether a character occurs in a string. *)
Fixpoint occurs (ch : Ascii.ascii) (s : string) : bool :=
  match s with
  | EmptyString => false
  | String c rest => bool_decide (c = ch) || occurs ch rest
  end.

Module AssetTypes.

Definition AssetTypeMargin : AssetType := "Margin".
Definition AssetTypeIndex : AssetType := "Index".
Definition AssetTypeBinary : AssetType := "Binary".
Definition AssetTypePerpetualSwap : AssetType := "PerpetualSwap".

Definition IsValid (input : AssetType) : bool :=
  bool_decide (input = AssetTypeSpot)
  || bool_decide (input = AssetTypeMargin)
  || bool_decide (input = AssetTypeIndex)
  || bool_decide (input = AssetTypeBinary)
  || bool_decide (input = AssetTypePerpetualSwap)
  || bool_decide (input = AssetTypeFutures).

Definition ToStringArray (a : list AssetType) : list string :=
  fold_left (fun assets x => assets ++ [x]) a [].

Definition Contains (a : list AssetType) (asset : AssetType) : bool :=
  if negb (IsValid asset) then false
  else existsb (fun x => bool_decide (x = asset)) a.

Definition JoinToString (a : list AssetType) (separator : string) : string :=
  Join (ToStringArray a) separator.

(** The loop of [New] over the parts of the input: one invalid part gives
    up the whole result. *)
Fixpoint collectValid (assets : list string) (result : list AssetType) : list AssetType :=
  match assets with
  | [] => result
  | x :: rest => if negb (IsValid x) then [] else collectValid rest (result ++ [x])
  end.

Section New.

(** [common.StringContains], outside the sources. *)
Variable StringContains : string -> string -> bool.

Definition New (input : string) : list AssetType :=
  if negb (StringContains input ",") then
    if IsValid input then [input] else []
  else collectValid (SplitComma input) [].

End New.

End AssetTypes.


(** ** Further example data *)

(** Stand-ins for the currency tables and for [common.StringContains] with
    a one-character needle. *)
Definition exampleFiatCurrencies : list string := ["USD"; "EUR"].

Definition exampleIsFiat (c : string) : bool :=
  existsb (fun f => bool_decide (f = c)) exampleFiatCurrencies.

Definition exampleIsCryptoFiatPair (p : CurrencyPair) : bool :=
  xorb (exampleIsFiat (FirstCurrency p)) (exampleIsFiat (SecondCurrency p)).

Definition exampleStringContains (s substr : string) : bool :=
  match substr with
  | String ch EmptyString => occurs ch s
  | _ => false
  end.

(** A replacement for the settings of exchange B, under a name that differs
    from the stored one in case only. *)
Definition exampleUpdate : config.ExchangeConfig :=
  {| config.Name := "b"; config.ExchangeEnabled := true;
     config.CurrencyPairs := examplePairsConfig "ETH-USD" |}.

Definition exampleToLower (s : string) : string :=
  if bool_decide (s = "B") then "b" else s.

Definition exampleConfigA : config.ExchangeConfig :=
  {| config.Name := "A"; config.ExchangeEnabled := true;
     config.CurrencyPairs := examplePairsConfig "BTC-USD,LTC-USD" |}.

Definition bitstamp : IBotExchange :=
  exampleExchange "Bitstamp" false true false [AssetTypeSpot].

Definition okex : IBotExchange :=
  exampleExchange "OKEX" true true true [AssetTypeSpot; AssetTypeFutures].


(** ** Client bank accounts of package config *)

Module banking.

(** The fields of [BankAccount] that the methods below read or write. *)
Record BankAccount := {
  Enabled : bool;
  BankName : string;
  BankAddress : string;
  AccountName : string;
  AccountNumber : string;
  SWIFTCode : string;
  IBAN : string;
  BSBNumber : string;
  SupportedCurrencies : string;
  SupportedExchanges : string
}.

(** [BankAccount{}]. *)
Definition zeroBankAccount : BankAccount :=
  {| Enabled := false; BankName := EmptyString; BankAddress := EmptyString;
     AccountName := EmptyString; AccountNumber := EmptyString;
     SWIFTCode := EmptyString; IBAN := EmptyString; BSBNumber := EmptyString;
     SupportedCurrencies := EmptyString; SupportedExchanges := EmptyString |}.

(** The account that [CheckClientBankAccounts] appends to an empty list. *)
Definition testAccount : BankAccount :=
  {| Enabled := false; BankName := "test"; BankAddress := "test";
     AccountName := "TestAccount"; AccountNumber := "0234";
     SWIFTCode := "91272837"; IBAN := "98218738671897"; BSBNumber := EmptyString;
     SupportedCurrencies := "USD"; SupportedExchanges := "ANX,Kraken" |}.

(** The assignment [c.BankAccounts[i].SupportedExchanges = v]. *)
Definition setSupportedExchanges (b : BankAccount) (v : string) : BankAccount :=
  {| Enabled := Enabled b; BankName := BankName b; BankAddress := BankAddress b;
     AccountName := AccountName b; AccountNumber := AccountNumber b;
     SWIFTCode := SWIFTCode b; IBAN := IBAN b; BSBNumber := BSBNumber b;
     SupportedCurrencies := SupportedCurrencies b; SupportedExchanges := v |}.

Definition isEmpty (s : string) : bool := bool_decide (s = EmptyString).

(** One round of the loop of [CheckClientBankAccounts]: the account as the
    round leaves it, or the error that the round returns. *)
Definition checkAccount (b : BankAccount) : BankAccount + error :=
  if Enabled b then
    if isEmpty (BankName b) || isEmpty (BankAddress b) then
      inr (errorString ("banking details for " +:+ BankName b
                        +:+ " is enabled but variables not set correctly"))
    else if isEmpty (AccountName b) || isEmpty (AccountNumber b) then
      inr (errorString ("banking account details for " +:+ BankName b
                        +:+ " variables not set correctly"))
    else if isEmpty (IBAN b) && isEmpty (SWIFTCode b) && isEmpty (BSBNumber b) then
      inr (errorString ("critical banking numbers not set for " +:+ BankName b
                        +:+ " in " +:+ AccountName b +:+ " account"))
    else if isEmpty (SupportedExchanges b) then inl (setSupportedExchanges b "ALL")
    else inl b
  else inl b.

(** The loop: a round that returns an error leaves its account and the
    later ones as they were, and the earlier ones as already written. *)
Fixpoint checkAccounts (accounts : list BankAccount) : list BankAccount * option error :=
  match accounts with
  | [] => ([], None)
  | b :: rest =>
      match checkAccount b with
      | inr err => (b :: rest, Some err)
      | inl b' => let '(rest', err) := checkAccounts rest in (b' :: rest', err)
      end
  end.

(** [Config.CheckClientBankAccounts], on the [BankAccounts] field of the
    configuration, the only state it touches: the field after the call and
    the error returned. *)
Definition CheckClientBankAccounts (accounts : list BankAccount)
  : list BankAccount * option error :=
  if bool_decide (length accounts = 0%nat) then (accounts ++ [testAccount], None)
  else checkAccounts accounts.

Section Get.

(** [common.StringContains], outside the sources. *)
Variable StringContains : string -> string -> bool.

Definition serves (exchangeName targetCurrency : string) (bank : BankAccount) : bool :=
  (StringContains (SupportedExchanges bank) exchangeName
   || bool_decide (SupportedExchanges bank = "ALL"))
  && StringContains (SupportedCurrencies bank) targetCurrency.

(** [Config.GetClientBankAccounts]. *)
Definition GetClientBankAccounts (accounts : list BankAccount)
    (exchangeName targetCurrency : string) : BankAccount * option error :=
  match List.find (serves exchangeName targetCurrency) accounts with
  | Some bank => (bank, None)
  | None =>
      (zeroBankAccount,
       Some (errorString ("client banking details not found for " +:+ exchangeName
                          +:+ " and currency " +:+ targetCurrency)))
  end.

End Get.

(** What the check writes to an account that it accepts. *)
Definition normalise (b : BankAccount) : BankAccount :=
  if Enabled b && isEmpty (SupportedExchanges b) then setSupportedExchanges b "ALL"
  else b.

(** An enabled account with a detail missing. *)
Definition incomplete (b : BankAccount) : bool :=
  Enabled b
  && (isEmpty (BankName b) || isEmpty (BankAddress b)
      || isEmpty (AccountName b) || isEmpty (AccountNumber b)
      || isEmpty (IBAN b) && isEmpty (SWIFTCode b) && isEmpty (BSBNumber b)).

(** An account that is switched off, or has its details and the exchanges
    it serves filled in. *)
Definition usable (b : BankAccount) : Prop :=
  Enabled b = true ->
  BankName b <> EmptyString /\ BankAddress b <> EmptyString
  /\ AccountName b <> EmptyString /\ AccountNumber b <> EmptyString
  /\ (IBAN b <> EmptyString \/ SWIFTCode b <> EmptyString \/ BSBNumber b <> EmptyString)
  /\ SupportedExchanges b <> EmptyString.

End banking.

(** Two client accounts: the first enabled and complete but with no
    exchanges named, the second enabled with no account number. *)
Definition exampleBank : banking.BankAccount :=
  {| banking.Enabled := true; banking.BankName := "First"; banking.BankAddress := "1 Road";
     banking.AccountName := "Trading"; banking.AccountNumber := "42";
     banking.SWIFTCode := "SWFT"; banking.IBAN := EmptyString;
     banking.BSBNumber := EmptyString;
     banking.SupportedCurrencies := "USD"; banking.SupportedExchanges := EmptyString |}.

Definition exampleBrokenBank : banking.BankAccount :=
  {| banking.Enabled := true; banking.BankName := "Second"; banking.BankAddress := "2 Road";
     banking.AccountName := "Savings"; banking.AccountNumber := EmptyString;
     banking.SWIFTCode := "SWFT"; banking.IBAN := EmptyString;
     banking.BSBNumber := EmptyString;
     banking.SupportedCurrencies := "EUR"; banking.SupportedExchanges := "Kraken" |}.


(** ** The pair settings of package config with their pointers *)

(** [CurrencyPairs], its [ConfigFormat], [Spot] and [Futures], and the
    [ConfigFormat] of [Spot] and [Futures] are pointers in the source.
    [GetPairFormat] tests the first against nil and dereferences the others
    as they are, so a nil one among them ends the call, and its callers, in
    a panic.  Here a pointer is an [option], and the outer [option] of a
    result is [None] for that panic.  Module [config] above has the same
    functions on the configurations whose pointers are all set. *)
Module pointers.

Record CurrencyPairConfig := {
  Enabled : string;
  Available : string;
  PairConfigFormat : option config.CurrencyPairFormatConfig
}.

Record CurrencyPairsConfig := {
  UseGlobalPairFormat : bool;
  ConfigFormat : option config.CurrencyPairFormatConfig;
  Spot : option CurrencyPairConfig;
  Futures : option CurrencyPairConfig
}.

Record ExchangeConfig := {
  Name : string;
  ExchangeEnabled : bool;
  CurrencyPairs : option CurrencyPairsConfig
}.

Record Config := {
  Exchanges : list ExchangeConfig;
  WebsocketServerEnabled : bool
}.

Section Lookup.

Variable StringToLower : string -> string.
Variable SplitStrings : string -> string -> list string.
Variable FormatPairs : list string -> string -> string -> list CurrencyPair.

Fixpoint findExchangeConfig (exchanges : list ExchangeConfig) (name : string)
  : option ExchangeConfig :=
  match exchanges with
  | [] => None
  | e :: rest =>
      if bool_decide (StringToLower (Name e) = StringToLower name) then Some e
      else findExchangeConfig rest name
  end.

Definition GetExchangeConfig (c : Config) (name : string)
  : option ExchangeConfig * option error :=
  match findExchangeConfig (Exchanges c) name with
  | Some e => (Some e, None)
  | None => (None, Some (errorString ("Exchange " +:+ name +:+ ": Not found.")))
  end.

(** [*p.ConfigFormat] for a pointer [p] to the settings of one asset type:
    both [p] and its [ConfigFormat] are dereferenced. *)
Definition formatOf (p : option CurrencyPairConfig)
  : option config.CurrencyPairFormatConfig :=
  match p with
  | Some pairCfg => PairConfigFormat pairCfg
  | None => None
  end.

Definition GetPairFormat (c : Config) (exchName : string) (assetType : AssetType)
  : option (option config.CurrencyPairFormatConfig * option error) :=
  match GetExchangeConfig c exchName with
  | (Some exchCfg, None) =>
      match CurrencyPairs exchCfg with
      | None => Some (None, Some (errorString "exchange currency pairs type is nil"))
      | Some cp =>
          let format :=
            if UseGlobalPairFormat cp then ConfigFormat cp
            else if bool_decide (assetType = AssetTypeSpot) then formatOf (Spot cp)
                 else formatOf (Futures cp) in
          match format with
          | Some pairFormat => Some (Some pairFormat, None)
          | None => None
          end
      end
  | (_, err) => Some (None, err)
  end.

Definition GetAvailablePairs (c : Config) (exchName : string) (assetType : AssetType)
  : option (list CurrencyPair * option error) :=
  match GetExchangeConfig c exchName with
  | (Some exchCfg, None) =>
      match GetPairFormat c exchName assetType with
      | None => None
      | Some (Some pairFormat, None) =>
          match CurrencyPairs exchCfg with
          | Some cp =>
              match (if bool_decide (assetType = AssetTypeSpot) then Spot cp
                     else Futures cp) with
              | Some pairCfg =>
                  Some (FormatPairs (SplitStrings (Available pairCfg) ",")
                          (config.Delimiter pairFormat) (config.Index pairFormat), None)
              | None => None
              end
          | None => None
          end
      | Some (_, err) => Some ([], err)
      end
  | (_, err) => Some ([], err)
  end.

(** The body of the loop of [GetAllAvailablePairs] of engine/helpers.go
    over [Bot.Config.Exchanges]; a panic ends the loop. *)
Definition collectAvailablePairs (c : Config) (enabledExchangesOnly : bool)
    (assetType : AssetType) (pairList : option (list CurrencyPair))
    (exch : ExchangeConfig) : option (list CurrencyPair) :=
  match pairList with
  | None => None
  | Some pairList =>
      if enabledExchangesOnly && negb (ExchangeEnabled exch) then Some pairList
      else
        let exchName := Name exch in
        match GetAvailablePairs c exchName assetType with
        | None => None
        | Some (_, Some _) => Some pairList
        | Some (pairs, None) => Some (mergePairs pairList pairs)
        end
  end.

(** [GetAllAvailablePairs] of engine/helpers.go on the configuration
    [Bot.Config]: the list returned, or [None] for a panic. *)
Definition GetAllAvailablePairs (c : Config) (enabledExchangesOnly : bool)
    (assetType : AssetType) : option (list CurrencyPair) :=
  fold_left (collectAvailablePairs c enabledExchangesOnly assetType)
    (Exchanges c) (Some []).

End Lookup.

(** An exchange none of whose pointers below [CurrencyPairs] is nil. *)
Definition pointersSet (e : ExchangeConfig) : Prop :=
  forall cp, CurrencyPairs e = Some cp ->
    is_Some (ConfigFormat cp) /\ is_Some (formatOf (Spot cp))
    /\ is_Some (formatOf (Futures cp)).

(** The configuration with every nil pointer set to a zero value. *)
Definition zeroFormat : config.CurrencyPairFormatConfig :=
  {| config.Uppercase := false; config.Delimiter := EmptyString;
     config.Index := EmptyString |}.

Definition setPairConfig (p : option CurrencyPairConfig) : config.CurrencyPairConfig :=
  match p with
  | Some pairCfg =>
      {| config.Enabled := Enabled pairCfg; config.Available := Available pairCfg;
         config.PairConfigFormat := default zeroFormat (PairConfigFormat pairCfg) |}
  | None =>
      {| config.Enabled := EmptyString; config.Available := EmptyString;
         config.PairConfigFormat := zeroFormat |}
  end.

Definition setPairsConfig (cp : CurrencyPairsConfig) : config.CurrencyPairsConfig :=
  {| config.UseGlobalPairFormat := UseGlobalPairFormat cp;
     config.ConfigFormat := default zeroFormat (ConfigFormat cp);
     config.Spot := setPairConfig (Spot cp);
     config.Futures := setPairConfig (Futures cp) |}.

Definition setExchange (e : ExchangeConfig) : config.ExchangeConfig :=
  {| config.Name := Name e; config.ExchangeEnabled := ExchangeEnabled e;
     config.CurrencyPairs := setPairsConfig <$> CurrencyPairs e |}.

Definition setPointers (c : Config) : config.Config :=
  {| config.Exchanges := List.map setExchange (Exchanges c);
     config.WebsocketServerEnabled := WebsocketServerEnabled c |}.

End pointers.

(** The settings that [CheckExchangeConfigValues] builds for an exchange
    configured in the old format (part_001, lines 859 to 873): the global
    format, the spot pairs, and no futures pairs. *)
Definition upgradedConfig : pointers.Config :=
  {| pointers.Exchanges :=
       [ {| pointers.Name := "Bitstamp"; pointers.ExchangeEnabled := true;
            pointers.CurrencyPairs :=
              Some {| pointers.UseGlobalPairFormat := true;
                      pointers.ConfigFormat :=
                        Some {| config.Uppercase := true; config.Delimiter := "-";
                                config.Index := EmptyString |};
                      pointers.Spot :=
                        Some {| pointers.Enabled := "BTC-USD";
                                pointers.Available := "BTC-USD,LTC-USD";
                                pointers.PairConfigFormat := None |};
                      pointers.Futures := None |} |} ];
     pointers.WebsocketServerEnabled := false |}.


(** * Properties *)

(** ** Pairs and the relatability engine *)

Example relatable_btc_usd :
  GetRelatableCurrencies exampleTranslation (mkPair "-" "BTC" "USD") true true
  = [ mkPair "-" "BTC" "USD"; NewCurrencyPair "XBT" "USD"; NewCurrencyPair "XBT" "USDT";
      NewCurrencyPair "BTC" "USDT"; mkPair "-" "USD" "BTC"; NewCurrencyPair "USDT" "BTC";
      NewCurrencyPair "USDT" "XBT"; NewCurrencyPair "USD" "XBT" ].
Proof. vm_compute. reflexivity. Qed.

Lemma Equal_exact c p :
  Equal c p true = true <->
  FirstCurrency c = FirstCurrency p /\ SecondCurrency c = SecondCurrency p.
Proof.
  unfold Equal. rewrite andb_true_iff, !bool_decide_eq_true. tauto.
Qed.

Lemma Equal_exact_refl p : Equal p p true = true.
Proof. apply Equal_exact. split; reflexivity. Qed.

Lemma Equal_either_sym c p : Equal c p false = Equal p c false.
Proof.
  unfold Equal. repeat case_bool_decide; simpl; try reflexivity; congruence.
Qed.

Lemma Equal_exact_trans_l c p r e :
  Equal c p true = true -> Equal p r e = Equal c r e.
Proof.
  intros [H1 H2]%Equal_exact. unfold Equal. rewrite H1, H2. reflexivity.
Qed.

Lemma Equal_exact_trans_r c p r e :
  Equal p r true = true -> Equal c p e = Equal c r e.
Proof.
  intros [H1 H2]%Equal_exact. unfold Equal. rewrite H1, H2. reflexivity.
Qed.

Lemma Contains_app l1 l2 p e :
  Contains (l1 ++ l2) p e = Contains l1 p e || Contains l2 p e.
Proof.
  induction l1 as [|q l1 IH]; cbn [Contains app]; [reflexivity|].
  destruct (Equal q p e); [reflexivity | exact IH].
Qed.

Lemma Contains_true l p e :
  Contains l p e = true <-> exists q, In q l /\ Equal q p e = true.
Proof.
  induction l as [|r l IH]; cbn [Contains In].
  - split; [discriminate | intros (q & [] & _)].
  - destruct (Equal r p e) eqn:Hr.
    + split; [intros _; exists r; auto | reflexivity].
    + rewrite IH. split.
      * intros (q & Hq & He). exists q; auto.
      * intros (q & [-> | Hq] & He); [congruence | exists q; auto].
Qed.

Lemma Contains_false l p e :
  Contains l p e = false <-> forall q, In q l -> Equal q p e = false.
Proof.
  rewrite <- not_true_iff_false, Contains_true. split.
  - intros H q Hq. apply not_true_iff_false. intros He. apply H. exists q; auto.
  - intros H (q & Hq & He). rewrite (H q Hq) in He. discriminate.
Qed.

Lemma Contains_exact_congr l p r :
  Equal p r true = true -> Contains l p true = Contains l r true.
Proof.
  intros H. induction l as [|q l IH]; cbn [Contains]; [reflexivity|].
  rewrite (Equal_exact_trans_r q p r true H), IH. reflexivity.
Qed.

(** Adding a pair makes exactly the pairs that equal it in strict order
    newly contained. *)
Lemma Contains_addPair pairs q p :
  Contains (addPair pairs q) p true = Contains pairs p true || Equal q p true.
Proof.
  unfold addPair. destruct (Contains pairs q true) eqn:Hq.
  - destruct (Equal q p true) eqn:He; [|rewrite orb_false_r; reflexivity].
    rewrite <- (Contains_exact_congr pairs q p He), Hq. reflexivity.
  - rewrite Contains_app. cbn [Contains]. destruct (Equal q p true); reflexivity.
Qed.

Lemma fold_left_filter_app {A} (f : A -> bool) (l acc : list A) :
  fold_left (fun acc x => if f x then acc else acc ++ [x]) l acc
  = acc ++ List.filter (fun x => negb (f x)) l.
Proof.
  revert acc. induction l as [|x l IH]; intros acc; simpl.
  - rewrite app_nil_r. reflexivity.
  - rewrite IH. destruct (f x); simpl; [reflexivity|].
    rewrite <- app_assoc. reflexivity.
Qed.

Lemma RemovePairsByFilter_filter p filter :
  RemovePairsByFilter p filter
  = List.filter (fun x => negb (ContainsCurrency x filter)) p.
Proof.
  unfold RemovePairsByFilter.
  exact (fold_left_filter_app (fun x => ContainsCurrency x filter) p []).
Qed.

Lemma In_RemovePairsByFilter q p filter :
  In q (RemovePairsByFilter p filter) <-> In q p /\ ContainsCurrency q filter = false.
Proof.
  rewrite RemovePairsByFilter_filter, filter_In, negb_true_iff. reflexivity.
Qed.

Lemma ContainsCurrency_exact c p filter :
  Equal c p true = true -> ContainsCurrency c filter = ContainsCurrency p filter.
Proof.
  intros [H1 H2]%Equal_exact. unfold ContainsCurrency. rewrite H1, H2. reflexivity.
Qed.

Lemma Contains_RemovePairsByFilter_kept pairs p filter :
  ContainsCurrency p filter = false ->
  Contains (RemovePairsByFilter pairs filter) p true = Contains pairs p true.
Proof.
  intros Hp. destruct (Contains pairs p true) eqn:Hc.
  - apply Contains_true in Hc as (q & Hq & He). apply Contains_true.
    exists q. split; [|exact He]. apply In_RemovePairsByFilter. split; [exact Hq|].
    rewrite (ContainsCurrency_exact q p filter He). exact Hp.
  - apply Contains_false. intros q [Hq _]%In_RemovePairsByFilter.
    revert q Hq. apply Contains_false. exact Hc.
Qed.

Lemma Contains_RemovePairsByFilter_le pairs p filter e :
  Contains pairs p e = false -> Contains (RemovePairsByFilter pairs filter) p e = false.
Proof.
  rewrite !Contains_false. intros H q [Hq _]%In_RemovePairsByFilter. auto.
Qed.

(** What [buildPairs] makes contained, in strict order. *)
Lemma Contains_buildPairs tr pairs p incOrig r :
  Contains (buildPairs tr pairs p incOrig) r true
  = Contains pairs r true
    || (incOrig && Equal p r true)
    || match tr (FirstCurrency p) with
       | Some first =>
           Equal (NewCurrencyPair first (SecondCurrency p)) r true
           || match tr (SecondCurrency p) with
              | Some second => Equal (NewCurrencyPair first second) r true
              | None => false
              end
       | None => false
       end
    || match tr (SecondCurrency p) with
       | Some second => Equal (NewCurrencyPair (FirstCurrency p) second) r true
       | None => false
       end.
Proof.
  unfold buildPairs.
  destruct incOrig, (tr (FirstCurrency p)), (tr (SecondCurrency p));
    rewrite ?Contains_addPair; cbn [andb]; rewrite ?orb_false_r, ?orb_assoc; reflexivity.
Qed.

Lemma Contains_buildPairs_mono tr pairs p incOrig r :
  Contains pairs r true = true ->
  Contains (buildPairs tr pairs p incOrig) r true = true.
Proof. intros H. rewrite Contains_buildPairs, H. reflexivity. Qed.

Lemma Contains_buildPairs_orig tr pairs p :
  Contains (buildPairs tr pairs p true) p true = true.
Proof.
  rewrite Contains_buildPairs, Equal_exact_refl. cbn [andb].
  rewrite orb_true_r. reflexivity.
Qed.

Lemma ContainsCurrency_Swap p filter :
  ContainsCurrency (Swap p) filter = ContainsCurrency p filter.
Proof. unfold ContainsCurrency, Swap. cbn. apply orb_comm. Qed.

Lemma ContainsCurrency_false p filter :
  FirstCurrency p <> filter -> SecondCurrency p <> filter ->
  ContainsCurrency p filter = false.
Proof.
  intros H1 H2. unfold ContainsCurrency.
  rewrite !bool_decide_eq_false_2 by assumption. reflexivity.
Qed.

(** C2, counterexample.  With BTC and XBT translating into each other, the
    relatable currencies of BTC/XBT computed without the original and without
    the stablecoin still hold BTC/XBT: the swapped pair XBT/BTC translates
    back into it. *)
Lemma GetRelatableCurrencies_original_reappears :
  In btc_xbt (GetRelatableCurrencies exampleTranslation btc_xbt false false)
  /\ Contains (GetRelatableCurrencies exampleTranslation btc_xbt false false)
       btc_xbt true = true.
Proof. vm_compute. split; [tauto | reflexivity]. Qed.

(** C2, amended.  For every translation table and every pair P, the list
    returned by GetRelatableCurrencies(P, false, false) holds no pair having
    USDT as either of its currencies; and it does not contain P (in strict
    order) when neither currency of P translates to itself and the two
    currencies of P do not translate into each other. *)
Theorem GetRelatableCurrencies_excludes_stablecoin_and_original
    (tr : CurrencyItem -> option CurrencyItem) (P : CurrencyPair) :
  (forall q, In q (GetRelatableCurrencies tr P false false) ->
             ContainsCurrency q "USDT" = false)
  /\ (tr (FirstCurrency P) <> Some (FirstCurrency P) ->
      tr (SecondCurrency P) <> Some (SecondCurrency P) ->
      ~ (tr (FirstCurrency P) = Some (SecondCurrency P)
         /\ tr (SecondCurrency P) = Some (FirstCurrency P)) ->
      Contains (GetRelatableCurrencies tr P false false) P true = false).
Proof.
  unfold GetRelatableCurrencies. cbn [negb]. split.
  - intros q [_ Hq]%In_RemovePairsByFilter. exact Hq.
  - intros H1 H2 H3. apply Contains_RemovePairsByFilter_le.
    rewrite !Contains_buildPairs. cbn [Contains andb orb Swap FirstCurrency SecondCurrency].
    destruct (tr (FirstCurrency P)) as [a|] eqn:Ha,
             (tr (SecondCurrency P)) as [b|] eqn:Hb;
      unfold Equal, NewCurrencyPair; cbn [FirstCurrency SecondCurrency orb];
      repeat case_bool_decide; cbn [andb orb]; try reflexivity;
      exfalso; subst; try (apply H1; congruence); try (apply H2; congruence);
      apply H3; split; congruence.
Qed.

Lemma GetRelatableCurrencies_excludes_stablecoin_and_original_witness :
  Contains (GetRelatableCurrencies exampleTranslation btc_usd false false) btc_usd true
  = false.
Proof.
  apply (GetRelatableCurrencies_excludes_stablecoin_and_original exampleTranslation btc_usd).
  - vm_compute. discriminate.
  - vm_compute. discriminate.
  - vm_compute. intros [H _]. discriminate.
Defined.

(** C9.  With the original included, GetRelatableCurrencies(P, true, incUSDT)
    contains both P and its swapped pair in strict order, for every
    translation table and every P (when incUSDT is false, for every P neither
    of whose currencies is USDT): a pair is dropped as a duplicate only when
    it matches an entry in strict order, never for matching the reverse
    orientation. *)
Theorem GetRelatableCurrencies_keeps_both_orientations
    (tr : CurrencyItem -> option CurrencyItem) (P : CurrencyPair) (incUSDT : bool) :
  (incUSDT = false -> FirstCurrency P <> "USDT" /\ SecondCurrency P <> "USDT") ->
  Contains (GetRelatableCurrencies tr P true incUSDT) P true = true
  /\ Contains (GetRelatableCurrencies tr P true incUSDT) (Swap P) true = true.
Proof.
  intros Husdt. unfold GetRelatableCurrencies.
  assert (HP : Contains (buildPairs tr (buildPairs tr [] P true) (Swap P) true) P true
               = true)
    by (apply Contains_buildPairs_mono, Contains_buildPairs_orig).
  assert (HS : Contains (buildPairs tr (buildPairs tr [] P true) (Swap P) true)
                 (Swap P) true = true)
    by apply Contains_buildPairs_orig.
  destruct incUSDT; cbn [negb]; [split; assumption|].
  destruct (Husdt eq_refl) as [H1 H2].
  pose proof (ContainsCurrency_false P "USDT" H1 H2) as Hc.
  split.
  - rewrite Contains_RemovePairsByFilter_kept; assumption.
  - rewrite Contains_RemovePairsByFilter_kept; [assumption|].
    rewrite ContainsCurrency_Swap. exact Hc.
Qed.

Lemma GetRelatableCurrencies_keeps_both_orientations_witness :
  Contains (GetRelatableCurrencies exampleTranslation (mkPair "-" "BTC" "XBT") true false)
    (mkPair "-" "BTC" "XBT") true = true
  /\ Contains (GetRelatableCurrencies exampleTranslation (mkPair "-" "BTC" "XBT") true false)
       (Swap (mkPair "-" "BTC" "XBT")) true = true.
Proof.
  apply (GetRelatableCurrencies_keeps_both_orientations exampleTranslation
           (mkPair "-" "BTC" "XBT") false).
  intros _. split; vm_compute; discriminate.
Defined.

(** ** Cross-exchange aggregation *)

Lemma distinctPairs_nil : distinctPairs [].
Proof. intros i j p q _ H. rewrite lookup_nil in H. discriminate. Qed.

Lemma distinctPairs_snoc l x :
  distinctPairs l -> Contains l x false = false -> distinctPairs (l ++ [x]).
Proof.
  intros Hd Hx i j p q Hij Hi Hj.
  assert (Hjlen : (j < length (l ++ [x]))%nat) by (apply lookup_lt_is_Some; eauto).
  rewrite length_app in Hjlen. cbn in Hjlen.
  rewrite lookup_app_l in Hi by lia.
  destruct (decide (j < length l)%nat) as [Hlt | Hge].
  - rewrite lookup_app_l in Hj by lia. exact (Hd i j p q Hij Hi Hj).
  - rewrite lookup_app_r in Hj by lia.
    replace (j - length l)%nat with 0%nat in Hj by lia.
    cbn in Hj. injection Hj as <-.
    apply Contains_false with (q := p) in Hx; [exact Hx|].
    apply list_elem_of_In. eapply list_elem_of_lookup_2. exact Hi.
Qed.

Lemma mergePairs_snoc pairList pairs p :
  mergePairs pairList (pairs ++ [p])
  = if Contains (mergePairs pairList pairs) p false
    then mergePairs pairList pairs
    else mergePairs pairList pairs ++ [p].
Proof. unfold mergePairs. rewrite fold_left_app. reflexivity. Qed.

Lemma mergePairs_distinct pairs pairList :
  distinctPairs pairList -> distinctPairs (mergePairs pairList pairs).
Proof.
  intros Hd. induction pairs as [|p pairs IH] using rev_ind; [exact Hd|].
  rewrite mergePairs_snoc.
  destruct (Contains (mergePairs pairList pairs) p false) eqn:Hc; [exact IH|].
  apply distinctPairs_snoc; assumption.
Qed.

Lemma mergePairs_In pairs pairList p :
  In p (mergePairs pairList pairs) -> In p pairList \/ In p pairs.
Proof.
  induction pairs as [|x pairs IH] using rev_ind; [auto|].
  rewrite mergePairs_snoc, in_app_iff.
  destruct (Contains (mergePairs pairList pairs) x false).
  - intros H. destruct (IH H); auto.
  - rewrite in_app_iff. intros [H | [<- | []]].
    + destruct (IH H); auto.
    + right. right. left. reflexivity.
Qed.

Section AggregationProperties.

Variable StringToLower : string -> string.
Variable SplitStrings : string -> string -> list string.
Variable FormatPairs : list string -> string -> string -> list CurrencyPair.

Lemma collectAvailablePairs_invariant Bot enabledExchangesOnly assetType exchanges :
  (forall exch, In exch exchanges -> In exch (config.Exchanges (Config Bot))) ->
  let pairList :=
    fold_left
      (collectAvailablePairs StringToLower SplitStrings FormatPairs
         Bot enabledExchangesOnly assetType)
      exchanges [] in
  distinctPairs pairList
  /\ forall p, In p pairList ->
        contributed StringToLower SplitStrings FormatPairs
          Bot enabledExchangesOnly assetType p.
Proof.
  induction exchanges as [|exch exchanges IH] using rev_ind; intros Hincl.
  - split; [apply distinctPairs_nil | intros p []].
  - cbn zeta. rewrite fold_left_app. cbn [fold_left].
    destruct IH as [IHd IHc].
    { intros e He. apply Hincl, in_app_iff. left. exact He. }
    unfold collectAvailablePairs at 1 3.
    destruct (enabledExchangesOnly && negb (config.ExchangeEnabled exch)) eqn:Hskip;
      [split; assumption|].
    destruct (config.GetAvailablePairs StringToLower SplitStrings FormatPairs
                (Config Bot) (config.Name exch) assetType)
      as [pairs [err|]] eqn:Hfetch; [split; assumption|].
    split; [apply mergePairs_distinct, IHd|].
    intros p [Hp | Hp]%mergePairs_In; [apply IHc, Hp|].
    exists exch, pairs. repeat split.
    + apply Hincl, in_app_iff. right. left. reflexivity.
    + intros ->. cbn in Hskip. apply negb_false_iff in Hskip. exact Hskip.
    + exact Hfetch.
    + exact Hp.
Qed.

End AggregationProperties.

(** On the configurations whose pointers are set, no two entries of the
    list returned by GetAllAvailablePairs are equal in either order, and
    every entry comes from a configured exchange that passes the enabled
    filter and whose fetch of available pairs succeeded: an exchange whose
    fetch errors contributes nothing. *)
Theorem GetAllAvailablePairs_no_duplicates
    (StringToLower : string -> string)
    (SplitStrings : string -> string -> list string)
    (FormatPairs : list string -> string -> string -> list CurrencyPair)
    (Bot : Engine) (enabledExchangesOnly : bool) (assetType : AssetType) :
  let pairList :=
    GetAllAvailablePairs StringToLower SplitStrings FormatPairs
      Bot enabledExchangesOnly assetType in
  (forall (i j : nat) p q,
      i <> j -> pairList !! i = Some p -> pairList !! j = Some q ->
      Equal p q false = false)
  /\ (forall p, In p pairList ->
        contributed StringToLower SplitStrings FormatPairs
          Bot enabledExchangesOnly assetType p).
Proof.
  intros pairList.
  destruct (collectAvailablePairs_invariant StringToLower SplitStrings FormatPairs
              Bot enabledExchangesOnly assetType (config.Exchanges (Config Bot)))
    as [Hd Hc]; [auto|].
  split; [|exact Hc].
  intros i j p q Hij Hi Hj.
  destruct (decide (i < j)%nat) as [Hlt | Hge].
  - exact (Hd i j p q Hlt Hi Hj).
  - rewrite Equal_either_sym. apply (Hd j i q p); [lia | assumption | assumption].
Qed.

Lemma GetAllAvailablePairs_no_duplicates_witness :
  let pairList :=
    GetAllAvailablePairs id exampleSplitStrings exampleFormatPairs
      exampleBot false AssetTypeSpot in
  (forall (i j : nat) p q,
      i <> j -> pairList !! i = Some p -> pairList !! j = Some q ->
      Equal p q false = false)
  /\ (forall p, In p pairList ->
        contributed id exampleSplitStrings exampleFormatPairs
          exampleBot false AssetTypeSpot p).
Proof.
  exact (GetAllAvailablePairs_no_duplicates id exampleSplitStrings exampleFormatPairs
           exampleBot false AssetTypeSpot).
Defined.

(** *** The same, with the pointers of the pair settings *)

Section PointerProperties.

Variable StringToLower : string -> string.
Variable SplitStrings : string -> string -> list string.
Variable FormatPairs : list string -> string -> string -> list CurrencyPair.

Lemma findExchangeConfig_setPointers exchanges name :
  config.findExchangeConfig StringToLower (List.map pointers.setExchange exchanges) name
  = pointers.setExchange <$> pointers.findExchangeConfig StringToLower exchanges name.
Proof.
  induction exchanges as [|e rest IH];
    cbn [List.map config.findExchangeConfig pointers.findExchangeConfig];
    [reflexivity|].
  cbn [pointers.setExchange config.Name].
  destruct (bool_decide (StringToLower (pointers.Name e) = StringToLower name));
    [reflexivity | exact IH].
Qed.

Lemma GetExchangeConfig_setPointers c name :
  config.GetExchangeConfig StringToLower (pointers.setPointers c) name
  = (pointers.setExchange <$> fst (pointers.GetExchangeConfig StringToLower c name),
     snd (pointers.GetExchangeConfig StringToLower c name)).
Proof.
  unfold config.GetExchangeConfig, pointers.GetExchangeConfig.
  cbn [pointers.setPointers config.Exchanges].
  rewrite findExchangeConfig_setPointers.
  destruct (pointers.findExchangeConfig StringToLower (pointers.Exchanges c) name);
    reflexivity.
Qed.

(** A call of [GetPairFormat] that returns gives what the function on the
    configuration with its pointers set gives. *)
Lemma GetPairFormat_setPointers c exchName assetType r :
  pointers.GetPairFormat StringToLower c exchName assetType = Some r ->
  config.GetPairFormat StringToLower (pointers.setPointers c) exchName assetType = r.
Proof.
  unfold pointers.GetPairFormat, config.GetPairFormat.
  rewrite GetExchangeConfig_setPointers.
  destruct (pointers.GetExchangeConfig StringToLower c exchName) as [[exchCfg|] [err|]];
    cbn [fst snd fmap option_fmap option_map]; try (intros [= <-]; reflexivity).
  cbn [pointers.setExchange config.CurrencyPairs].
  destruct (pointers.CurrencyPairs exchCfg) as [cp|];
    cbn [fmap option_fmap option_map]; [|intros [= <-]; reflexivity].
  cbn [pointers.setPairsConfig config.UseGlobalPairFormat config.ConfigFormat
       config.Spot config.Futures].
  destruct (pointers.UseGlobalPairFormat cp).
  - destruct (pointers.ConfigFormat cp); [|discriminate].
    intros [= <-]. reflexivity.
  - destruct (bool_decide (assetType = AssetTypeSpot)).
    + destruct (pointers.Spot cp) as [pairCfg|]; cbn [pointers.formatOf];
        [|discriminate].
      destruct (pointers.PairConfigFormat pairCfg) eqn:Hf; [|discriminate].
      intros [= <-]. cbn [pointers.setPairConfig config.PairConfigFormat].
      rewrite Hf. reflexivity.
    + destruct (pointers.Futures cp) as [pairCfg|]; cbn [pointers.formatOf];
        [|discriminate].
      destruct (pointers.PairConfigFormat pairCfg) eqn:Hf; [|discriminate].
      intros [= <-]. cbn [pointers.setPairConfig config.PairConfigFormat].
      rewrite Hf. reflexivity.
Qed.

Lemma GetAvailablePairs_setPointers c exchName assetType r :
  pointers.GetAvailablePairs StringToLower SplitStrings FormatPairs c exchName assetType
  = Some r ->
  config.GetAvailablePairs StringToLower SplitStrings FormatPairs
    (pointers.setPointers c) exchName assetType = r.
Proof.
  unfold pointers.GetAvailablePairs, config.GetAvailablePairs.
  rewrite GetExchangeConfig_setPointers.
  pose proof (GetPairFormat_setPointers c exchName assetType) as Hformat.
  destruct (pointers.GetExchangeConfig StringToLower c exchName) as [[exchCfg|] [err|]];
    cbn [fst snd fmap option_fmap option_map]; try (intros [= <-]; reflexivity).
  destruct (pointers.GetPairFormat StringToLower c exchName assetType)
    as [format|]; [|discriminate].
  rewrite (Hformat format eq_refl).
  destruct format as [[pairFormat|] [err|]]; try (intros [= <-]; reflexivity).
  cbn [pointers.setExchange config.CurrencyPairs].
  destruct (pointers.CurrencyPairs exchCfg) as [cp|]; [|discriminate].
  cbn [fmap option_fmap option_map pointers.setPairsConfig config.Spot config.Futures].
  destruct (bool_decide (assetType = AssetTypeSpot)).
  - destruct (pointers.Spot cp) as [pairCfg|]; [|discriminate].
    intros [= <-]. reflexivity.
  - destruct (pointers.Futures cp) as [pairCfg|]; [|discriminate].
    intros [= <-]. reflexivity.
Qed.

Lemma collectAvailablePairs_panicked c enabledExchangesOnly assetType exchanges :
  fold_left
    (pointers.collectAvailablePairs StringToLower SplitStrings FormatPairs
       c enabledExchangesOnly assetType) exchanges None = None.
Proof. induction exchanges as [|e rest IH]; [reflexivity | exact IH]. Qed.

Lemma collectAvailablePairs_setPointers c Bot enabledExchangesOnly assetType
    exchanges acc pairList :
  Config Bot = pointers.setPointers c ->
  fold_left
    (pointers.collectAvailablePairs StringToLower SplitStrings FormatPairs
       c enabledExchangesOnly assetType) exchanges (Some acc) = Some pairList ->
  fold_left
    (collectAvailablePairs StringToLower SplitStrings FormatPairs
       Bot enabledExchangesOnly assetType)
    (List.map pointers.setExchange exchanges) acc = pairList.
Proof.
  intros HBot. revert acc.
  induction exchanges as [|e rest IH]; intros acc; cbn [fold_left List.map].
  - intros [= <-]. reflexivity.
  - unfold collectAvailablePairs at 2.
    unfold pointers.collectAvailablePairs at 2.
    cbn [pointers.setExchange config.ExchangeEnabled config.Name].
    destruct (enabledExchangesOnly && negb (pointers.ExchangeEnabled e));
      [apply IH|].
    rewrite HBot.
    destruct (pointers.GetAvailablePairs StringToLower SplitStrings FormatPairs
                c (pointers.Name e) assetType) as [r|] eqn:Hr.
    + rewrite (GetAvailablePairs_setPointers _ _ _ _ Hr).
      destruct r as [pairs [err|]]; apply IH.
    + rewrite collectAvailablePairs_panicked. discriminate.
Qed.

(** Every call of [GetAllAvailablePairs] that returns is a call on the
    configuration with its pointers set: the functions of module [config]
    and of the aggregation above give the list that it returns. *)
Lemma GetAllAvailablePairs_setPointers c Bot enabledExchangesOnly assetType pairList :
  Config Bot = pointers.setPointers c ->
  pointers.GetAllAvailablePairs StringToLower SplitStrings FormatPairs
    c enabledExchangesOnly assetType = Some pairList ->
  GetAllAvailablePairs StringToLower SplitStrings FormatPairs
    Bot enabledExchangesOnly assetType = pairList.
Proof.
  intros HBot Hret. unfold GetAllAvailablePairs.
  replace (config.Exchanges (Config Bot))
    with (List.map pointers.setExchange (pointers.Exchanges c))
    by (rewrite HBot; reflexivity).
  apply (collectAvailablePairs_setPointers c); assumption.
Qed.

(** On every call that returns, no two entries of the list are equal in
    either order. *)
Lemma GetAllAvailablePairs_returned_distinct c enabledExchangesOnly assetType pairList :
  pointers.GetAllAvailablePairs StringToLower SplitStrings FormatPairs
    c enabledExchangesOnly assetType = Some pairList ->
  distinctPairs pairList.
Proof.
  intros Hret.
  pose (Bot := {| Config := pointers.setPointers c; Exchanges := [] |}).
  rewrite <- (GetAllAvailablePairs_setPointers c Bot _ _ _ eq_refl Hret).
  apply (collectAvailablePairs_invariant StringToLower SplitStrings FormatPairs
           Bot enabledExchangesOnly assetType (config.Exchanges (Config Bot))).
  auto.
Qed.

Lemma findExchangeConfig_In exchanges name e :
  pointers.findExchangeConfig StringToLower exchanges name = Some e -> In e exchanges.
Proof.
  induction exchanges as [|x rest IH]; cbn [pointers.findExchangeConfig];
    [discriminate|].
  destruct (bool_decide (StringToLower (pointers.Name x) = StringToLower name)).
  - intros [= ->]. left. reflexivity.
  - intros H. right. apply IH, H.
Qed.

Lemma GetAvailablePairs_returns c exchName assetType :
  Forall pointers.pointersSet (pointers.Exchanges c) ->
  is_Some (pointers.GetAvailablePairs StringToLower SplitStrings FormatPairs
             c exchName assetType).
Proof.
  intros Hset. unfold pointers.GetAvailablePairs, pointers.GetPairFormat,
    pointers.GetExchangeConfig.
  destruct (pointers.findExchangeConfig StringToLower (pointers.Exchanges c) exchName)
    as [exchCfg|] eqn:Hfind; [|eexists; reflexivity].
  apply findExchangeConfig_In in Hfind.
  rewrite Forall_forall in Hset.
  pose proof (Hset exchCfg (proj2 (list_elem_of_In _ _) Hfind)) as Hcfg.
  unfold pointers.pointersSet in Hcfg.
  destruct (pointers.CurrencyPairs exchCfg) as [cp|]; [|eexists; reflexivity].
  destruct (Hcfg cp eq_refl) as ([global ->] & Hspot & Hfutures).
  destruct (pointers.Spot cp) as [spot|]; [|destruct Hspot; discriminate].
  destruct (pointers.Futures cp) as [futures|]; [|destruct Hfutures; discriminate].
  cbn [pointers.formatOf] in *.
  destruct Hspot as [fs ->], Hfutures as [ff ->].
  destruct (pointers.UseGlobalPairFormat cp),
    (bool_decide (assetType = AssetTypeSpot)); eexists; reflexivity.
Qed.

(** With no nil pointer in the pair settings the call returns. *)
Lemma GetAllAvailablePairs_returns c enabledExchangesOnly assetType :
  Forall pointers.pointersSet (pointers.Exchanges c) ->
  is_Some (pointers.GetAllAvailablePairs StringToLower SplitStrings FormatPairs
             c enabledExchangesOnly assetType).
Proof.
  intros Hset. unfold pointers.GetAllAvailablePairs.
  generalize (@nil CurrencyPair) as acc.
  induction (pointers.Exchanges c) as [|e rest IH] at 1; intros acc; cbn [fold_left].
  - eexists. reflexivity.
  - unfold pointers.collectAvailablePairs at 2.
    destruct (enabledExchangesOnly && negb (pointers.ExchangeEnabled e));
      [apply IH|].
    destruct (GetAvailablePairs_returns c (pointers.Name e) assetType Hset)
      as [[pairs [err|]] ->]; apply IH.
Qed.

End PointerProperties.

(** C5.  GetAllAvailablePairs does not return for every configuration and
    asset type: for an exchange with the settings that
    CheckExchangeConfigValues builds from the old format (global format and
    spot pairs set, futures pairs nil), the call for the futures asset type
    ends in a nil-pointer panic, with and without the enabled filter, where
    the claim has it return a list.  The call for the spot asset type returns
    the two spot pairs. *)
Theorem GetAllAvailablePairs_panics_without_futures_settings
    (StringToLower : string -> string)
    (SplitStrings : string -> string -> list string)
    (FormatPairs : list string -> string -> string -> list CurrencyPair) :
  pointers.GetAllAvailablePairs StringToLower SplitStrings FormatPairs
    upgradedConfig false AssetTypeFutures = None
  /\ pointers.GetAllAvailablePairs StringToLower SplitStrings FormatPairs
       upgradedConfig true AssetTypeFutures = None
  /\ pointers.GetAllAvailablePairs id exampleSplitStrings exampleFormatPairs
       upgradedConfig false AssetTypeSpot = Some [btc_usd; ltc_usd].
Proof.
  assert (Hfetch :
    pointers.GetAvailablePairs StringToLower SplitStrings FormatPairs
      upgradedConfig "Bitstamp" AssetTypeFutures = None).
  { unfold pointers.GetAvailablePairs, pointers.GetPairFormat,
      pointers.GetExchangeConfig.
    cbn [upgradedConfig pointers.Exchanges pointers.findExchangeConfig pointers.Name].
    rewrite bool_decide_eq_true_2 by reflexivity. reflexivity. }
  unfold pointers.GetAllAvailablePairs.
  cbn [upgradedConfig pointers.Exchanges fold_left].
  unfold pointers.collectAvailablePairs.
  cbn [pointers.ExchangeEnabled pointers.Name negb andb].
  change {| pointers.Exchanges := _; pointers.WebsocketServerEnabled := false |}
    with upgradedConfig.
  rewrite Hfetch.
  split; [reflexivity|]. split; [reflexivity|]. vm_compute. reflexivity.
Qed.


(** ** Collating balances by coin *)

Lemma fold_left_concat_map {A B C} (f : A -> C -> A) (g : B -> list C) (l : list B) (a : A) :
  fold_left (fun acc x => fold_left f (g x) acc) l a
  = fold_left f (concat (List.map g l)) a.
Proof.
  revert a. induction l as [|x l IH]; intros a; cbn; [reflexivity|].
  rewrite fold_left_app. apply IH.
Qed.

Lemma GetCollatedExchangeAccountInfoByCoin_flat exchAccounts :
  GetCollatedExchangeAccountInfoByCoin exchAccounts
  = fold_left collateCurrency (accountCurrencies exchAccounts) ∅.
Proof.
  unfold GetCollatedExchangeAccountInfoByCoin, accountCurrencies.
  generalize (∅ : gmap string AccountCurrencyInfo) as result.
  induction exchAccounts as [|accounts exchAccounts IH]; intros result; cbn;
    [reflexivity|].
  rewrite fold_left_app,
    (fold_left_concat_map collateCurrency Currencies (Accounts accounts) result).
  apply IH.
Qed.

Lemma accountCurrencies_Permutation l l' :
  Permutation l l' -> Permutation (accountCurrencies l) (accountCurrencies l').
Proof.
  unfold accountCurrencies. induction 1; cbn.
  - constructor.
  - apply Permutation_app_head. assumption.
  - rewrite !app_assoc. apply Permutation_app_tail, Permutation_app_comm.
  - etransitivity; eassumption.
Qed.

Lemma fold_left_Permutation {A B} (f : A -> B -> A) :
  (forall a x y, f (f a x) y = f (f a y) x) ->
  forall l l', Permutation l l' -> forall a, fold_left f l a = fold_left f l' a.
Proof.
  intros Hcomm l l'. induction 1; intros a; cbn.
  - reflexivity.
  - apply IHPermutation.
  - rewrite Hcomm. reflexivity.
  - etransitivity; [apply IHPermutation1 | apply IHPermutation2].
Qed.

(** Two entries can be collated in either order. *)
Lemma collateCurrency_comm (result : gmap string AccountCurrencyInfo) a b :
  collateCurrency (collateCurrency result a) b
  = collateCurrency (collateCurrency result b) a.
Proof.
  unfold collateCurrency.
  destruct (decide (CurrencyName a = CurrencyName b)) as [E | N].
  - rewrite <- E.
    destruct (result !! CurrencyName a) as [info|] eqn:Hr;
      rewrite !lookup_insert_eq, !insert_insert_eq; cbn;
      do 2 f_equal; lia.
  - assert (N' : CurrencyName b <> CurrencyName a) by congruence.
    destruct (result !! CurrencyName a) as [ia|] eqn:Ha,
             (result !! CurrencyName b) as [ib|] eqn:Hb;
      rewrite (lookup_insert_ne _ _ _ _ N), (lookup_insert_ne _ _ _ _ N'), Ha, Hb;
      apply insert_insert_ne; assumption.
Qed.

Lemma GetCollatedExchangeAccountInfoByCoin_Permutation l l' :
  Permutation l l' ->
  GetCollatedExchangeAccountInfoByCoin l = GetCollatedExchangeAccountInfoByCoin l'.
Proof.
  intros H. rewrite !GetCollatedExchangeAccountInfoByCoin_flat.
  apply fold_left_Permutation; [apply collateCurrency_comm|].
  apply accountCurrencies_Permutation, H.
Qed.

(** C7.  GetCollatedExchangeAccountInfoByCoin is order-independent: for every
    input list of exchange account infos and every permutation of it, the two
    resulting maps have the same set of currency-name keys and, under each
    key, the same summed TotalValue and the same summed Hold (amounts being
    added exactly). *)
Theorem GetCollatedExchangeAccountInfoByCoin_order_independent
    (exchAccounts permuted : list AccountInfo) :
  Permutation exchAccounts permuted ->
  dom (GetCollatedExchangeAccountInfoByCoin exchAccounts)
  = dom (GetCollatedExchangeAccountInfoByCoin permuted)
  /\ forall currencyName : string,
       TotalValue <$> GetCollatedExchangeAccountInfoByCoin exchAccounts !! currencyName
       = TotalValue <$> GetCollatedExchangeAccountInfoByCoin permuted !! currencyName
       /\ Hold <$> GetCollatedExchangeAccountInfoByCoin exchAccounts !! currencyName
          = Hold <$> GetCollatedExchangeAccountInfoByCoin permuted !! currencyName.
Proof.
  intros H.
  rewrite (GetCollatedExchangeAccountInfoByCoin_Permutation _ _ H).
  split; [reflexivity | intros; split; reflexivity].
Qed.

Lemma GetCollatedExchangeAccountInfoByCoin_order_independent_witness :
  dom (GetCollatedExchangeAccountInfoByCoin [bitfinexAccounts; krakenAccounts])
  = dom (GetCollatedExchangeAccountInfoByCoin [krakenAccounts; bitfinexAccounts])
  /\ forall currencyName : string,
       TotalValue <$>
         GetCollatedExchangeAccountInfoByCoin [bitfinexAccounts; krakenAccounts]
           !! currencyName
       = TotalValue <$>
           GetCollatedExchangeAccountInfoByCoin [krakenAccounts; bitfinexAccounts]
             !! currencyName
       /\ Hold <$>
            GetCollatedExchangeAccountInfoByCoin [bitfinexAccounts; krakenAccounts]
              !! currencyName
          = Hold <$>
              GetCollatedExchangeAccountInfoByCoin [krakenAccounts; bitfinexAccounts]
                !! currencyName.
Proof.
  apply (GetCollatedExchangeAccountInfoByCoin_order_independent
           [bitfinexAccounts; krakenAccounts] [krakenAccounts; bitfinexAccounts]).
  apply perm_swap.
Defined.


(** ** Seeding the portfolio ledger *)

(** *** The per-exchange totals *)











(** *** The ledger, entry by entry *)

Lemma matches_other e c e' c' a :
  e' <> e \/ c' <> c ->
  portfolio.matches e c a = true -> portfolio.matches e' c' a = false.
Proof.
  unfold portfolio.matches. intros Hne [H1 H2]%andb_true_iff.
  apply bool_decide_eq_true in H1, H2. apply andb_false_iff.
  rewrite !bool_decide_eq_false. destruct Hne; [left | right]; congruence.
Qed.

Lemma ExchangeAddressExists_entriesFor port e c :
  portfolio.ExchangeAddressExists port e c
  = match entriesFor e c port with [] => false | _ :: _ => true end.
Proof.
  unfold portfolio.ExchangeAddressExists, entriesFor.
  induction (portfolio.Addresses port) as [|a l IH]; cbn; [reflexivity|].
  destruct (portfolio.matches e c a); cbn; [reflexivity | exact IH].
Qed.

Lemma GetAddressBalance_entriesFor port e c description :
  portfolio.GetAddressBalance port e c description
  = portfolio.findBalance (entriesFor e c port) e c description.
Proof.
  unfold portfolio.GetAddressBalance, entriesFor.
  induction (portfolio.Addresses port) as [|a l IH]; cbn; [reflexivity|].
  destruct (portfolio.matches e c a) eqn:Hm; cbn; rewrite ?Hm; cbn;
    [destruct (bool_decide _); [reflexivity | exact IH] | exact IH].
Qed.

Lemma entriesFor_add e c port a :
  portfolio.matches e c a = false ->
  entriesFor e c {| portfolio.Addresses := portfolio.Addresses port ++ [a] |}
  = entriesFor e c port.
Proof.
  intros H. unfold entriesFor. cbn. rewrite List.filter_app. cbn.
  rewrite H. apply app_nil_r.
Qed.

Lemma entriesFor_remove_other e c e' c' port :
  e' <> e \/ c' <> c ->
  entriesFor e c (portfolio.RemoveExchangeAddress port e' c') = entriesFor e c port.
Proof.
  intros Hne. unfold entriesFor, portfolio.RemoveExchangeAddress. cbn.
  induction (portfolio.Addresses port) as [|a l IH]; cbn; [reflexivity|].
  destruct (portfolio.matches e' c' a) eqn:H'; cbn.
  - destruct (portfolio.matches e c a) eqn:H; [|exact IH].
    rewrite (matches_other e c e' c' a Hne H) in H'. discriminate.
  - rewrite IH. reflexivity.
Qed.


Lemma entriesFor_update_other e c e' c' balance port :
  e' <> e \/ c' <> c ->
  entriesFor e c (portfolio.UpdateExchangeAddressBalance port e' c' balance)
  = entriesFor e c port.
Proof.
  intros Hne. unfold entriesFor, portfolio.UpdateExchangeAddressBalance. cbn.
  induction (portfolio.Addresses port) as [|a l IH]; cbn; [reflexivity|].
  destruct (portfolio.matches e c a) eqn:H.
  - rewrite (matches_other e c e' c' a Hne H), H, IH. reflexivity.
  - destruct (portfolio.matches e' c' a) eqn:H'; [|rewrite H; exact IH].
    replace (portfolio.matches e c _) with (portfolio.matches e c a)
      by reflexivity.
    rewrite H. exact IH.
Qed.

(** The four outcomes of the body of the loop over the totals. *)
Lemma seedCurrency_cases e port ops total :
  let c := CurrencyName total in
  let t := TotalValue total in
  seedCurrency e (port, ops) total = (port, ops)
  \/ (portfolio.ExchangeAddressExists port e c = false /\ 0 < t
      /\ seedCurrency e (port, ops) total
         = ({| portfolio.Addresses :=
                 portfolio.Addresses port ++
                 [ {| portfolio.Address_ := e; portfolio.CoinType := c;
                      portfolio.Balance := t;
                      portfolio.Description := portfolio.PortfolioAddressExchange |} ] |},
            ops ++ [OpAdd e c t]))
  \/ (portfolio.ExchangeAddressExists port e c = true /\ t <= 0
      /\ seedCurrency e (port, ops) total
         = (portfolio.RemoveExchangeAddress port e c, ops ++ [OpRemove e c]))
  \/ (portfolio.ExchangeAddressExists port e c = true /\ 0 < t
      /\ (exists balance,
            portfolio.GetAddressBalance port e c portfolio.PortfolioAddressExchange
            = (balance, true) /\ balance <> t)
      /\ seedCurrency e (port, ops) total
         = (portfolio.UpdateExchangeAddressBalance port e c t, ops ++ [OpUpdate e c t])).
Proof.
  intros c t. unfold seedCurrency. fold c t.
  destruct (portfolio.ExchangeAddressExists port e c) eqn:Hex; cbn [negb].
  - destruct (Z.leb_spec t 0) as [Hle | Hgt].
    + right. right. left. auto.
    + destruct (portfolio.GetAddressBalance port e c portfolio.PortfolioAddressExchange)
        as [balance ok] eqn:Hb.
      destruct ok; cbn [negb]; [|left; reflexivity].
      destruct (Z.eqb_spec balance t) as [Heq | Hne]; cbn [negb]; [left; reflexivity|].
      right. right. right. repeat split; eauto.
  - destruct (Z.leb_spec t 0) as [Hle | Hgt]; [left; reflexivity|].
    right. left. auto.
Qed.

Section Entry.

Variables e c : string.

Lemma quiet_refl st : quiet e c st st.
Proof. split; [reflexivity|]. exists []. rewrite app_nil_r. auto. Qed.

Lemma quiet_trans st1 st2 st3 : quiet e c st1 st2 -> quiet e c st2 st3 -> quiet e c st1 st3.
Proof.
  intros [E1 (x1 & L1 & F1)] [E2 (x2 & L2 & F2)]. split; [congruence|].
  exists (x1 ++ x2). rewrite L2, L1, app_assoc. split; [reflexivity|].
  apply Forall_app. auto.
Qed.

Lemma touches_other e' c' :
  e' <> e \/ c' <> c ->
  bool_decide (e' = e) && bool_decide (c' = c) = false.
Proof.
  intros Hne. apply andb_false_iff. rewrite !bool_decide_eq_false. exact Hne.
Qed.

(** A step for another exchange or another currency is quiet. *)
Lemma seedCurrency_quiet_other e' st total :
  e' <> e \/ CurrencyName total <> c -> quiet e c st (seedCurrency e' st total).
Proof.
  intros Hne. destruct st as [port ops].
  pose proof (touches_other e' (CurrencyName total) Hne) as Ht.
  destruct (seedCurrency_cases e' port ops total)
    as [-> | [(_ & _ & ->) | [(_ & _ & ->) | (_ & _ & _ & ->)]]].
  - apply quiet_refl.
  - split; cbn [fst snd].
    + apply entriesFor_add. exact Ht.
    + eexists; split; [reflexivity|]. constructor; [exact Ht | constructor].
  - split; cbn [fst snd].
    + apply entriesFor_remove_other, Hne.
    + eexists; split; [reflexivity|]. constructor; [exact Ht | constructor].
  - split; cbn [fst snd].
    + apply entriesFor_update_other, Hne.
    + eexists; split; [reflexivity|]. constructor; [exact Ht | constructor].
Qed.

(** A step for the entry itself changes nothing when the entry exists and
    its stored balance is the positive total. *)
Lemma seedCurrency_settled st total :
  CurrencyName total = c ->
  0 < TotalValue total ->
  portfolio.ExchangeAddressExists (fst st) e c = true ->
  portfolio.GetAddressBalance (fst st) e c portfolio.PortfolioAddressExchange
  = (TotalValue total, true) ->
  seedCurrency e st total = st.
Proof.
  intros <- Hpos Hex Hbal. destruct st as [port ops]. cbn [fst] in *.
  unfold seedCurrency. rewrite Hex, Hbal. cbn [negb].
  destruct (Z.leb_spec (TotalValue total) 0) as [Hle | _]; [lia|].
  rewrite Z.eqb_refl. reflexivity.
Qed.



End Entry.

(** *** Whole runs *)








Lemma settled_transfer e c description port1 port2 :
  entriesFor e c port1 = entriesFor e c port2 ->
  portfolio.ExchangeAddressExists port1 e c = portfolio.ExchangeAddressExists port2 e c
  /\ portfolio.GetAddressBalance port1 e c description
     = portfolio.GetAddressBalance port2 e c description.
Proof.
  intros H. rewrite !ExchangeAddressExists_entriesFor, !GetAddressBalance_entriesFor, H.
  split; reflexivity.
Qed.

Section Settled.

Variables (e c : string) (t : Z) (port0 : portfolio.Base).
Hypothesis Hpos : 0 < t.
Hypothesis Hexists : portfolio.ExchangeAddressExists port0 e c = true.
Hypothesis Hbalance :
  portfolio.GetAddressBalance port0 e c portfolio.PortfolioAddressExchange = (t, true).

Lemma fold_seedCurrency_settled e' totals st :
  (forall total, In total totals ->
     e' = e -> CurrencyName total = c -> TotalValue total = t) ->
  entriesFor e c (fst st) = entriesFor e c port0 ->
  quiet e c st (fold_left (seedCurrency e') totals st).
Proof.
  revert st. induction totals as [|total totals IH]; intros st H Hst; cbn [fold_left];
    [apply quiet_refl|].
  assert (Hrest : forall total', In total' totals ->
            e' = e -> CurrencyName total' = c -> TotalValue total' = t)
    by (intros t' Ht'; apply H; right; exact Ht').
  destruct (decide (e' = e)) as [-> | Hne];
    [destruct (decide (CurrencyName total = c)) as [Hc | Hne]|].
  - destruct (settled_transfer e c portfolio.PortfolioAddressExchange _ _ Hst)
      as [Hex Hbal].
    rewrite seedCurrency_settled with (c := c); [apply IH; assumption | exact Hc | | |].
    + rewrite (H total); auto. left. reflexivity.
    + rewrite Hex. exact Hexists.
    + rewrite Hbal, (H total); auto. left. reflexivity.
  - pose proof (seedCurrency_quiet_other e c e st total (or_intror Hne)) as Hq.
    eapply quiet_trans; [exact Hq|].
    apply IH; [exact Hrest|]. destruct Hq as [-> _]. exact Hst.
  - pose proof (seedCurrency_quiet_other e c e' st total (or_introl Hne)) as Hq.
    eapply quiet_trans; [exact Hq|].
    apply IH; [exact Hrest|]. destruct Hq as [-> _]. exact Hst.
Qed.

Lemma fold_seedExchange_settled data st :
  (forall exchangeData total,
     In exchangeData data -> Exchange exchangeData = e ->
     In total (sumAccounts exchangeData) -> CurrencyName total = c ->
     TotalValue total = t) ->
  entriesFor e c (fst st) = entriesFor e c port0 ->
  quiet e c st (fold_left seedExchange data st).
Proof.
  revert st. induction data as [|d data IH]; intros st H Hst; cbn [fold_left];
    [apply quiet_refl|].
  assert (Hq : quiet e c st (seedExchange st d)).
  { apply fold_seedCurrency_settled; [|exact Hst].
    intros total Hin He Hc. apply (H d total); auto. left. reflexivity. }
  eapply quiet_trans; [exact Hq|].
  apply IH.
  - intros d' total Hd'. apply H. right. exact Hd'.
  - destruct Hq as [-> _]. exact Hst.
Qed.

End Settled.

(** C10.  SeedExchangeAccountInfo mutates the ledger only where the summed
    total disagrees with the stored state.  Called with an empty list it
    leaves the ledger unchanged and performs no mutation.  And for an entry
    that exists with a stored balance equal to the positive total fetched for
    its exchange and currency, it performs no add, no removal and no balance
    update of that exchange and currency, and the entries of that exchange
    and currency are after the call what they were before. *)
Theorem SeedExchangeAccountInfo_mutates_only_disagreements :
  (forall port, SeedExchangeAccountInfo [] port = (port, []))
  /\ (forall (data : list AccountInfo) (port : portfolio.Base)
        (exchangeName currencyName : string) (total : Z),
        0 < total ->
        portfolio.ExchangeAddressExists port exchangeName currencyName = true ->
        portfolio.GetAddressBalance port exchangeName currencyName
          portfolio.PortfolioAddressExchange = (total, true) ->
        (forall exchangeData fetched,
           In exchangeData data -> Exchange exchangeData = exchangeName ->
           In fetched (sumAccounts exchangeData) ->
           CurrencyName fetched = currencyName ->
           TotalValue fetched = total) ->
        entriesFor exchangeName currencyName (fst (SeedExchangeAccountInfo data port))
        = entriesFor exchangeName currencyName port
        /\ Forall (fun op => touches exchangeName currencyName op = false)
             (snd (SeedExchangeAccountInfo data port))).
Proof.
  split; [reflexivity|].
  intros data port e c t Hpos Hex Hbal Hdata.
  unfold SeedExchangeAccountInfo. case_bool_decide as Hlen.
  - cbn. auto.
  - destruct (fold_seedExchange_settled e c t port Hpos Hex Hbal data (port, []) Hdata
                eq_refl) as [Hent (extra & Hops & Hextra)].
    split; [exact Hent|]. rewrite Hops. exact Hextra.
Qed.

Lemma SeedExchangeAccountInfo_mutates_only_disagreements_witness :
  entriesFor "Kraken" "BTC" (fst (SeedExchangeAccountInfo exampleAccounts exampleLedger))
  = entriesFor "Kraken" "BTC" exampleLedger
  /\ Forall (fun op => touches "Kraken" "BTC" op = false)
       (snd (SeedExchangeAccountInfo exampleAccounts exampleLedger)).
Proof.
  apply (proj2 SeedExchangeAccountInfo_mutates_only_disagreements
           exampleAccounts exampleLedger "Kraken" "BTC" 2).
  - lia.
  - reflexivity.
  - reflexivity.
  - intros exchangeData fetched [<- | [<- | []]] Hname; [discriminate Hname|].
    intros [<- | []] _. reflexivity.
Defined.


Example seed_example :
  SeedExchangeAccountInfo exampleAccounts exampleLedger
  = ({| portfolio.Addresses :=
          [ {| portfolio.Address_ := "Kraken"; portfolio.CoinType := "BTC";
               portfolio.Balance := 2;
               portfolio.Description := portfolio.PortfolioAddressExchange |};
            {| portfolio.Address_ := "Bitfinex"; portfolio.CoinType := "ETH";
               portfolio.Balance := 7;
               portfolio.Description := portfolio.PortfolioAddressExchange |} ] |},
     [OpRemove "Bitfinex" "BTC"; OpAdd "Bitfinex" "ETH" 7]).
Proof. vm_compute. reflexivity. Qed.

Example available_pairs_example :
  GetAllAvailablePairs id exampleSplitStrings exampleFormatPairs exampleBot true AssetTypeSpot
  = [btc_usd; ltc_usd; mkPair "-" "XRP" "USD"]
  /\ GetAllAvailablePairs id exampleSplitStrings exampleFormatPairs exampleBot false
       AssetTypeSpot
     = [btc_usd; ltc_usd; mkPair "-" "ETH" "USD"; mkPair "-" "XRP" "USD"].
Proof. vm_compute. split; reflexivity. Qed.

(** ** The polling tasks *)

Lemma fetches_app t1 t2 : fetches (t1 ++ t2) = fetches t1 ++ fetches t2.
Proof. apply List.filter_app. Qed.

Lemma fetches_concat (ts : list (list event)) :
  fetches (concat ts) = concat (List.map fetches ts).
Proof.
  induction ts as [|t ts IH]; cbn [concat List.map]; [reflexivity|].
  rewrite fetches_app, IH. reflexivity.
Qed.

Lemma fetches_processTicker Bot name exch update c assetType :
  fetches (processTicker Bot name exch update c assetType)
  = [if update then CallUpdateTicker name c assetType
     else CallFetchTicker name c assetType].
Proof.
  unfold processTicker.
  destruct update, (UpdateTicker exch c assetType) as [r1 [e1|]],
    (FetchTicker exch c assetType) as [r2 [e2|]],
    (config.WebsocketServerEnabled (Config Bot)); reflexivity.
Qed.

(** An empty slot and an exchange without REST support are skipped: the
    task returns at once with no event. *)
Lemma tickerTask_skips Bot x :
  (Exchanges Bot !! x = Some None
   \/ exists exch, Exchanges Bot !! x = Some (Some exch) /\ SupportsREST exch = false) ->
  tickerTask Bot x = [] /\ orderbookTask Bot x = [].
Proof.
  unfold tickerTask, orderbookTask.
  intros [-> | (exch & -> & ->)]; split; reflexivity.
Qed.

(** C1, the code at the failing input.  Slot 1 of the registry holds an
    exchange that is disabled and supports REST: the ticker task and the
    order-book task of that slot both call the exchange for each of its
    enabled pairs, where they are specified to return with no fetch, as
    their doc comments (all enabled currency pairs and exchanges) and the
    sibling loops that test IsEnabled() have it. *)
Theorem updater_tasks_fetch_from_disabled_exchange :
  (exists exch, Exchanges exampleBot !! 1%nat = Some (Some exch)
                /\ IsEnabled exch = false)
  /\ fetches (tickerTask exampleBot 1)
     = [ CallUpdateTicker "Bitstamp" btc_usd AssetTypeSpot;
         CallUpdateTicker "Bitstamp" ltc_usd AssetTypeSpot ]
  /\ fetches (orderbookTask exampleBot 1)
     = [ CallUpdateOrderbook "Bitstamp" btc_usd AssetTypeSpot;
         CallUpdateOrderbook "Bitstamp" ltc_usd AssetTypeSpot ].
Proof.
  split; [eexists; split; reflexivity|]. vm_compute. split; reflexivity.
Qed.

Lemma fetches_cache_reads Bot exch assetType (g : nat -> bool) (l : list CurrencyPair) :
  (forall z, g z = true) ->
  fetches
    (concat
       (imap
          (fun z c =>
             if g z
             then processTicker Bot (GetName exch) exch false c assetType
             else processTicker Bot (GetName exch) exch true c assetType)
          l))
  = List.map (fun c => CallFetchTicker (GetName exch) c assetType) l.
Proof.
  revert g. induction l as [|c l IH]; intros g Hg; cbn [imap concat List.map];
    [reflexivity|].
  rewrite fetches_app, Hg, fetches_processTicker. cbn [app]. f_equal.
  apply (IH (g ∘ S)). intros z. apply Hg.
Qed.

Lemma fetches_assetType Bot exch assetType :
  fetches
    (concat
       (imap
          (fun z c =>
             if true && (0 <? z)%nat
             then processTicker Bot (GetName exch) exch false c assetType
             else processTicker Bot (GetName exch) exch true c assetType)
          (GetEnabledPairs exch assetType)))
  = batchedCalls exch assetType.
Proof.
  unfold batchedCalls.
  destruct (GetEnabledPairs exch assetType) as [|c l]; cbn [imap concat];
    [reflexivity|].
  rewrite fetches_app. cbn [andb Nat.ltb Nat.leb].
  rewrite fetches_processTicker. cbn [app]. f_equal.
  exact (fetches_cache_reads Bot exch assetType (fun z => true && (0 <? S z)%nat) l
           (fun _ => eq_refl)).
Qed.

(** C4, counterexample.  The batching exchange in slot 2 has two asset
    types: its ticker task invokes the network update again for the first
    pair of the second asset type, after the pairs of the first one were
    fetched. *)
Lemma batch_update_repeats_per_asset_type :
  (exists exch, Exchanges exampleBot !! 2%nat = Some (Some exch)
                /\ SupportsRESTTickerBatchUpdates exch = true)
  /\ fetches (tickerTask exampleBot 2)
     = [ CallUpdateTicker "OKEX" btc_usd AssetTypeSpot;
         CallFetchTicker "OKEX" ltc_usd AssetTypeSpot;
         CallUpdateTicker "OKEX" btc_usd AssetTypeFutures;
         CallFetchTicker "OKEX" ltc_usd AssetTypeFutures ]
  /\ updatesFirstOnly (fetches (tickerTask exampleBot 2)) = false.
Proof.
  split; [eexists; split; reflexivity|]. vm_compute. split; reflexivity.
Qed.

(** C4, amended.  For every exchange that supports REST and whose
    SupportsRESTTickerBatchUpdates() is true, within a single ticker-polling
    iteration the task invokes, for each asset type of the exchange in turn,
    the network update (UpdateTicker) only for the first enabled pair of that
    asset type and the cache-reading FetchTicker for every subsequent enabled
    pair of that asset type. *)
Theorem tickerTask_batches_per_asset_type (Bot : Engine) (x : nat) (exch : IBotExchange) :
  Exchanges Bot !! x = Some (Some exch) ->
  SupportsREST exch = true ->
  SupportsRESTTickerBatchUpdates exch = true ->
  fetches (tickerTask Bot x)
  = concat (List.map (batchedCalls exch) (GetAssetTypes exch))
  /\ forall assetType, updatesFirstOnly (batchedCalls exch assetType) = true.
Proof.
  intros Hx Hrest Hbatch. split.
  - unfold tickerTask. rewrite Hx, Hrest, Hbatch. cbn [negb].
    rewrite fetches_concat, List.map_map. f_equal.
    apply List.map_ext. intros assetType. apply fetches_assetType.
  - intros assetType. unfold batchedCalls.
    destruct (GetEnabledPairs exch assetType) as [|c later]; [reflexivity|].
    cbn [updatesFirstOnly andb]. induction later as [|c' later IH]; [reflexivity|].
    exact IH.
Qed.

Lemma tickerTask_batches_per_asset_type_witness :
  fetches (tickerTask exampleBot 2)
  = concat
      (List.map
         (batchedCalls
            (exampleExchange "OKEX" true true true [AssetTypeSpot; AssetTypeFutures]))
         [AssetTypeSpot; AssetTypeFutures])
  /\ forall assetType,
       updatesFirstOnly
         (batchedCalls
            (exampleExchange "OKEX" true true true [AssetTypeSpot; AssetTypeFutures])
            assetType) = true.
Proof.
  apply (tickerTask_batches_per_asset_type exampleBot 2
           (exampleExchange "OKEX" true true true [AssetTypeSpot; AssetTypeFutures]));
    reflexivity.
Defined.

(** ** Lookups by exchange name *)

Lemma findSpecificTicker_unknown parse exchanges currency exchangeName assetType :
  (forall exch, In (Some exch) exchanges -> GetName exch <> exchangeName) ->
  findSpecificTicker parse exchanges currency exchangeName assetType
  = (ticker.zero, None).
Proof.
  induction exchanges as [|[exch|] rest IH]; intros H; cbn [findSpecificTicker].
  - reflexivity.
  - rewrite bool_decide_eq_false_2 by (apply H; left; reflexivity).
    apply IH. intros e He. apply H. right. exact He.
  - apply IH. intros e He. apply H. right. exact He.
Qed.

Lemma findSpecificOrderbook_unknown parse exchanges currency exchangeName assetType :
  (forall exch, In (Some exch) exchanges -> GetName exch <> exchangeName) ->
  findSpecificOrderbook parse exchanges currency exchangeName assetType
  = (orderbook.zero, None).
Proof.
  induction exchanges as [|[exch|] rest IH]; intros H; cbn [findSpecificOrderbook].
  - reflexivity.
  - rewrite bool_decide_eq_false_2 by (apply H; left; reflexivity).
    apply IH. intros e He. apply H. right. exact He.
  - apply IH. intros e He. apply H. right. exact He.
Qed.

Lemma GetAccountCurrencyInfoByExchangeName_unknown accounts exchangeName :
  (forall a, In a accounts -> Exchange a <> exchangeName) ->
  GetAccountCurrencyInfoByExchangeName accounts exchangeName
  = (zeroAccountInfo, Some ErrExchangeNotFound).
Proof.
  induction accounts as [|a rest IH]; intros H;
    cbn [GetAccountCurrencyInfoByExchangeName]; [reflexivity|].
  rewrite bool_decide_eq_false_2 by (apply H; left; reflexivity).
  apply IH. intros a' Ha'. apply H. right. exact Ha'.
Qed.

(** C3, the code at the failing input.  No exchange of the registry is
    named Poloniex: GetSpecificTicker and GetSpecificOrderbook answer with the
    zero value and a nil error, where they are specified to return the
    exchange-not-found error; GetAccountCurrencyInfoByExchangeName does
    return it. *)
Theorem lookups_of_unknown_exchange (parse : string -> CurrencyPair) :
  GetSpecificTicker parse exampleBot "BTCUSD" "Poloniex" AssetTypeSpot
  = (ticker.zero, None)
  /\ GetSpecificOrderbook parse exampleBot "BTCUSD" "Poloniex" AssetTypeSpot
     = (orderbook.zero, None)
  /\ GetAccountCurrencyInfoByExchangeName exampleAccounts "Poloniex"
     = (zeroAccountInfo, Some ErrExchangeNotFound).
Proof. repeat split. Qed.

(** * Further properties *)

(** ** Package config: the exchange list *)

Lemma fold_left_select {A B} (f : A -> bool) (g : A -> B) (l : list A) (acc : list B) :
  fold_left (fun acc x => if f x then acc ++ [g x] else acc) l acc
  = acc ++ List.map g (List.filter f l).
Proof.
  revert acc. induction l as [|x l IH]; intros acc; cbn [fold_left List.filter].
  - rewrite app_nil_r. reflexivity.
  - rewrite IH. destruct (f x); cbn [List.map]; [|reflexivity].
    rewrite <- app_assoc. reflexivity.
Qed.

Lemma GetEnabledExchanges_select c :
  cfg.GetEnabledExchanges c
  = List.map config.Name (List.filter config.ExchangeEnabled (config.Exchanges c)).
Proof.
  unfold cfg.GetEnabledExchanges.
  exact (fold_left_select config.ExchangeEnabled config.Name (config.Exchanges c) []).
Qed.

Lemma GetDisabledExchanges_select c :
  cfg.GetDisabledExchanges c
  = List.map config.Name
      (List.filter (fun exch => negb (config.ExchangeEnabled exch)) (config.Exchanges c)).
Proof.
  unfold cfg.GetDisabledExchanges.
  exact (fold_left_select (fun exch => negb (config.ExchangeEnabled exch)) config.Name
           (config.Exchanges c) []).
Qed.

Lemma CountEnabledExchanges_count l (counter : Z) :
  fold_left
    (fun counter exch => if config.ExchangeEnabled exch then counter + 1 else counter)
    l counter
  = counter + Z.of_nat (length (List.filter config.ExchangeEnabled l)).
Proof.
  revert counter. induction l as [|x l IH]; intros counter; cbn [fold_left List.filter].
  - cbn. lia.
  - rewrite IH. destruct (config.ExchangeEnabled x); cbn [length]; lia.
Qed.

Lemma filter_partition_Permutation {A} (f : A -> bool) (l : list A) :
  Permutation (List.filter f l ++ List.filter (fun x => negb (f x)) l) l.
Proof.
  induction l as [|x l IH]; cbn [List.filter]; [constructor|].
  destruct (f x); cbn [negb app].
  - constructor. exact IH.
  - etransitivity; [symmetry; apply Permutation_middle|]. constructor. exact IH.
Qed.

(** X1.  The enabled and the disabled exchanges partition the configured
    ones: CountEnabledExchanges is the length of GetEnabledExchanges, and the
    names returned by GetEnabledExchanges followed by those returned by
    GetDisabledExchanges are the configured names, each as often as it is
    configured. *)
Theorem enabled_and_disabled_exchanges_partition (c : config.Config) :
  cfg.CountEnabledExchanges c = Z.of_nat (length (cfg.GetEnabledExchanges c))
  /\ Permutation (cfg.GetEnabledExchanges c ++ cfg.GetDisabledExchanges c)
       (List.map config.Name (config.Exchanges c)).
Proof.
  split.
  - unfold cfg.CountEnabledExchanges.
    rewrite CountEnabledExchanges_count, GetEnabledExchanges_select, length_map. lia.
  - rewrite GetEnabledExchanges_select, GetDisabledExchanges_select, <- List.map_app.
    apply Permutation_map, filter_partition_Permutation.
Qed.

Section UpdateExchange.

Variable StringToLower : string -> string.

Lemma replaceExchangeConfig_found exchanges e :
  snd (cfg.replaceExchangeConfig StringToLower exchanges e) = true
  <-> config.findExchangeConfig StringToLower exchanges (config.Name e) <> None.
Proof.
  induction exchanges as [|x rest IH];
    cbn [cfg.replaceExchangeConfig config.findExchangeConfig].
  - cbn. split; [discriminate | congruence].
  - case_bool_decide.
    + cbn. split; [discriminate | reflexivity].
    + destruct (cfg.replaceExchangeConfig StringToLower rest e) as [rest' found].
      exact IH.
Qed.

Lemma replaceExchangeConfig_lookup exchanges e exchanges' name :
  cfg.replaceExchangeConfig StringToLower exchanges e = (exchanges', true) ->
  config.findExchangeConfig StringToLower exchanges' name
  = if bool_decide (StringToLower name = StringToLower (config.Name e))
    then Some e
    else config.findExchangeConfig StringToLower exchanges name.
Proof.
  revert exchanges'. induction exchanges as [|x rest IH]; intros exchanges';
    cbn [cfg.replaceExchangeConfig]; [discriminate|].
  destruct (decide (StringToLower (config.Name x) = StringToLower (config.Name e)))
    as [Hx | Hx].
  - rewrite (bool_decide_eq_true_2 _ Hx). intros [= <-].
    cbn [config.findExchangeConfig]. rewrite Hx.
    destruct (decide (StringToLower name = StringToLower (config.Name e))) as [Hn | Hn].
    + rewrite (bool_decide_eq_true_2 _ Hn).
      rewrite bool_decide_eq_true_2 by congruence. reflexivity.
    + rewrite (bool_decide_eq_false_2 _ Hn).
      rewrite bool_decide_eq_false_2 by congruence. reflexivity.
  - rewrite (bool_decide_eq_false_2 _ Hx).
    destruct (cfg.replaceExchangeConfig StringToLower rest e) as [rest' found] eqn:Hr.
    intros [= <- ->]. cbn [config.findExchangeConfig].
    rewrite (IH rest' eq_refl).
    destruct (decide (StringToLower name = StringToLower (config.Name e))) as [Hn | Hn].
    + rewrite (bool_decide_eq_true_2 _ Hn).
      rewrite bool_decide_eq_false_2 by congruence. reflexivity.
    + rewrite (bool_decide_eq_false_2 _ Hn). reflexivity.
Qed.

Lemma replaceExchangeConfig_length exchanges e :
  length (fst (cfg.replaceExchangeConfig StringToLower exchanges e)) = length exchanges.
Proof.
  induction exchanges as [|x rest IH]; cbn [cfg.replaceExchangeConfig]; [reflexivity|].
  case_bool_decide; [reflexivity|].
  destruct (cfg.replaceExchangeConfig StringToLower rest e) as [rest' found].
  cbn in *. congruence.
Qed.

End UpdateExchange.

(** X2.  An exchange configuration that UpdateExchangeConfig has stored is
    the one GetExchangeConfig returns for its name; the number of configured
    exchanges stays the same, and the lookup of every name that differs from
    the stored one in lower case is unchanged. *)
Theorem UpdateExchangeConfig_then_GetExchangeConfig
    (StringToLower : string -> string) (c c' : config.Config) (e : config.ExchangeConfig) :
  cfg.UpdateExchangeConfig StringToLower c e = (c', None) ->
  config.GetExchangeConfig StringToLower c' (config.Name e) = (Some e, None)
  /\ length (config.Exchanges c') = length (config.Exchanges c)
  /\ forall name,
       StringToLower name <> StringToLower (config.Name e) ->
       config.GetExchangeConfig StringToLower c' name
       = config.GetExchangeConfig StringToLower c name.
Proof.
  unfold cfg.UpdateExchangeConfig.
  destruct (cfg.replaceExchangeConfig StringToLower (config.Exchanges c) e)
    as [exchanges found] eqn:Hrep.
  destruct found; [|discriminate]. intros [= <-].
  unfold config.GetExchangeConfig. cbn [config.Exchanges].
  repeat split.
  - rewrite (replaceExchangeConfig_lookup _ _ _ _ _ Hrep).
    rewrite bool_decide_eq_true_2 by reflexivity. reflexivity.
  - pose proof (replaceExchangeConfig_length StringToLower (config.Exchanges c) e) as H.
    rewrite Hrep in H. exact H.
  - intros name Hne. rewrite (replaceExchangeConfig_lookup _ _ _ _ _ Hrep).
    rewrite bool_decide_eq_false_2 by exact Hne. reflexivity.
Qed.

Lemma UpdateExchangeConfig_then_GetExchangeConfig_witness :
  config.GetExchangeConfig exampleToLower
    (fst (cfg.UpdateExchangeConfig exampleToLower exampleConfig exampleUpdate)) "b"
  = (Some exampleUpdate, None)
  /\ length (config.Exchanges
               (fst (cfg.UpdateExchangeConfig exampleToLower exampleConfig exampleUpdate)))
     = length (config.Exchanges exampleConfig)
  /\ forall name,
       exampleToLower name <> exampleToLower "b" ->
       config.GetExchangeConfig exampleToLower
         (fst (cfg.UpdateExchangeConfig exampleToLower exampleConfig exampleUpdate)) name
       = config.GetExchangeConfig exampleToLower exampleConfig name.
Proof.
  apply (UpdateExchangeConfig_then_GetExchangeConfig exampleToLower exampleConfig
           (fst (cfg.UpdateExchangeConfig exampleToLower exampleConfig exampleUpdate))
           exampleUpdate).
  reflexivity.
Defined.

(** X3.  UpdateExchangeConfig fails exactly when GetExchangeConfig finds no
    exchange of that name, and a failed update leaves the configuration as it
    was. *)
Theorem UpdateExchangeConfig_fails_iff_unknown
    (StringToLower : string -> string) (c : config.Config) (e : config.ExchangeConfig) :
  (snd (cfg.UpdateExchangeConfig StringToLower c e) <> None
   <-> snd (config.GetExchangeConfig StringToLower c (config.Name e)) <> None)
  /\ (snd (cfg.UpdateExchangeConfig StringToLower c e) <> None ->
      fst (cfg.UpdateExchangeConfig StringToLower c e) = c).
Proof.
  unfold cfg.UpdateExchangeConfig, config.GetExchangeConfig.
  pose proof (replaceExchangeConfig_found StringToLower (config.Exchanges c) e) as Hf.
  destruct (cfg.replaceExchangeConfig StringToLower (config.Exchanges c) e)
    as [exchanges found].
  cbn [snd] in Hf.
  destruct (config.findExchangeConfig StringToLower (config.Exchanges c) (config.Name e))
    as [x|]; destruct found; cbn [fst snd]; split; try tauto; try congruence.
  exfalso. destruct Hf as [_ Hf]. discriminate Hf. discriminate.
Qed.

(** ** Pairs in either order *)

Lemma Equal_either c p :
  Equal c p false = true <->
  (FirstCurrency c = FirstCurrency p /\ SecondCurrency c = SecondCurrency p)
  \/ (FirstCurrency c = SecondCurrency p /\ SecondCurrency c = FirstCurrency p).
Proof.
  unfold Equal. rewrite orb_true_iff, !andb_true_iff, !bool_decide_eq_true. tauto.
Qed.

Lemma Equal_either_refl p : Equal p p false = true.
Proof. apply Equal_either. left. split; reflexivity. Qed.

Lemma Equal_either_trans a b c :
  Equal a b false = true -> Equal b c false = true -> Equal a c false = true.
Proof.
  rewrite !Equal_either. intros [[H1 H2] | [H1 H2]] [[H3 H4] | [H3 H4]];
    [left | right | right | left]; split; congruence.
Qed.

Lemma Equal_exact_either c p : Equal c p true = true -> Equal c p false = true.
Proof. rewrite Equal_exact, Equal_either. tauto. Qed.

Lemma Equal_either_congr_r q p r :
  Equal p r false = true -> Equal q p false = Equal q r false.
Proof.
  intros H. destruct (Equal q p false) eqn:E1, (Equal q r false) eqn:E2;
    try reflexivity.
  - rewrite (Equal_either_trans q p r E1 H) in E2. discriminate.
  - rewrite Equal_either_sym in H.
    rewrite (Equal_either_trans q r p E2 H) in E1. discriminate.
Qed.

Lemma Contains_either_congr l p r :
  Equal p r false = true -> Contains l p false = Contains l r false.
Proof.
  intros H. induction l as [|q l IH]; cbn [Contains]; [reflexivity|].
  rewrite (Equal_either_congr_r q p r H), IH. reflexivity.
Qed.

Lemma Contains_exact_either l p :
  Contains l p true = true -> Contains l p false = true.
Proof.
  rewrite !Contains_true. intros (q & Hq & He). exists q.
  split; [exact Hq | apply Equal_exact_either, He].
Qed.

(** Merging makes exactly the pairs of the merged list newly contained, in
    either order. *)
Lemma Contains_mergePairs pairList pairs r :
  Contains (mergePairs pairList pairs) r false
  = Contains pairList r false || Contains pairs r false.
Proof.
  induction pairs as [|p pairs IH] using rev_ind.
  - cbn. rewrite orb_false_r. reflexivity.
  - rewrite mergePairs_snoc, (Contains_app pairs [p]). cbn [Contains].
    destruct (Contains (mergePairs pairList pairs) p false) eqn:Hp.
    + rewrite IH. destruct (Equal p r false) eqn:Hr; [|rewrite !orb_false_r; reflexivity].
      rewrite <- IH, <- (Contains_either_congr _ p r Hr), Hp.
      rewrite !orb_true_r. reflexivity.
    + rewrite Contains_app, IH. cbn [Contains].
      rewrite orb_assoc. reflexivity.
Qed.

Lemma distinctPairs_before (pre : list CurrencyPair) p rest q :
  distinctPairs (pre ++ p :: rest) -> In q pre -> Equal q p false = false.
Proof.
  intros Hd Hq. apply list_elem_of_In, list_elem_of_lookup in Hq as (i & Hi).
  apply (Hd i (length pre) q p).
  - apply lookup_lt_Some in Hi. exact Hi.
  - rewrite lookup_app_l; [exact Hi | apply lookup_lt_Some in Hi; exact Hi].
  - rewrite lookup_app_r by lia. rewrite Nat.sub_diag. reflexivity.
Qed.

(** ** engine/helpers.go: what the aggregate list covers *)

Section Coverage.

Variable StringToLower : string -> string.
Variable SplitStrings : string -> string -> list string.
Variable FormatPairs : list string -> string -> string -> list CurrencyPair.

Lemma collectAvailablePairs_mono Bot enabledExchangesOnly assetType exchanges pairList r :
  Contains pairList r false = true ->
  Contains
    (fold_left
       (collectAvailablePairs StringToLower SplitStrings FormatPairs
          Bot enabledExchangesOnly assetType) exchanges pairList) r false = true.
Proof.
  revert pairList. induction exchanges as [|exch exchanges IH]; intros pairList H;
    cbn [fold_left]; [exact H|].
  apply IH. unfold collectAvailablePairs.
  destruct (enabledExchangesOnly && negb (config.ExchangeEnabled exch)); [exact H|].
  destruct (config.GetAvailablePairs _ _ _ _ _ _) as [pairs [err|]]; [exact H|].
  rewrite Contains_mergePairs, H. reflexivity.
Qed.

End Coverage.

(** X4.  Every pair that a configured exchange supports (SupportsPair
    answers true without error) is covered by GetAllAvailablePairs, in one
    order or the other, when the exchange is enabled or disabled exchanges
    are asked for as well. *)
Theorem GetAllAvailablePairs_covers_supported_pairs
    (StringToLower : string -> string)
    (SplitStrings : string -> string -> list string)
    (FormatPairs : list string -> string -> string -> list CurrencyPair)
    (Bot : Engine) (enabledExchangesOnly : bool) (assetType : AssetType)
    (exch : config.ExchangeConfig) (p : CurrencyPair) :
  In exch (config.Exchanges (Config Bot)) ->
  (enabledExchangesOnly = true -> config.ExchangeEnabled exch = true) ->
  cfg.SupportsPair StringToLower SplitStrings FormatPairs
    (Config Bot) (config.Name exch) p assetType = (true, None) ->
  Contains
    (GetAllAvailablePairs StringToLower SplitStrings FormatPairs
       Bot enabledExchangesOnly assetType) p false = true.
Proof.
  intros Hin Hen Hsup. unfold GetAllAvailablePairs.
  apply in_split in Hin as (before & after & ->).
  rewrite fold_left_app. cbn [fold_left].
  apply collectAvailablePairs_mono.
  unfold collectAvailablePairs at 1.
  replace (enabledExchangesOnly && negb (config.ExchangeEnabled exch)) with false
    by (destruct enabledExchangesOnly; [rewrite Hen|]; reflexivity).
  unfold cfg.SupportsPair in Hsup.
  destruct (config.GetAvailablePairs _ _ _ _ _ _) as [pairs [err|]];
    [discriminate|].
  injection Hsup as Hc. rewrite Contains_mergePairs, Hc. apply orb_true_r.
Qed.

Lemma GetAllAvailablePairs_covers_supported_pairs_witness :
  Contains
    (GetAllAvailablePairs id exampleSplitStrings exampleFormatPairs
       exampleBot true AssetTypeSpot) ltc_usd false = true.
Proof.
  apply (GetAllAvailablePairs_covers_supported_pairs id exampleSplitStrings
           exampleFormatPairs exampleBot true AssetTypeSpot exampleConfigA ltc_usd).
  - left. reflexivity.
  - intros _. reflexivity.
  - reflexivity.
Defined.

(** ** engine/helpers.go: selected pairs *)

Section Specific.

Variable IsCryptoFiatPair : CurrencyPair -> bool.
Variable IsCryptoPair : CurrencyPair -> bool.

(** On a pair that no entry of the list equals, the loop body appends the
    pair once when a branch selects it and leaves the list alone otherwise. *)
Lemma specificPairStep_fresh fiatPairs includeUSDT cryptoPairs pairList p :
  Contains pairList p false = false ->
  specificPairStep IsCryptoFiatPair IsCryptoPair fiatPairs includeUSDT cryptoPairs
    pairList p
  = if (fiatPairs && fiatSelected IsCryptoFiatPair IsCryptoPair includeUSDT p)
       || (cryptoPairs && IsCryptoPair p)
    then pairList ++ [p] else pairList.
Proof.
  intros Hfresh. unfold specificPairStep. rewrite Hfresh, andb_false_r.
  destruct (fiatPairs && fiatSelected IsCryptoFiatPair IsCryptoPair includeUSDT p);
    cbn [orb].
  - rewrite Contains_app. cbn [Contains]. rewrite Equal_either_refl, orb_true_r.
    destruct (cryptoPairs && IsCryptoPair p); reflexivity.
  - rewrite Hfresh. reflexivity.
Qed.

Lemma fold_specificPairStep fiatPairs includeUSDT cryptoPairs pre rest :
  distinctPairs (pre ++ rest) ->
  fold_left
    (specificPairStep IsCryptoFiatPair IsCryptoPair fiatPairs includeUSDT cryptoPairs)
    rest
    (List.filter
       (fun p =>
          (fiatPairs && fiatSelected IsCryptoFiatPair IsCryptoPair includeUSDT p)
          || (cryptoPairs && IsCryptoPair p)) pre)
  = List.filter
      (fun p =>
         (fiatPairs && fiatSelected IsCryptoFiatPair IsCryptoPair includeUSDT p)
         || (cryptoPairs && IsCryptoPair p)) (pre ++ rest).
Proof.
  revert pre. induction rest as [|p rest IH]; intros pre Hd; cbn [fold_left].
  - rewrite app_nil_r. reflexivity.
  - rewrite specificPairStep_fresh.
    + replace (pre ++ p :: rest) with ((pre ++ [p]) ++ rest) in *
        by (rewrite <- app_assoc; reflexivity).
      rewrite <- (IH (pre ++ [p]) Hd). f_equal.
      rewrite List.filter_app. cbn [List.filter].
      destruct (_ || _); [reflexivity | rewrite app_nil_r; reflexivity].
    + apply Contains_false. intros q [Hq _]%filter_In.
      exact (distinctPairs_before pre p rest q Hd Hq).
Qed.

End Specific.

(** X5.  GetSpecificAvailablePairs returns exactly the pairs of
    GetAllAvailablePairs that the fiat branch or the crypto branch selects,
    each once and in the order of GetAllAvailablePairs; with both fiatPairs
    and cryptoPairs false it returns nothing. *)
Theorem GetSpecificAvailablePairs_selects
    (StringToLower : string -> string)
    (SplitStrings : string -> string -> list string)
    (FormatPairs : list string -> string -> string -> list CurrencyPair)
    (IsCryptoFiatPair IsCryptoPair : CurrencyPair -> bool)
    (Bot : Engine) (enabledExchangesOnly fiatPairs includeUSDT cryptoPairs : bool)
    (assetType : AssetType) :
  GetSpecificAvailablePairs StringToLower SplitStrings FormatPairs
    IsCryptoFiatPair IsCryptoPair
    Bot enabledExchangesOnly fiatPairs includeUSDT cryptoPairs assetType
  = List.filter
      (fun p =>
         (fiatPairs && fiatSelected IsCryptoFiatPair IsCryptoPair includeUSDT p)
         || (cryptoPairs && IsCryptoPair p))
      (GetAllAvailablePairs StringToLower SplitStrings FormatPairs
         Bot enabledExchangesOnly assetType).
Proof.
  unfold GetSpecificAvailablePairs.
  apply (fold_specificPairStep IsCryptoFiatPair IsCryptoPair
           fiatPairs includeUSDT cryptoPairs []).
  apply (collectAvailablePairs_invariant StringToLower SplitStrings FormatPairs
           Bot enabledExchangesOnly assetType (config.Exchanges (Config Bot))).
  auto.
Qed.

(** ** engine/helpers.go: relatable fiat and crypto pairs *)

Lemma fold_left_over_map {A B C} (f : A -> C -> A) (g : B -> C) (l : list B) (a : A) :
  fold_left f (List.map g l) a = fold_left (fun a x => f a (g x)) l a.
Proof.
  revert a. induction l as [|x l IH]; intros a; cbn [fold_left List.map];
    [reflexivity | apply IH].
Qed.

Lemma relatableWith_mergePairs currencies p :
  relatableWith currencies p
  = mergePairs [] (List.map (NewCurrencyPair (FirstCurrency p)) currencies).
Proof.
  unfold relatableWith, mergePairs. rewrite fold_left_over_map. reflexivity.
Qed.

Lemma relatableWith_covers currencies P :
  (forall q, In q (relatableWith currencies P) ->
             FirstCurrency q = FirstCurrency P /\ In (SecondCurrency q) currencies)
  /\ (forall c, In c currencies ->
                Contains (relatableWith currencies P)
                  (NewCurrencyPair (FirstCurrency P) c) false = true)
  /\ distinctPairs (relatableWith currencies P).
Proof.
  rewrite relatableWith_mergePairs. repeat split.
  - apply mergePairs_In in H as [[] | (c & <- & Hc)%in_map_iff]. reflexivity.
  - apply mergePairs_In in H as [[] | (c & <- & Hc)%in_map_iff]. exact Hc.
  - intros c Hc. rewrite Contains_mergePairs. cbn [Contains orb].
    apply Contains_true. exists (NewCurrencyPair (FirstCurrency P) c).
    split; [apply in_map, Hc | apply Equal_either_refl].
  - apply mergePairs_distinct, distinctPairs_nil.
Qed.

(** X6.  GetRelatableFiatCurrencies and GetRelatableCryptocurrencies pair
    the first currency of P with the symbols of their list: every returned
    pair has the first currency of P and a listed symbol as its second, every
    listed symbol is covered by a returned pair, and no two returned pairs are
    equal in either order. *)
Theorem relatable_fiat_and_crypto_pairs
    (CryptoCurrencies FiatCurrencies : list string) (P : CurrencyPair) :
  let covers (currencies : list string) (pairs : list CurrencyPair) :=
    (forall q, In q pairs ->
               FirstCurrency q = FirstCurrency P /\ In (SecondCurrency q) currencies)
    /\ (forall c, In c currencies ->
                  Contains pairs (NewCurrencyPair (FirstCurrency P) c) false = true)
    /\ distinctPairs pairs in
  covers FiatCurrencies (GetRelatableFiatCurrencies FiatCurrencies P)
  /\ covers CryptoCurrencies (GetRelatableCryptocurrencies CryptoCurrencies P).
Proof.
  intros covers. split; apply relatableWith_covers.
Qed.

(** ** engine/helpers.go: IsRelatablePairs *)

Lemma fold_left_append {A B} (g : B -> list A) (l : list B) (acc : list A) :
  fold_left (fun acc x => acc ++ g x) l acc = acc ++ concat (List.map g l).
Proof.
  revert acc. induction l as [|x l IH]; intros acc; cbn [fold_left List.map concat].
  - rewrite app_nil_r. reflexivity.
  - rewrite IH, app_assoc. reflexivity.
Qed.

Lemma Contains_concat_In (ls : list (list CurrencyPair)) l p e :
  In l ls -> Contains l p e = true -> Contains (concat ls) p e = true.
Proof.
  induction ls as [|l' ls IH]; intros Hin Hc; [destruct Hin|].
  cbn [concat]. rewrite Contains_app. destruct Hin as [<- | Hin].
  - rewrite Hc. reflexivity.
  - rewrite (IH Hin Hc). apply orb_true_r.
Qed.

Lemma GetRelatableCurrencies_holds_original tr P incUSDT :
  (incUSDT = false -> ContainsCurrency P "USDT" = false) ->
  Contains (GetRelatableCurrencies tr P true incUSDT) P true = true.
Proof.
  intros Husdt. unfold GetRelatableCurrencies.
  assert (HP : Contains (buildPairs tr (buildPairs tr [] P true) (Swap P) true) P true
               = true)
    by (apply Contains_buildPairs_mono, Contains_buildPairs_orig).
  destruct incUSDT; cbn [negb]; [exact HP|].
  rewrite Contains_RemovePairsByFilter_kept; [exact HP | apply Husdt; reflexivity].
Qed.

(** X7.  Every pair that GetRelatableCurrencies(p1, true, includeUSDT)
    contains in either order is relatable to p1: IsRelatablePairs answers
    true for it, whether or not p1 is a crypto/fiat pair. *)
Theorem IsRelatablePairs_of_relatable_currencies
    (GetTranslation : CurrencyItem -> option CurrencyItem)
    (IsCryptoFiatPair : CurrencyPair -> bool) (FiatCurrencies : list string)
    (p1 p2 : CurrencyPair) (includeUSDT : bool) :
  Contains (GetRelatableCurrencies GetTranslation p1 true includeUSDT) p2 false = true ->
  IsRelatablePairs GetTranslation IsCryptoFiatPair FiatCurrencies p1 p2 includeUSDT = true.
Proof.
  intros H. unfold IsRelatablePairs.
  destruct (Equal p1 p2 false); [reflexivity|].
  destruct (IsCryptoFiatPair p1); [|exact H].
  rewrite fold_left_append, Contains_app, H. reflexivity.
Qed.

Lemma IsRelatablePairs_of_relatable_currencies_witness :
  IsRelatablePairs exampleTranslation exampleIsCryptoFiatPair exampleFiatCurrencies
    btc_usd (NewCurrencyPair "USDT" "XBT") true = true.
Proof.
  apply (IsRelatablePairs_of_relatable_currencies exampleTranslation
           exampleIsCryptoFiatPair exampleFiatCurrencies
           btc_usd (NewCurrencyPair "USDT" "XBT") true).
  reflexivity.
Defined.

(** X8.  For a crypto/fiat pair p1, replacing its second currency by any
    listed fiat currency gives a relatable pair: IsRelatablePairs(p1,
    (first of p1, f), includeUSDT) is true for every f of the fiat list,
    provided that, when includeUSDT is false, p1 itself does not contain
    USDT. *)
Theorem IsRelatablePairs_fiat_substitution
    (GetTranslation : CurrencyItem -> option CurrencyItem)
    (IsCryptoFiatPair : CurrencyPair -> bool) (FiatCurrencies : list string)
    (p1 : CurrencyPair) (f : string) (includeUSDT : bool) :
  IsCryptoFiatPair p1 = true ->
  In f FiatCurrencies ->
  (includeUSDT = false -> ContainsCurrency p1 "USDT" = false) ->
  IsRelatablePairs GetTranslation IsCryptoFiatPair FiatCurrencies
    p1 (NewCurrencyPair (FirstCurrency p1) f) includeUSDT = true.
Proof.
  intros Hcf Hf Husdt. unfold IsRelatablePairs.
  destruct (Equal p1 _ false); [reflexivity|]. rewrite Hcf.
  rewrite fold_left_append, Contains_app.
  pose proof (GetRelatableCurrencies_holds_original GetTranslation p1 includeUSDT Husdt)
    as Horig.
  apply Contains_true in Horig as (x & Hx & [Hx1 _]%Equal_exact).
  replace (Contains (concat _) _ false) with true; [apply orb_true_r|].
  symmetry. eapply Contains_concat_In.
  - apply in_map. exact Hx.
  - destruct (relatableWith_covers FiatCurrencies x) as (_ & Hcov & _).
    unfold GetRelatableFiatCurrencies. rewrite <- Hx1. apply Hcov, Hf.
Qed.

Lemma IsRelatablePairs_fiat_substitution_witness :
  IsRelatablePairs exampleTranslation exampleIsCryptoFiatPair exampleFiatCurrencies
    btc_usd (NewCurrencyPair "BTC" "EUR") false = true.
Proof.
  apply (IsRelatablePairs_fiat_substitution exampleTranslation
           exampleIsCryptoFiatPair exampleFiatCurrencies btc_usd "EUR" false).
  - reflexivity.
  - right. left. reflexivity.
  - intros _. reflexivity.
Defined.

(** ** engine/helpers.go: pairs mapped by exchange *)

Lemma Contains_withPair held p : Contains (withPair held p) p false = true.
Proof.
  destruct held as [result|]; cbn [withPair Contains].
  - destruct (Contains result p false) eqn:H; [exact H|].
    rewrite Contains_app. cbn [Contains]. rewrite Equal_either_refl. apply orb_true_r.
  - rewrite Equal_either_refl. reflexivity.
Qed.

Lemma withPair_again held p : withPair (Some (withPair held p)) p = withPair held p.
Proof.
  change (withPair (Some (withPair held p)) p)
    with (if Contains (withPair held p) p false then withPair held p
          else withPair held p ++ [p]).
  rewrite Contains_withPair. reflexivity.
Qed.

Lemma withPair_keeps result p r e :
  Contains result r e = true -> Contains (withPair (Some result) p) r e = true.
Proof.
  intros H. cbn [withPair]. destruct (Contains result p false); [exact H|].
  rewrite Contains_app, H. reflexivity.
Qed.

Lemma withPair_In held p r :
  In r (withPair held p) -> r = p \/ exists result, held = Some result /\ In r result.
Proof.
  destruct held as [result|]; cbn [withPair].
  - destruct (Contains result p false).
    + intros H. right. eauto.
    + intros [H | [<- | []]]%in_app_iff; [right; eauto | left; reflexivity].
  - intros [<- | []]. left. reflexivity.
Qed.

Lemma withPair_distinct held p :
  (forall result, held = Some result -> distinctPairs result) ->
  distinctPairs (withPair held p).
Proof.
  destruct held as [result|]; cbn [withPair]; intros H.
  - destruct (Contains result p false) eqn:Hc; [apply H; reflexivity|].
    apply distinctPairs_snoc; [apply H; reflexivity | exact Hc].
  - apply (distinctPairs_snoc [] p distinctPairs_nil). reflexivity.
Qed.

Lemma withPair_nonempty held p : withPair held p <> [].
Proof.
  destruct held as [result|]; cbn [withPair]; [|discriminate].
  destruct (Contains result p false) eqn:Hc.
  - intros ->. discriminate.
  - destruct result; discriminate.
Qed.

Section Mapped.

Variable StringToLower : string -> string.
Variable SplitStrings : string -> string -> list string.
Variable FormatPairs : list string -> string -> string -> list CurrencyPair.
Variables (Bot : Engine) (enabledExchangesOnly : bool) (assetType : AssetType).

Local Abbreviation offersPair :=
  (offers StringToLower SplitStrings FormatPairs Bot enabledExchangesOnly assetType).
Local Abbreviation step :=
  (mapCurrencyStep StringToLower SplitStrings FormatPairs Bot enabledExchangesOnly assetType).

Lemma mapCurrencyStep_lookup p (m : gmap string (list CurrencyPair)) exch name :
  step p m exch !! name
  = if offersPair p exch && bool_decide (config.Name exch = name)
    then Some (withPair (m !! name) p)
    else m !! name.
Proof.
  unfold mapCurrencyStep, offers, passesFilter.
  destruct (enabledExchangesOnly && negb (config.ExchangeEnabled exch));
    cbn [negb andb]; [reflexivity|].
  destruct (cfg.SupportsPair _ _ _ _ _ _ _) as [[|] [err|]]; cbn [andb];
    try reflexivity.
  destruct (decide (config.Name exch = name)) as [<- | Hne].
  - rewrite bool_decide_eq_true_2 by reflexivity. unfold withPair.
    destruct (m !! config.Name exch) as [result|] eqn:Hm.
    + destruct (Contains result p false); [exact Hm | apply lookup_insert_eq].
    + apply lookup_insert_eq.
  - rewrite bool_decide_eq_false_2 by exact Hne.
    destruct (m !! config.Name exch) as [result|];
      [destruct (Contains result p false); [reflexivity|]|];
      apply lookup_insert_ne; exact Hne.
Qed.

Lemma fold_mapCurrencyStep_lookup p exchanges (m : gmap string (list CurrencyPair)) name :
  fold_left (step p) exchanges m !! name
  = if existsb (fun exch => offersPair p exch && bool_decide (config.Name exch = name))
         exchanges
    then Some (withPair (m !! name) p)
    else m !! name.
Proof.
  revert m. induction exchanges as [|exch exchanges IH]; intros m;
    cbn [fold_left existsb]; [reflexivity|].
  rewrite IH, mapCurrencyStep_lookup.
  destruct (offersPair p exch && bool_decide (config.Name exch = name)); cbn [orb].
  - rewrite withPair_again. destruct (existsb _ exchanges); reflexivity.
  - reflexivity.
Qed.

Lemma offers_spec p exch :
  offersPair p exch = true <->
  (enabledExchangesOnly = true -> config.ExchangeEnabled exch = true)
  /\ cfg.SupportsPair StringToLower SplitStrings FormatPairs
       (Config Bot) (config.Name exch) p assetType = (true, None).
Proof.
  unfold offers, passesFilter. rewrite andb_true_iff, negb_true_iff.
  destruct (cfg.SupportsPair _ _ _ _ _ _ _) as [[|] [err|]];
    destruct enabledExchangesOnly, (config.ExchangeEnabled exch); cbn;
    intuition congruence.
Qed.

(** What the map holds after the pairs [seen]. *)
Lemma MapCurrenciesByExchange_invariant seen :
  let m :=
    MapCurrenciesByExchange StringToLower SplitStrings FormatPairs
      Bot seen enabledExchangesOnly assetType in
  (forall name l, m !! name = Some l ->
     l <> [] /\ distinctPairs l
     /\ forall r, In r l ->
          In r seen
          /\ exists exch, In exch (config.Exchanges (Config Bot))
                          /\ config.Name exch = name /\ offersPair r exch = true)
  /\ (forall r exch, In r seen -> In exch (config.Exchanges (Config Bot)) ->
        offersPair r exch = true ->
        exists l, m !! config.Name exch = Some l /\ Contains l r false = true).
Proof.
  unfold MapCurrenciesByExchange.
  induction seen as [|p seen IH] using rev_ind; cbn zeta.
  - cbn [fold_left].
    split; [intros name l H; rewrite lookup_empty in H; discriminate | intros r exch []].
  - rewrite fold_left_app. cbn [fold_left].
    set (m := fold_left _ seen ∅) in *. cbn zeta in IH. destruct IH as [IHs IHc].
    split.
    + intros name l. rewrite fold_mapCurrencyStep_lookup.
      destruct (existsb _ _) eqn:Hex.
      * intros [= <-]. apply existsb_exists in Hex as (exch & Hin & Hoff).
        apply andb_true_iff in Hoff as [Hoff Hname%bool_decide_eq_true].
        split; [apply withPair_nonempty|]. split.
        { apply withPair_distinct. intros result Hres. apply (IHs name result Hres). }
        intros r [-> | (result & Hres & Hr)]%withPair_In.
        { split; [apply in_app_iff; right; left; reflexivity | eauto]. }
        destruct (IHs name result Hres) as (_ & _ & Hall).
        destruct (Hall r Hr) as [Hseen Hexch].
        split; [apply in_app_iff; left; exact Hseen | exact Hexch].
      * intros Hl. destruct (IHs name l Hl) as (Hne & Hd & Hall).
        split; [exact Hne|]. split; [exact Hd|].
        intros r Hr. destruct (Hall r Hr) as [Hseen Hexch].
        split; [apply in_app_iff; left; exact Hseen | exact Hexch].
    + intros r exch [Hr | [<- | []]]%in_app_iff Hin Hoff;
        rewrite fold_mapCurrencyStep_lookup.
      * destruct (IHc r exch Hr Hin Hoff) as (l & Hl & Hc).
        destruct (existsb _ _); [|eauto].
        eexists. split; [reflexivity|]. rewrite Hl. apply withPair_keeps, Hc.
      * replace (existsb _ _) with true.
        { eexists. split; [reflexivity | apply Contains_withPair]. }
        symmetry. apply existsb_exists. exists exch. split; [exact Hin|].
        rewrite Hoff, bool_decide_eq_true_2 by reflexivity. reflexivity.
Qed.

End Mapped.

(** X9.  Every list that MapCurrenciesByExchange stores under an exchange
    name is non-empty, holds no two pairs equal in either order, and holds
    only pairs of the input that the exchange of that name supports; the name
    is that of a configured exchange that passes the enabled filter. *)
Theorem MapCurrenciesByExchange_sound
    (StringToLower : string -> string)
    (SplitStrings : string -> string -> list string)
    (FormatPairs : list string -> string -> string -> list CurrencyPair)
    (Bot : Engine) (p : list CurrencyPair) (enabledExchangesOnly : bool)
    (assetType : AssetType) (name : string) (l : list CurrencyPair) :
  MapCurrenciesByExchange StringToLower SplitStrings FormatPairs
    Bot p enabledExchangesOnly assetType !! name = Some l ->
  l <> [] /\ distinctPairs l
  /\ forall r, In r l ->
       In r p
       /\ cfg.SupportsPair StringToLower SplitStrings FormatPairs
            (Config Bot) name r assetType = (true, None)
       /\ exists exch, In exch (config.Exchanges (Config Bot))
                       /\ config.Name exch = name
                       /\ (enabledExchangesOnly = true ->
                           config.ExchangeEnabled exch = true).
Proof.
  intros Hl.
  destruct (MapCurrenciesByExchange_invariant StringToLower SplitStrings FormatPairs
              Bot enabledExchangesOnly assetType p) as [Hs _].
  destruct (Hs name l Hl) as (Hne & Hd & Hall).
  split; [exact Hne|]. split; [exact Hd|].
  intros r Hr. destruct (Hall r Hr) as (Hin & exch & Hexch & <- & Hoff).
  apply offers_spec in Hoff as [Hen Hsup]. eauto 8.
Qed.

Lemma MapCurrenciesByExchange_sound_witness :
  [btc_usd] <> [] /\ distinctPairs [btc_usd]
  /\ forall r, In r [btc_usd] ->
       In r [btc_usd; ltc_usd]
       /\ cfg.SupportsPair id exampleSplitStrings exampleFormatPairs
            (Config exampleBot) "C" r AssetTypeSpot = (true, None)
       /\ exists exch, In exch (config.Exchanges (Config exampleBot))
                       /\ config.Name exch = "C"
                       /\ (true = true -> config.ExchangeEnabled exch = true).
Proof.
  apply (MapCurrenciesByExchange_sound id exampleSplitStrings exampleFormatPairs
           exampleBot [btc_usd; ltc_usd] true AssetTypeSpot "C" [btc_usd]).
  vm_compute. reflexivity.
Defined.

(** X10.  MapCurrenciesByExchange misses nothing: for every pair of the
    input and every configured exchange that passes the enabled filter and
    supports the pair, the list stored under the exchange's name contains the
    pair in one order or the other. *)
Theorem MapCurrenciesByExchange_complete
    (StringToLower : string -> string)
    (SplitStrings : string -> string -> list string)
    (FormatPairs : list string -> string -> string -> list CurrencyPair)
    (Bot : Engine) (p : list CurrencyPair) (enabledExchangesOnly : bool)
    (assetType : AssetType) (r : CurrencyPair) (exch : config.ExchangeConfig) :
  In r p ->
  In exch (config.Exchanges (Config Bot)) ->
  (enabledExchangesOnly = true -> config.ExchangeEnabled exch = true) ->
  cfg.SupportsPair StringToLower SplitStrings FormatPairs
    (Config Bot) (config.Name exch) r assetType = (true, None) ->
  exists l,
    MapCurrenciesByExchange StringToLower SplitStrings FormatPairs
      Bot p enabledExchangesOnly assetType !! config.Name exch = Some l
    /\ Contains l r false = true.
Proof.
  intros Hr Hexch Hen Hsup.
  destruct (MapCurrenciesByExchange_invariant StringToLower SplitStrings FormatPairs
              Bot enabledExchangesOnly assetType p) as [_ Hc].
  apply (Hc r exch Hr Hexch). apply offers_spec. auto.
Qed.

Lemma MapCurrenciesByExchange_complete_witness :
  exists l,
    MapCurrenciesByExchange id exampleSplitStrings exampleFormatPairs
      exampleBot [btc_usd; ltc_usd] true AssetTypeSpot !! "A" = Some l
    /\ Contains l ltc_usd false = true.
Proof.
  apply (MapCurrenciesByExchange_complete id exampleSplitStrings exampleFormatPairs
           exampleBot [btc_usd; ltc_usd] true AssetTypeSpot ltc_usd exampleConfigA).
  - right. left. reflexivity.
  - left. reflexivity.
  - intros _. reflexivity.
  - reflexivity.
Defined.

Lemma fold_left_pointwise {A B} (f g : A -> B -> A) (l : list B) (a : A) :
  (forall a x, f a x = g a x) -> fold_left f l a = fold_left g l a.
Proof.
  intros H. revert a. induction l as [|x l IH]; intros a; cbn [fold_left];
    [reflexivity|].
  rewrite H. apply IH.
Qed.

Lemma GetExchangeNamesByCurrency_select
    StringToLower SplitStrings FormatPairs Bot p enabled assetType :
  GetExchangeNamesByCurrency StringToLower SplitStrings FormatPairs Bot p enabled assetType
  = List.map config.Name
      (List.filter
         (fun exch =>
            eqb enabled (config.ExchangeEnabled exch)
            && match cfg.SupportsPair StringToLower SplitStrings FormatPairs
                       (Config Bot) (config.Name exch) p assetType with
               | (true, None) => true
               | _ => false
               end)
         (config.Exchanges (Config Bot))).
Proof.
  unfold GetExchangeNamesByCurrency.
  rewrite <- (app_nil_l (List.map _ _)), <- fold_left_select.
  apply fold_left_pointwise. intros acc exch.
  destruct (eqb enabled (config.ExchangeEnabled exch)); cbn [negb andb];
    [|reflexivity].
  destruct (cfg.SupportsPair _ _ _ _ _ _ _) as [[|] [err|]]; reflexivity.
Qed.

(** X11.  GetExchangeNamesByCurrency(p, enabled, assetType) returns the
    names of exactly those configured exchanges whose enabled flag equals the
    argument and that support the pair: with enabled false it lists disabled
    exchanges only, not all of them. *)
Theorem GetExchangeNamesByCurrency_lists
    (StringToLower : string -> string)
    (SplitStrings : string -> string -> list string)
    (FormatPairs : list string -> string -> string -> list CurrencyPair)
    (Bot : Engine) (p : CurrencyPair) (enabled : bool) (assetType : AssetType)
    (name : string) :
  In name
    (GetExchangeNamesByCurrency StringToLower SplitStrings FormatPairs
       Bot p enabled assetType)
  <-> exists exch,
        In exch (config.Exchanges (Config Bot))
        /\ config.Name exch = name
        /\ config.ExchangeEnabled exch = enabled
        /\ cfg.SupportsPair StringToLower SplitStrings FormatPairs
             (Config Bot) name p assetType = (true, None).
Proof.
  rewrite GetExchangeNamesByCurrency_select, in_map_iff.
  split.
  - intros (exch & <- & [Hin Hf]%filter_In).
    apply andb_true_iff in Hf as [He Hs]. apply eqb_prop in He.
    exists exch. repeat split; [exact Hin | congruence |].
    destruct (cfg.SupportsPair _ _ _ _ _ _ _) as [[|] [err|]];
      try discriminate; reflexivity.
  - intros (exch & Hin & <- & He & Hs). exists exch. split; [reflexivity|].
    apply filter_In. split; [exact Hin|].
    rewrite Hs, He, eqb_reflx. reflexivity.
Qed.

(** X12.  The exchanges that GetExchangeNamesByCurrency lists for a pair
    with enabled true are exactly the keys that MapCurrenciesByExchange
    creates for that one pair with enabledExchangesOnly true. *)
Theorem GetExchangeNamesByCurrency_keys_of_map
    (StringToLower : string -> string)
    (SplitStrings : string -> string -> list string)
    (FormatPairs : list string -> string -> string -> list CurrencyPair)
    (Bot : Engine) (p : CurrencyPair) (assetType : AssetType) (name : string) :
  In name
    (GetExchangeNamesByCurrency StringToLower SplitStrings FormatPairs
       Bot p true assetType)
  <-> is_Some
        (MapCurrenciesByExchange StringToLower SplitStrings FormatPairs
           Bot [p] true assetType !! name).
Proof.
  rewrite GetExchangeNamesByCurrency_select, in_map_iff.
  unfold MapCurrenciesByExchange. cbn [fold_left].
  rewrite fold_mapCurrencyStep_lookup, lookup_empty.
  split.
  - intros (exch & <- & [Hin Hf]%filter_In).
    replace (existsb _ _) with true; [eauto|].
    symmetry. apply existsb_exists. exists exch. split; [exact Hin|].
    rewrite bool_decide_eq_true_2 by reflexivity.
    unfold offers, passesFilter. cbn [andb] in *.
    apply andb_true_iff in Hf as [He Hs]. cbn in He.
    rewrite Hs. destruct (config.ExchangeEnabled exch); [reflexivity | discriminate].
  - destruct (existsb _ _) eqn:Hex; [|intros [x Hx]; discriminate].
    intros _. apply existsb_exists in Hex as (exch & Hin & Hoff).
    apply andb_true_iff in Hoff as [Hoff Hname%bool_decide_eq_true].
    exists exch. split; [exact Hname|]. apply filter_In. split; [exact Hin|].
    unfold offers, passesFilter in Hoff. cbn [andb] in Hoff.
    apply andb_true_iff in Hoff as [He Hs]. rewrite Hs.
    destruct (config.ExchangeEnabled exch); [reflexivity | discriminate].
Qed.

(** ** engine/helpers.go: what the collation holds *)





(** X14.  GetAccountCurrencyInfoByExchangeName returns the first account
    info of the named exchange with a nil error, and the exchange-not-found
    error with the zero account info exactly when no account info has that
    name. *)
Theorem GetAccountCurrencyInfoByExchangeName_first
    (accounts : list AccountInfo) (exchangeName : string) :
  match GetAccountCurrencyInfoByExchangeName accounts exchangeName with
  | (a, None) =>
      exists before after,
        accounts = before ++ a :: after
        /\ Exchange a = exchangeName
        /\ forall b, In b before -> Exchange b <> exchangeName
  | (a, Some err) =>
      a = zeroAccountInfo /\ err = ErrExchangeNotFound
      /\ forall b, In b accounts -> Exchange b <> exchangeName
  end.
Proof.
  induction accounts as [|x rest IH]; cbn [GetAccountCurrencyInfoByExchangeName].
  - repeat split. intros b [].
  - destruct (decide (Exchange x = exchangeName)) as [Hx | Hx].
    + rewrite (bool_decide_eq_true_2 _ Hx). exists [], rest.
      repeat split; [exact Hx | intros b []].
    + rewrite (bool_decide_eq_false_2 _ Hx).
      destruct (GetAccountCurrencyInfoByExchangeName rest exchangeName) as [a [err|]].
      * destruct IH as (-> & -> & Hall). repeat split.
        intros b [<- | Hb]; [exact Hx | apply Hall, Hb].
      * destruct IH as (before & after & -> & Ha & Hbefore).
        exists (x :: before), after. repeat split; [exact Ha|].
        intros b [<- | Hb]; [exact Hx | apply Hbefore, Hb].
Qed.

(** ** engine/helpers.go: what seeding reaches *)





Section Reached.

Variables e c : string.








End Reached.



Lemma ExchangeAddressExists_key port e c :
  portfolio.ExchangeAddressExists port e c = false ->
  ~ In (e, c)
      (List.map (fun a => (portfolio.Address_ a, portfolio.CoinType a))
         (portfolio.Addresses port)).
Proof.
  unfold portfolio.ExchangeAddressExists. intros Hex (a & Ha & Hin)%in_map_iff.
  apply not_true_iff_false in Hex. apply Hex, existsb_exists. exists a.
  split; [exact Hin|]. injection Ha as H1 H2. unfold portfolio.matches.
  rewrite !bool_decide_eq_true_2 by assumption. reflexivity.
Qed.

Lemma NoDup_map_filter {A B} (f : A -> B) (p : A -> bool) (l : list A) :
  NoDup (List.map f l) -> NoDup (List.map f (List.filter p l)).
Proof.
  induction l as [|x l IH]; cbn [List.map List.filter]; [auto|].
  intros [Hx Hl]%NoDup_cons. destruct (p x); [|apply IH, Hl].
  cbn [List.map]. apply NoDup_cons. split; [|apply IH, Hl].
  intros (y & Hy & [Hin _]%filter_In)%list_elem_of_In%in_map_iff.
  apply Hx, list_elem_of_In, in_map_iff. eauto.
Qed.

Lemma seedCurrency_unique e st total :
  uniqueEntries (fst st) -> uniqueEntries (fst (seedCurrency e st total)).
Proof.
  destruct st as [port ops]. cbn [fst]. unfold uniqueEntries. intros Hu.
  destruct (seedCurrency_cases e port ops total)
    as [-> | [(Hex & _ & ->) | [(_ & _ & ->) | (_ & _ & _ & ->)]]]; cbn [fst].
  - exact Hu.
  - cbn. rewrite List.map_app. cbn. apply NoDup_app. repeat split.
    + exact Hu.
    + intros x Hx [<- | []]%list_elem_of_In.
      apply (ExchangeAddressExists_key port e (CurrencyName total) Hex).
      apply list_elem_of_In, Hx.
    + apply NoDup_singleton.
  - cbn. apply NoDup_map_filter, Hu.
  - cbn. rewrite List.map_map.
    erewrite List.map_ext; [exact Hu|].
    intros a. cbn. destruct (portfolio.matches e (CurrencyName total) a); reflexivity.
Qed.

Lemma fold_seedCurrency_unique e totals st :
  uniqueEntries (fst st) ->
  uniqueEntries (fst (fold_left (seedCurrency e) totals st)).
Proof.
  revert st. induction totals as [|t totals IH]; intros st Hst; cbn [fold_left];
    [exact Hst|].
  apply IH, seedCurrency_unique, Hst.
Qed.

Lemma fold_seedExchange_unique data st :
  uniqueEntries (fst st) -> uniqueEntries (fst (fold_left seedExchange data st)).
Proof.
  revert st. induction data as [|d data IH]; intros st Hst; cbn [fold_left];
    [exact Hst|].
  apply IH. unfold seedExchange. apply fold_seedCurrency_unique, Hst.
Qed.

(** X16.  SeedExchangeAccountInfo never duplicates an entry: a ledger with
    at most one entry per exchange and currency still has at most one entry
    per exchange and currency after the call, whatever the data. *)
Theorem SeedExchangeAccountInfo_keeps_entries_unique
    (data : list AccountInfo) (port : portfolio.Base) :
  uniqueEntries port -> uniqueEntries (fst (SeedExchangeAccountInfo data port)).
Proof.
  intros Hu. unfold SeedExchangeAccountInfo. case_bool_decide; [exact Hu|].
  apply fold_seedExchange_unique. exact Hu.
Qed.

Lemma SeedExchangeAccountInfo_keeps_entries_unique_witness :
  uniqueEntries (fst (SeedExchangeAccountInfo exampleAccounts exampleLedger)).
Proof.
  apply (SeedExchangeAccountInfo_keeps_entries_unique exampleAccounts exampleLedger).
  unfold uniqueEntries. cbn. apply NoDup_cons. split.
  - intros [H | []]%list_elem_of_In. discriminate H.
  - apply NoDup_singleton.
Defined.






(** ** engine/helpers.go: the shape of the relatable currencies *)

Lemma Equal_exact_currenciesOf c p :
  Equal c p true = true <-> currenciesOf c = currenciesOf p.
Proof.
  rewrite Equal_exact. unfold currenciesOf. split; [intros [-> ->]; reflexivity|].
  intros [= H1 H2]. auto.
Qed.

Lemma Contains_exact_currenciesOf l p :
  Contains l p true = true <-> In (currenciesOf p) (List.map currenciesOf l).
Proof.
  rewrite Contains_true, in_map_iff. split.
  - intros (q & Hq & He%Equal_exact_currenciesOf). eauto.
  - intros (q & He & Hq). exists q. split; [exact Hq|].
    apply Equal_exact_currenciesOf, He.
Qed.

Lemma addPair_NoDup pairs p :
  NoDup (List.map currenciesOf pairs) -> NoDup (List.map currenciesOf (addPair pairs p)).
Proof.
  intros Hnd. unfold addPair. destruct (Contains pairs p true) eqn:Hc; [exact Hnd|].
  rewrite List.map_app. cbn. apply NoDup_app. repeat split.
  - exact Hnd.
  - intros x Hx [<- | []]%list_elem_of_In.
    apply not_true_iff_false in Hc. apply Hc, Contains_exact_currenciesOf.
    apply list_elem_of_In, Hx.
  - apply NoDup_singleton.
Qed.

Lemma addPair_length pairs p : (length (addPair pairs p) <= S (length pairs))%nat.
Proof.
  unfold addPair. destruct (Contains pairs p true); [lia|].
  rewrite length_app. cbn. lia.
Qed.

Lemma buildPairs_NoDup tr pairs p incOrig :
  NoDup (List.map currenciesOf pairs) ->
  NoDup (List.map currenciesOf (buildPairs tr pairs p incOrig)).
Proof.
  intros H. unfold buildPairs.
  destruct incOrig, (tr (FirstCurrency p)), (tr (SecondCurrency p));
    repeat apply addPair_NoDup; exact H.
Qed.

Lemma buildPairs_length tr pairs p incOrig :
  (length (buildPairs tr pairs p incOrig)
   <= length pairs + (if incOrig then 4 else 3))%nat.
Proof.
  unfold buildPairs.
  destruct incOrig, (tr (FirstCurrency p)), (tr (SecondCurrency p));
    repeat match goal with
      | |- context [addPair ?l ?q] =>
          lazymatch l with
          | context [addPair _ _] => fail
          | _ => pose proof (addPair_length l q); generalize dependent (addPair l q);
                 intros
          end
      end; lia.
Qed.

(** X18.  GetRelatableCurrencies never returns two pairs with the same
    currencies in the same order, and it returns at most eight pairs, six
    when the original is left out. *)
Theorem GetRelatableCurrencies_distinct_and_bounded
    (tr : CurrencyItem -> option CurrencyItem) (P : CurrencyPair)
    (incOrig incUSDT : bool) :
  NoDup (List.map currenciesOf (GetRelatableCurrencies tr P incOrig incUSDT))
  /\ (length (GetRelatableCurrencies tr P incOrig incUSDT)
      <= if incOrig then 8 else 6)%nat.
Proof.
  unfold GetRelatableCurrencies.
  pose proof (buildPairs_NoDup tr (buildPairs tr [] P incOrig) (Swap P) incOrig
                (buildPairs_NoDup tr [] P incOrig (NoDup_nil_2 (A:=CurrencyItem * CurrencyItem)))) as Hnd.
  pose proof (buildPairs_length tr [] P incOrig) as H1.
  pose proof (buildPairs_length tr (buildPairs tr [] P incOrig) (Swap P) incOrig) as H2.
  cbn [length] in H1.
  destruct incUSDT; cbn [negb].
  - split; [exact Hnd | destruct incOrig; lia].
  - rewrite RemovePairsByFilter_filter. split; [apply NoDup_map_filter, Hnd|].
    pose proof (List.filter_length_le
                  (fun x => negb (ContainsCurrency x "USDT"))
                  (buildPairs tr (buildPairs tr [] P incOrig) (Swap P) incOrig)) as H3.
    destruct incOrig; lia.
Qed.

Lemma Contains_RemovePairsByFilter pairs p filter :
  Contains (RemovePairsByFilter pairs filter) p true
  = Contains pairs p true && negb (ContainsCurrency p filter).
Proof.
  destruct (ContainsCurrency p filter) eqn:Hp; cbn [negb].
  - rewrite andb_false_r. apply Contains_false.
    intros q [_ Hq]%In_RemovePairsByFilter.
    destruct (Equal q p true) eqn:He; [|reflexivity].
    rewrite (ContainsCurrency_exact q p filter He) in Hq. congruence.
  - rewrite andb_true_r. apply Contains_RemovePairsByFilter_kept, Hp.
Qed.

(** X19.  The relatable currencies do not depend on the orientation of the
    pair: GetRelatableCurrencies of P and of P swapped contain, in strict
    order, exactly the same pairs. *)
Theorem GetRelatableCurrencies_of_swapped_pair
    (tr : CurrencyItem -> option CurrencyItem) (P q : CurrencyPair)
    (incOrig incUSDT : bool) :
  Contains (GetRelatableCurrencies tr (Swap P) incOrig incUSDT) q true
  = Contains (GetRelatableCurrencies tr P incOrig incUSDT) q true.
Proof.
  unfold GetRelatableCurrencies.
  assert (H : Contains (buildPairs tr (buildPairs tr [] (Swap P) incOrig)
                          (Swap (Swap P)) incOrig) q true
              = Contains (buildPairs tr (buildPairs tr [] P incOrig) (Swap P) incOrig)
                  q true).
  { rewrite !Contains_buildPairs.
    cbn [Contains Swap FirstCurrency SecondCurrency orb].
    destruct (tr (FirstCurrency P)) as [a|], (tr (SecondCurrency P)) as [b|];
      unfold Equal, NewCurrencyPair, Swap; cbn [FirstCurrency SecondCurrency];
      repeat match goal with
        | |- context [bool_decide ?x] =>
            let b := fresh "b" in
            generalize (bool_decide x); intros b
        end;
      repeat match goal with b : bool |- _ => destruct b end; reflexivity. }
  destruct incUSDT; cbn [negb]; [exact H|].
  rewrite !Contains_RemovePairsByFilter, H. reflexivity.
Qed.

(** ** engine/restful_server.go: all active tickers and order books *)

Section ActiveValuesProperties.

Context {V : Type}.
Variable fetch : IBotExchange -> CurrencyPair -> AssetType -> V * option error.

Lemma fetchValues_app exch assetType values :
  fetchValues fetch exch assetType values
  = values ++ fetched fetch exch [assetType].
Proof.
  unfold fetchValues, fetched. cbn [List.map concat]. rewrite app_nil_r.
  rewrite <- fold_left_append. apply fold_left_pointwise. intros acc c.
  destruct (fetch exch c assetType) as [tp [err|]]; [rewrite app_nil_r|]; reflexivity.
Qed.

Lemma fetched_app exch l1 l2 :
  fetched fetch exch (l1 ++ l2) = fetched fetch exch l1 ++ fetched fetch exch l2.
Proof. unfold fetched. rewrite List.map_app, concat_app. reflexivity. Qed.

Lemma activeValuesOf_fold exch todo done data :
  fold_left
    (fun '(exchangeValues, data) assetType =>
       let exchangeValues :=
         {| ExchangeName := ExchangeName exchangeValues;
            ExchangeValues :=
              fetchValues fetch exch assetType (ExchangeValues exchangeValues) |} in
       (exchangeValues, data ++ [exchangeValues]))
    todo
    ({| ExchangeName := GetName exch; ExchangeValues := fetched fetch exch done |}, data)
  = ({| ExchangeName := GetName exch;
        ExchangeValues := fetched fetch exch (done ++ todo) |},
     data
     ++ List.map
          (fun k => {| ExchangeName := GetName exch;
                       ExchangeValues :=
                         fetched fetch exch
                           (firstn (length done + S k) (done ++ todo)) |})
          (seq 0 (length todo))).
Proof.
  revert done data. induction todo as [|a todo IH]; intros done data;
    cbn [fold_left length seq List.map].
  - rewrite !app_nil_r. reflexivity.
  - cbn [ExchangeName ExchangeValues]. rewrite fetchValues_app, <- fetched_app.
    rewrite (IH (done ++ [a]) _). rewrite <- !app_assoc. cbn [app].
    f_equal. f_equal. f_equal.
    + f_equal. f_equal.
      replace (length done + 1)%nat with (length done + 0 + 1)%nat by lia.
      rewrite Nat.add_0_r.
      rewrite firstn_app, firstn_all2 by lia.
      replace (length done + 1 - length done)%nat with 1%nat by lia.
      reflexivity.
    + rewrite <- seq_shift, List.map_map. apply List.map_ext. intros k.
      rewrite length_app. cbn [length].
      replace (length done + 1 + S k)%nat with (length done + S (S k))%nat by lia.
      reflexivity.
Qed.

Lemma activeValuesOf_cumulative exch data :
  activeValuesOf fetch exch data = data ++ cumulativeEntries fetch exch.
Proof.
  unfold activeValuesOf, cumulativeEntries.
  pose proof (activeValuesOf_fold exch (GetAssetTypes exch) [] data) as H.
  change (fetched fetch exch []) with (@nil V) in H.
  cbn [app length Nat.add] in H. rewrite H. reflexivity.
Qed.

Lemma activeValues_panics exchanges data :
  activeValues fetch exchanges data = None <-> In None exchanges.
Proof.
  revert data. induction exchanges as [|[exch|] rest IH]; intros data;
    cbn [activeValues In].
  - split; [discriminate | intros []].
  - destruct (negb (IsEnabled exch)); rewrite IH; split; auto;
      intros [H | H]; [discriminate | exact H | discriminate | exact H].
  - split; auto.
Qed.

Lemma activeValues_entries exchanges data :
  ~ In None exchanges ->
  activeValues fetch exchanges data
  = Some (data ++ concat (List.map (cumulativeEntries fetch) (enabledExchanges exchanges))).
Proof.
  revert data. induction exchanges as [|[exch|] rest IH]; intros data Hnil;
    cbn [activeValues].
  - cbn. rewrite app_nil_r. reflexivity.
  - assert (Hrest : ~ In None rest) by (intros H; apply Hnil; right; exact H).
    unfold enabledExchanges. cbn [omap list_omap id List.filter].
    destruct (IsEnabled exch); cbn [negb].
    + rewrite (IH _ Hrest), activeValuesOf_cumulative. cbn [List.map concat].
      rewrite <- app_assoc. reflexivity.
    + apply IH, Hrest.
  - exfalso. apply Hnil. left. reflexivity.
Qed.

End ActiveValuesProperties.

(** X23.  GetAllActiveTickers and GetAllActiveOrderbooks call IsEnabled on
    every slot of the registry, so they panic exactly when a slot is empty.
    Otherwise they return, for each enabled exchange in turn, one entry per
    asset type of the exchange, and the entry of an asset type holds the
    values fetched without error for that asset type and for all the asset
    types before it: the running entry is appended after each asset type.  A
    failed fetch only leaves its value out. *)
Theorem active_tickers_and_orderbooks_accumulate (Bot : Engine) :
  (GetAllActiveTickers Bot = None <-> In None (Exchanges Bot))
  /\ (GetAllActiveOrderbooks Bot = None <-> In None (Exchanges Bot))
  /\ (~ In None (Exchanges Bot) ->
      GetAllActiveTickers Bot
      = Some (concat (List.map (cumulativeEntries FetchTicker)
                        (enabledExchanges (Exchanges Bot))))
      /\ GetAllActiveOrderbooks Bot
         = Some (concat (List.map (cumulativeEntries FetchOrderbook)
                           (enabledExchanges (Exchanges Bot))))).
Proof.
  unfold GetAllActiveTickers, GetAllActiveOrderbooks.
  split; [apply activeValues_panics|]. split; [apply activeValues_panics|].
  intros Hnil. split; rewrite activeValues_entries by exact Hnil; reflexivity.
Qed.

(** ** engine/routines.go: what the tasks fetch and stage *)

Lemma fetches_processOrderbook Bot name exch c assetType :
  fetches (processOrderbook Bot name exch c assetType)
  = [CallUpdateOrderbook name c assetType].
Proof.
  unfold processOrderbook.
  destruct (UpdateOrderbook exch c assetType) as [r [e|]],
    (config.WebsocketServerEnabled (Config Bot)); reflexivity.
Qed.

Lemma fetches_network_updates Bot exch assetType (g : nat -> bool) (l : list CurrencyPair) :
  (forall z, g z = false) ->
  fetches
    (concat
       (imap
          (fun z c =>
             if g z
             then processTicker Bot (GetName exch) exch false c assetType
             else processTicker Bot (GetName exch) exch true c assetType)
          l))
  = List.map (fun c => CallUpdateTicker (GetName exch) c assetType) l.
Proof.
  revert g. induction l as [|c l IH]; intros g Hg; cbn [imap concat List.map];
    [reflexivity|].
  rewrite fetches_app, Hg, fetches_processTicker. cbn [app]. f_equal.
  apply (IH (g ∘ S)). intros z. apply Hg.
Qed.

(** X20.  The order-book task of an exchange that supports REST calls
    UpdateOrderbook once for every enabled pair of every asset type, in
    order, whatever the calls return: a failed update does not stop the
    pairs after it. *)
Theorem orderbookTask_updates_every_pair (Bot : Engine) (x : nat) (exch : IBotExchange) :
  Exchanges Bot !! x = Some (Some exch) ->
  SupportsREST exch = true ->
  fetches (orderbookTask Bot x)
  = concat
      (List.map
         (fun assetType =>
            List.map (fun c => CallUpdateOrderbook (GetName exch) c assetType)
              (GetEnabledPairs exch assetType))
         (GetAssetTypes exch)).
Proof.
  intros Hx Hrest. unfold orderbookTask. rewrite Hx, Hrest. cbn [negb].
  rewrite fetches_concat, List.map_map. f_equal.
  apply List.map_ext. intros assetType.
  rewrite fetches_concat, List.map_map.
  induction (GetEnabledPairs exch assetType) as [|c l IH]; cbn [List.map concat];
    [reflexivity|].
  rewrite fetches_processOrderbook, IH. reflexivity.
Qed.

Lemma orderbookTask_updates_every_pair_witness :
  fetches (orderbookTask exampleBot 1)
  = [ CallUpdateOrderbook "Bitstamp" btc_usd AssetTypeSpot;
      CallUpdateOrderbook "Bitstamp" ltc_usd AssetTypeSpot ].
Proof.
  apply (orderbookTask_updates_every_pair exampleBot 1 bitstamp).
  - reflexivity.
  - reflexivity.
Defined.

(** X21.  The ticker task of an exchange that supports REST but not batch
    updates calls UpdateTicker once for every enabled pair of every asset
    type, in order, and never reads the cache with FetchTicker. *)
Theorem tickerTask_without_batching_updates_every_pair
    (Bot : Engine) (x : nat) (exch : IBotExchange) :
  Exchanges Bot !! x = Some (Some exch) ->
  SupportsREST exch = true ->
  SupportsRESTTickerBatchUpdates exch = false ->
  fetches (tickerTask Bot x)
  = concat
      (List.map
         (fun assetType =>
            List.map (fun c => CallUpdateTicker (GetName exch) c assetType)
              (GetEnabledPairs exch assetType))
         (GetAssetTypes exch)).
Proof.
  intros Hx Hrest Hbatch. unfold tickerTask. rewrite Hx, Hrest, Hbatch. cbn [negb].
  rewrite fetches_concat, List.map_map. f_equal.
  apply List.map_ext. intros assetType.
  exact (fetches_network_updates Bot exch assetType (fun z => false && (0 <? z)%nat)
           (GetEnabledPairs exch assetType) (fun _ => eq_refl)).
Qed.

Lemma tickerTask_without_batching_updates_every_pair_witness :
  fetches (tickerTask exampleBot 1)
  = [ CallUpdateTicker "Bitstamp" btc_usd AssetTypeSpot;
      CallUpdateTicker "Bitstamp" ltc_usd AssetTypeSpot ].
Proof.
  apply (tickerTask_without_batching_updates_every_pair exampleBot 1 bitstamp).
  - reflexivity.
  - reflexivity.
  - reflexivity.
Defined.

Lemma processTicker_events Bot exch update c a ev :
  In a (GetAssetTypes exch) -> In c (GetEnabledPairs exch a) ->
  In ev (processTicker Bot (GetName exch) exch update c a) ->
  tickerEventOk Bot exch ev.
Proof.
  intros Ha Hc. unfold processTicker.
  destruct update.
  - destruct (UpdateTicker exch c a) as [r [e|]] eqn:Hr.
    + intros [<- | []]. cbn. auto.
    + destruct (config.WebsocketServerEnabled (Config Bot)) eqn:Hws.
      * intros [<- | [<- | [<- | []]]]; cbn; eauto 6.
      * intros [<- | [<- | []]]; cbn; eauto 6.
  - destruct (FetchTicker exch c a) as [r [e|]] eqn:Hr.
    + intros [<- | []]. cbn. auto.
    + destruct (config.WebsocketServerEnabled (Config Bot)) eqn:Hws.
      * intros [<- | [<- | [<- | []]]]; cbn; eauto 6.
      * intros [<- | [<- | []]]; cbn; eauto 6.
Qed.

(** X22.  The ticker task stages and relays nothing it did not fetch: every
    staged ticker is the result that the exchange returned without error for
    one of its enabled pairs, a websocket relay happens only when the
    websocket server is enabled in the configuration, every call is for an
    enabled pair of an asset type of the exchange, and no order-book call or
    staging occurs. *)
Theorem tickerTask_events (Bot : Engine) (x : nat) (exch : IBotExchange) (ev : event) :
  Exchanges Bot !! x = Some (Some exch) ->
  In ev (tickerTask Bot x) ->
  tickerEventOk Bot exch ev.
Proof.
  intros Hx. unfold tickerTask. rewrite Hx.
  destruct (SupportsREST exch); cbn [negb]; [|intros []].
  intros (t & (a & <- & Ha)%in_map_iff & Hev)%in_concat.
  apply in_concat in Hev as (t & Ht & Hev).
  apply list_elem_of_In, list_elem_of_lookup in Ht as (z & Hz).
  rewrite list_lookup_imap in Hz.
  destruct (GetEnabledPairs exch a !! z) as [c|] eqn:Hc; [|discriminate].
  cbn [fmap option_fmap option_map] in Hz. injection Hz as <-.
  assert (Hin : In c (GetEnabledPairs exch a))
    by (apply list_elem_of_In; eapply list_elem_of_lookup_2; exact Hc).
  destruct (SupportsRESTTickerBatchUpdates exch && (0 <? z)%nat);
    eapply processTicker_events; eauto.
Qed.

Lemma tickerTask_events_witness :
  tickerEventOk exampleBot okex (CallFetchTicker "OKEX" ltc_usd AssetTypeFutures).
Proof.
  apply (tickerTask_events exampleBot 2 okex
           (CallFetchTicker "OKEX" ltc_usd AssetTypeFutures)).
  - reflexivity.
  - vm_compute. tauto.
Defined.

(** ** Package exchanges/assets *)

Lemma append_nil_r (s : string) : s +:+ EmptyString = s.
Proof.
  induction s as [|c s IH]; [reflexivity|].
  change (String c (s +:+ EmptyString) = String c s). rewrite IH. reflexivity.
Qed.

Lemma append_assoc (a b c : string) : (a +:+ b) +:+ c = a +:+ (b +:+ c).
Proof.
  induction a as [|x a IH]; [reflexivity|].
  change (String x ((a +:+ b) +:+ c) = String x (a +:+ (b +:+ c))).
  rewrite IH. reflexivity.
Qed.

Lemma append_cons c (s t : string) : String c s +:+ t = String c (s +:+ t).
Proof. reflexivity. Qed.

Lemma append_nil_l (t : string) : EmptyString +:+ t = t.
Proof. reflexivity. Qed.

Lemma occurs_append ch (a b : string) : occurs ch (a +:+ b) = occurs ch a || occurs ch b.
Proof.
  induction a as [|x a IH]; [reflexivity|].
  rewrite append_cons. cbn [occurs]. rewrite IH, orb_assoc. reflexivity.
Qed.

Lemma splitAt_nonempty ch s cur : splitAt ch s cur <> [].
Proof.
  revert cur. induction s as [|c s IH]; intros cur; cbn [splitAt]; [discriminate|].
  destruct (bool_decide (c = ch)); [discriminate | apply IH].
Qed.

Lemma Join_cons x rest sep :
  rest <> [] -> Join (x :: rest) sep = x +:+ sep +:+ Join rest sep.
Proof. destruct rest; [congruence | reflexivity]. Qed.

(** Joining the parts of a split gives the string back. *)
Lemma Join_splitAt s cur :
  Join (splitAt comma s cur) (String comma EmptyString) = cur +:+ s.
Proof.
  revert cur. induction s as [|c s IH]; intros cur; cbn [splitAt].
  - cbn [Join]. rewrite append_nil_r. reflexivity.
  - destruct (decide (c = comma)) as [-> | Hne].
    + rewrite bool_decide_eq_true_2 by reflexivity.
      rewrite Join_cons by apply splitAt_nonempty. rewrite IH. reflexivity.
    + rewrite bool_decide_eq_false_2 by exact Hne.
      rewrite IH, append_assoc. reflexivity.
Qed.

Lemma splitAt_nosep ch x s cur :
  occurs ch x = false -> splitAt ch (x +:+ s) cur = splitAt ch s (cur +:+ x).
Proof.
  revert cur. induction x as [|c x IH]; intros cur Hx.
  - rewrite append_nil_l, append_nil_r. reflexivity.
  - cbn [occurs] in Hx. apply orb_false_iff in Hx as [Hc Hx].
    rewrite append_cons. cbn [splitAt]. rewrite Hc, (IH _ Hx), append_assoc.
    reflexivity.
Qed.

(** Splitting a join of comma-free parts gives the parts back. *)
Lemma splitAt_Join x rest cur :
  Forall (fun p => occurs comma p = false) (x :: rest) ->
  splitAt comma (Join (x :: rest) (String comma EmptyString)) cur = (cur +:+ x) :: rest.
Proof.
  revert x cur. induction rest as [|y rest IH]; intros x cur Hall.
  - cbn [Join]. rewrite <- (append_nil_r x) at 1.
    rewrite splitAt_nosep by (inversion Hall; assumption). reflexivity.
  - rewrite Join_cons by discriminate.
    inversion Hall as [|? ? Hx Hrest]; subst.
    rewrite (splitAt_nosep comma x _ cur Hx).
    rewrite append_cons, append_nil_l. cbn [splitAt].
    rewrite bool_decide_eq_true_2 by reflexivity.
    rewrite (IH y EmptyString Hrest), append_nil_l. reflexivity.
Qed.

Lemma ToStringArray_id (a : list AssetType) : AssetTypes.ToStringArray a = a.
Proof.
  unfold AssetTypes.ToStringArray.
  assert (H : forall acc : list string,
             fold_left (fun assets x => assets ++ [x]) a acc = acc ++ a).
  { induction a as [|x a IH]; intros acc; cbn [fold_left].
    - rewrite app_nil_r. reflexivity.
    - rewrite IH, <- app_assoc. reflexivity. }
  apply (H []).
Qed.

Lemma collectValid_spec assets result :
  AssetTypes.collectValid assets result
  = if forallb AssetTypes.IsValid assets then result ++ assets else [].
Proof.
  revert result. induction assets as [|x rest IH]; intros result;
    cbn [AssetTypes.collectValid forallb].
  - rewrite app_nil_r. reflexivity.
  - destruct (AssetTypes.IsValid x); cbn [negb andb]; [|reflexivity].
    rewrite IH, <- app_assoc. reflexivity.
Qed.

Lemma IsValid_no_comma x : AssetTypes.IsValid x = true -> occurs comma x = false.
Proof.
  unfold AssetTypes.IsValid. rewrite !orb_true_iff, !bool_decide_eq_true.
  intros [[[[[-> | ->] | ->] | ->] | ->] | ->]; reflexivity.
Qed.

(** X24.  AssetTypes.Contains answers true exactly for a valid asset type
    that is in the list: an asset type outside the six known ones is never
    contained, even when the list holds it. *)
Theorem assets_Contains_iff (a : list AssetType) (asset : AssetType) :
  AssetTypes.Contains a asset = true
  <-> AssetTypes.IsValid asset = true /\ In asset a.
Proof.
  unfold AssetTypes.Contains. destruct (AssetTypes.IsValid asset); cbn [negb].
  - rewrite existsb_exists. split.
    + intros (x & Hx & ->%bool_decide_eq_true). auto.
    + intros [_ Hin]. exists asset. split; [exact Hin|].
      apply bool_decide_eq_true. reflexivity.
  - split; [discriminate | intros [H _]; discriminate].
Qed.

(** X25.  Whatever the input, assets.New returns only valid asset types,
    and when it returns any, joining them with commas gives the input back:
    an input with one invalid part yields nothing. *)
Theorem assets_New_valid_and_joins_back
    (StringContains : string -> string -> bool) (input : string) :
  Forall (fun x => AssetTypes.IsValid x = true) (AssetTypes.New StringContains input)
  /\ (AssetTypes.New StringContains input <> [] ->
      AssetTypes.JoinToString (AssetTypes.New StringContains input)
        (String comma EmptyString) = input).
Proof.
  unfold AssetTypes.New, AssetTypes.JoinToString.
  destruct (StringContains input ","); cbn [negb].
  - rewrite collectValid_spec. cbn [app].
    destruct (forallb AssetTypes.IsValid (SplitComma input)) eqn:Hall.
    + split.
      * apply Forall_forall. intros x Hx%list_elem_of_In.
        rewrite forallb_forall in Hall. apply Hall, Hx.
      * intros _. rewrite ToStringArray_id. unfold SplitComma.
        rewrite Join_splitAt. reflexivity.
    + split; [constructor | congruence].
  - destruct (AssetTypes.IsValid input) eqn:Hv.
    + split; [repeat constructor; exact Hv | reflexivity].
    + split; [constructor | congruence].
Qed.

(** X26.  Joining valid asset types with commas and parsing the result with
    assets.New gives the asset types back, provided common.StringContains
    reports a comma that occurs in its first argument. *)
Theorem assets_New_of_joined
    (StringContains : string -> string -> bool) (a : list AssetType) :
  (forall s, occurs comma s = true -> StringContains s (String comma EmptyString) = true) ->
  Forall (fun x => AssetTypes.IsValid x = true) a ->
  AssetTypes.New StringContains
    (AssetTypes.JoinToString a (String comma EmptyString)) = a.
Proof.
  intros Hsc Hvalid. unfold AssetTypes.New, AssetTypes.JoinToString.
  rewrite ToStringArray_id.
  assert (Hno : Forall (fun p => occurs comma p = false) a).
  { eapply Forall_impl; [exact Hvalid|]. intros x. apply IsValid_no_comma. }
  assert (Hfb : forallb AssetTypes.IsValid a = true).
  { apply forallb_forall. intros x Hx. rewrite Forall_forall in Hvalid.
    apply Hvalid, list_elem_of_In, Hx. }
  destruct a as [|x [|y rest]].
  - cbn [Join]. destruct (StringContains EmptyString ","); reflexivity.
  - cbn [Join]. inversion Hvalid as [|? ? Hx _]; subst.
    inversion Hno as [|? ? Hnx _]; subst.
    destruct (StringContains x ","); cbn [negb]; [|rewrite Hx; reflexivity].
    rewrite collectValid_spec. unfold SplitComma.
    assert (Hs : splitAt comma x EmptyString = [x])
      by exact (splitAt_Join x [] EmptyString Hno).
    rewrite Hs, Hfb. reflexivity.
  - change "," with (String comma EmptyString).
    rewrite Hsc.
    + cbn [negb]. rewrite collectValid_spec. unfold SplitComma.
      assert (Hs : splitAt comma (Join (x :: y :: rest) (String comma EmptyString))
                     EmptyString = x :: y :: rest)
        by exact (splitAt_Join x (y :: rest) EmptyString Hno).
      rewrite Hs, Hfb. reflexivity.
    + rewrite Join_cons by discriminate. rewrite !occurs_append.
      cbn [occurs]. rewrite bool_decide_eq_true_2 by reflexivity.
      rewrite orb_true_r. reflexivity.
Qed.

Lemma assets_New_of_joined_witness :
  AssetTypes.New exampleStringContains
    (AssetTypes.JoinToString [AssetTypeSpot; AssetTypeFutures] (String comma EmptyString))
  = [AssetTypeSpot; AssetTypeFutures].
Proof.
  apply (assets_New_of_joined exampleStringContains [AssetTypeSpot; AssetTypeFutures]).
  - intros s H. exact H.
  - repeat constructor.
Defined.

(** ** Client bank accounts *)

Lemma checkAccount_accepts b b' :
  banking.checkAccount b = inl b' ->
  b' = banking.normalise b /\ banking.incomplete b = false /\ banking.usable b'.
Proof.
  unfold banking.checkAccount, banking.normalise, banking.incomplete, banking.usable,
    banking.isEmpty.
  destruct (banking.Enabled b) eqn:He; cbn [andb].
  - destruct (bool_decide (banking.BankName b = EmptyString)) eqn:H1; cbn [orb];
      [discriminate|].
    destruct (bool_decide (banking.BankAddress b = EmptyString)) eqn:H2; cbn [orb];
      [discriminate|].
    destruct (bool_decide (banking.AccountName b = EmptyString)) eqn:H3; cbn [orb];
      [discriminate|].
    destruct (bool_decide (banking.AccountNumber b = EmptyString)) eqn:H4; cbn [orb];
      [discriminate|].
    destruct (bool_decide (banking.IBAN b = EmptyString)
              && bool_decide (banking.SWIFTCode b = EmptyString)
              && bool_decide (banking.BSBNumber b = EmptyString)) eqn:H5;
      [discriminate|].
    apply bool_decide_eq_false in H1, H2, H3, H4.
    assert (Hnum : banking.IBAN b <> EmptyString \/ banking.SWIFTCode b <> EmptyString
                   \/ banking.BSBNumber b <> EmptyString).
    { apply andb_false_iff in H5 as [H5 | H5];
        [apply andb_false_iff in H5 as [H5 | H5]|];
        apply bool_decide_eq_false in H5; auto. }
    destruct (bool_decide (banking.SupportedExchanges b = EmptyString)) eqn:H6;
      intros [= <-]; (split; [reflexivity|]); (split; [reflexivity|]); intros _;
      cbn [banking.setSupportedExchanges banking.BankName banking.BankAddress
           banking.AccountName banking.AccountNumber banking.IBAN banking.SWIFTCode
           banking.BSBNumber banking.SupportedExchanges];
      repeat (split; [assumption|]); try discriminate.
    apply bool_decide_eq_false in H6. exact H6.
  - intros [= <-]. split; [reflexivity|]. split; [reflexivity|].
    rewrite He. discriminate.
Qed.

Lemma checkAccount_rejects b err :
  banking.checkAccount b = inr err -> banking.incomplete b = true.
Proof.
  unfold banking.checkAccount, banking.incomplete.
  destruct (banking.Enabled b); cbn [andb]; [|discriminate].
  destruct (banking.isEmpty (banking.BankName b)),
    (banking.isEmpty (banking.BankAddress b)),
    (banking.isEmpty (banking.AccountName b)),
    (banking.isEmpty (banking.AccountNumber b)),
    (banking.isEmpty (banking.IBAN b)),
    (banking.isEmpty (banking.SWIFTCode b)),
    (banking.isEmpty (banking.BSBNumber b)),
    (banking.isEmpty (banking.SupportedExchanges b));
    cbn [andb orb]; intros H; try reflexivity; discriminate H.
Qed.

(** An account that a round has accepted passes a later round untouched. *)
Lemma checkAccount_fixed b b' :
  banking.checkAccount b = inl b' -> banking.checkAccount b' = inl b'.
Proof.
  unfold banking.checkAccount, banking.isEmpty.
  destruct (banking.Enabled b) eqn:He.
  - destruct (bool_decide (banking.BankName b = EmptyString)
              || bool_decide (banking.BankAddress b = EmptyString)) eqn:H1;
      [discriminate|].
    destruct (bool_decide (banking.AccountName b = EmptyString)
              || bool_decide (banking.AccountNumber b = EmptyString)) eqn:H2;
      [discriminate|].
    destruct (bool_decide (banking.IBAN b = EmptyString)
              && bool_decide (banking.SWIFTCode b = EmptyString)
              && bool_decide (banking.BSBNumber b = EmptyString)) eqn:H3;
      [discriminate|].
    destruct (bool_decide (banking.SupportedExchanges b = EmptyString)) eqn:H4;
      intros [= <-];
      cbn [banking.setSupportedExchanges banking.Enabled banking.BankName
           banking.BankAddress banking.AccountName banking.AccountNumber banking.IBAN
           banking.SWIFTCode banking.BSBNumber banking.SupportedExchanges];
      rewrite ?He, ?H1, ?H2, ?H3, ?H4; reflexivity.
  - intros [= <-]. rewrite He. reflexivity.
Qed.

Lemma checkAccounts_length accounts :
  length (fst (banking.checkAccounts accounts)) = length accounts.
Proof.
  induction accounts as [|b rest IH]; cbn [banking.checkAccounts]; [reflexivity|].
  destruct (banking.checkAccount b); [|reflexivity].
  destruct (banking.checkAccounts rest) as [rest' err]. cbn [fst length] in *.
  rewrite IH. reflexivity.
Qed.

Lemma checkAccounts_again accounts :
  banking.checkAccounts (fst (banking.checkAccounts accounts))
  = banking.checkAccounts accounts.
Proof.
  induction accounts as [|b rest IH]; cbn [banking.checkAccounts]; [reflexivity|].
  destruct (banking.checkAccount b) as [b'|err] eqn:Hb.
  - destruct (banking.checkAccounts rest) as [rest' err] eqn:Hrest.
    cbn [fst] in *. cbn [banking.checkAccounts].
    rewrite (checkAccount_fixed _ _ Hb), IH. reflexivity.
  - cbn [fst banking.checkAccounts]. rewrite Hb. reflexivity.
Qed.

(** The accounts and the error of the loop, in terms of the first account
    that a round rejects. *)
Lemma checkAccounts_result accounts :
  match banking.checkAccounts accounts with
  | (accounts', None) =>
      accounts' = List.map banking.normalise accounts
      /\ Forall (fun b => banking.incomplete b = false) accounts
      /\ Forall banking.usable accounts'
  | (accounts', Some err) =>
      exists before b after,
        accounts = before ++ b :: after
        /\ accounts' = List.map banking.normalise before ++ b :: after
        /\ Forall (fun b => banking.incomplete b = false) before
        /\ banking.checkAccount b = inr err
  end.
Proof.
  induction accounts as [|b rest IH]; cbn [banking.checkAccounts].
  - split; [reflexivity|]. split; constructor.
  - destruct (banking.checkAccount b) as [b'|err] eqn:Hb.
    + apply checkAccount_accepts in Hb as (-> & Hc & Hu).
      destruct (banking.checkAccounts rest) as [rest' [err|]].
      * destruct IH as (before & x & after & -> & -> & Hbefore & Hx).
        exists (b :: before), x, after.
        split; [reflexivity|]. split; [reflexivity|].
        split; [constructor; assumption | exact Hx].
      * destruct IH as (-> & Hall & Hus).
        split; [reflexivity|]. split; constructor; assumption.
    + exists [], b, rest.
      split; [reflexivity|]. split; [reflexivity|]. split; [constructor | exact Hb].
Qed.

(** X27.  CheckClientBankAccounts is idempotent: a second call returns the
    same error as the first and writes nothing more, whether the first call
    added the test account, filled in fields, or failed part-way. *)
Theorem CheckClientBankAccounts_idempotent (accounts : list banking.BankAccount) :
  banking.CheckClientBankAccounts (fst (banking.CheckClientBankAccounts accounts))
  = banking.CheckClientBankAccounts accounts.
Proof.
  unfold banking.CheckClientBankAccounts.
  destruct accounts as [|b rest]; [reflexivity|].
  rewrite (bool_decide_eq_false_2 (length (b :: rest) = 0%nat)) by discriminate.
  rewrite bool_decide_eq_false_2.
  - apply checkAccounts_again.
  - rewrite checkAccounts_length. discriminate.
Qed.

(** X28.  When CheckClientBankAccounts returns no error, the list it leaves
    is not empty and every enabled account in it has a bank name and
    address, an account name and number, one of IBAN, SWIFT code and BSB
    number, and a non-empty list of supported exchanges. *)
Theorem CheckClientBankAccounts_accepted_accounts_usable
    (accounts : list banking.BankAccount) :
  snd (banking.CheckClientBankAccounts accounts) = None ->
  fst (banking.CheckClientBankAccounts accounts) <> []
  /\ Forall banking.usable (fst (banking.CheckClientBankAccounts accounts)).
Proof.
  unfold banking.CheckClientBankAccounts.
  destruct accounts as [|b rest].
  - intros _. split; [discriminate|]. cbn.
    apply Forall_cons. split; [|apply Forall_nil_2].
    intros Hen. discriminate Hen.
  - rewrite (bool_decide_eq_false_2 (length (b :: rest) = 0%nat)) by discriminate.
    pose proof (checkAccounts_result (b :: rest)) as H.
    pose proof (checkAccounts_length (b :: rest)) as Hlen.
    destruct (banking.checkAccounts (b :: rest)) as [accounts' [err|]];
      [discriminate|].
    intros _. destruct H as (_ & _ & Hus). cbn [fst] in *.
    split; [|exact Hus]. intros ->. discriminate Hlen.
Qed.

Lemma CheckClientBankAccounts_accepted_accounts_usable_witness :
  fst (banking.CheckClientBankAccounts [exampleBank]) <> []
  /\ Forall banking.usable (fst (banking.CheckClientBankAccounts [exampleBank])).
Proof.
  apply (CheckClientBankAccounts_accepted_accounts_usable [exampleBank]).
  reflexivity.
Defined.

(** X29.  A failing CheckClientBankAccounts does not roll back: the
    accounts before the first enabled account with a missing detail keep
    the supported exchanges that the call filled in, and that account and
    the later ones are left as they were. *)
Theorem CheckClientBankAccounts_failure_keeps_earlier_writes
    (accounts accounts' : list banking.BankAccount) (err : error) :
  banking.CheckClientBankAccounts accounts = (accounts', Some err) ->
  exists before b after,
    accounts = before ++ b :: after
    /\ accounts' = List.map banking.normalise before ++ b :: after
    /\ Forall (fun x => banking.incomplete x = false) before
    /\ banking.incomplete b = true.
Proof.
  unfold banking.CheckClientBankAccounts.
  destruct accounts as [|a rest]; [discriminate|].
  rewrite (bool_decide_eq_false_2 (length (a :: rest) = 0%nat)) by discriminate.
  intros Hc. pose proof (checkAccounts_result (a :: rest)) as H.
  rewrite Hc in H. destruct H as (before & b & after & H1 & H2 & H3 & H4).
  exists before, b, after. repeat split; try assumption.
  eapply checkAccount_rejects, H4.
Qed.

Lemma CheckClientBankAccounts_failure_keeps_earlier_writes_witness :
  exists before b after,
    [exampleBank; exampleBrokenBank] = before ++ b :: after
    /\ [banking.setSupportedExchanges exampleBank "ALL"; exampleBrokenBank]
       = List.map banking.normalise before ++ b :: after
    /\ Forall (fun x => banking.incomplete x = false) before
    /\ banking.incomplete b = true.
Proof.
  apply (CheckClientBankAccounts_failure_keeps_earlier_writes
           [exampleBank; exampleBrokenBank]
           [banking.setSupportedExchanges exampleBank "ALL"; exampleBrokenBank]
           (errorString "banking account details for Second variables not set correctly")).
  reflexivity.
Defined.

(** X30.  After a CheckClientBankAccounts without error, an enabled account
    that named no exchanges serves every exchange: GetClientBankAccounts
    finds banking details for each currency that the account supports,
    whatever the exchange name. *)
Theorem GetClientBankAccounts_after_check
    (StringContains : string -> string -> bool)
    (accounts : list banking.BankAccount) (b : banking.BankAccount)
    (exchangeName targetCurrency : string) :
  snd (banking.CheckClientBankAccounts accounts) = None ->
  In b accounts ->
  banking.Enabled b = true ->
  banking.SupportedExchanges b = EmptyString ->
  StringContains (banking.SupportedCurrencies b) targetCurrency = true ->
  exists bank,
    banking.GetClientBankAccounts StringContains
      (fst (banking.CheckClientBankAccounts accounts)) exchangeName targetCurrency
    = (bank, None)
    /\ banking.serves StringContains exchangeName targetCurrency bank = true.
Proof.
  intros Hok Hin He Hs Hc. unfold banking.CheckClientBankAccounts in *.
  destruct accounts as [|a rest]; [destruct Hin|].
  rewrite (bool_decide_eq_false_2 (length (a :: rest) = 0%nat)) in * by discriminate.
  pose proof (checkAccounts_result (a :: rest)) as H.
  destruct (banking.checkAccounts (a :: rest)) as [accounts' [err|]];
    [discriminate|].
  destruct H as (-> & _ & _). cbn [fst].
  unfold banking.GetClientBankAccounts.
  destruct (find (banking.serves StringContains exchangeName targetCurrency)
              (List.map banking.normalise (a :: rest))) as [bank|] eqn:Hf.
  - exists bank. split; [reflexivity|]. apply find_some in Hf. apply Hf.
  - exfalso. pose proof (find_none _ _ Hf (banking.normalise b)) as Hn.
    rewrite in_map_iff in Hn.
    assert (Hserve : banking.serves StringContains exchangeName targetCurrency
                       (banking.normalise b) = true).
    { unfold banking.normalise, banking.isEmpty. rewrite He, Hs.
      rewrite bool_decide_eq_true_2 by reflexivity. cbn [andb].
      unfold banking.serves.
      cbn [banking.setSupportedExchanges banking.SupportedExchanges
           banking.SupportedCurrencies].
      rewrite Hc, (bool_decide_eq_true_2 ("ALL" = "ALL")) by reflexivity.
      rewrite orb_true_r. reflexivity. }
    rewrite Hn in Hserve; [discriminate|]. exists b. split; [reflexivity | exact Hin].
Qed.

Lemma GetClientBankAccounts_after_check_witness :
  exists bank,
    banking.GetClientBankAccounts exampleStringContains
      (fst (banking.CheckClientBankAccounts [exampleBank])) "Kraken" "U"
    = (bank, None)
    /\ banking.serves exampleStringContains "Kraken" "U" bank = true.
Proof.
  apply (GetClientBankAccounts_after_check exampleStringContains
           [exampleBank] exampleBank "Kraken" "U").
  - reflexivity.
  - left. reflexivity.
  - reflexivity.
  - reflexivity.
  - reflexivity.
Defined.
